(** * mcp-server-graylog: validation, error normalisation and response shaping

    A shallow embedding of [src/index.js].  The file has three layers:

    - [Module Js]: the fragment of ECMAScript the server relies on (dynamic
      values, truthiness, [typeof], property reads, coercions, relational
      comparison, [String.prototype.trim], [Array.prototype.sort], [Date]);
    - the engine and the outside world as interfaces ([Runtime], [Env]):
      number/string conversion, date parsing, collation, JSON printing,
      [CONFIG.baseUrl] and the answers of the remote Graylog API;
    - the server itself, function by function, with the names of [index.js]
      (and, for the checks that [index.js] writes inline, the names that
      [test/validation.test.js] gives to the same code). *)

From Stdlib Require Import ZArith List String Ascii Bool Lia DecimalString.
From Stdlib Require Import Floats.SpecFloat.
From Stdlib Require Import Sorting.Sorted Sorting.Permutation.
From Stdlib Require Import Structures.OrderedTypeEx.
Import ListNotations.

Set Warnings "-register-all".

Local Open Scope string_scope.
Local Open Scope Z_scope.

(** ** JavaScript numbers: IEEE 754 binary64 *)

Module Num.

(** A Number is a binary64 value; [spec_float] is its mathematical
    description (sign, mantissa, exponent, the infinities, NaN). *)
Definition number : Type := spec_float.

Definition prec : Z := 53.
Definition emax : Z := 1024.

(** An integer literal of the source ([50], [900], [1000], ...) denotes the
    binary64 value nearest to it. *)
Definition of_Z (z : Z) : number := binary_normalize prec emax z 0 false.
Arguments of_Z : simpl never.

Definition NaN : number := S754_nan.

Definition isNaN (n : number) : bool :=
  match n with S754_nan => true | _ => false end.

Definition isZero (n : number) : bool :=
  match n with S754_zero _ => true | _ => false end.

Definition isFinite (n : number) : bool :=
  match n with S754_zero _ | S754_finite _ _ _ => true | _ => false end.

(** [Number::lessThan]: a comparison with NaN is [undefined], which the
    relational operators turn into [false]. *)
Definition ltb (a b : number) : bool := SFltb a b.
Definition leb (a b : number) : bool := SFleb a b.

(** Truncation toward zero of a finite value ([ToIntegerOrInfinity]). *)
Definition trunc (n : number) : option Z :=
  match n with
  | S754_zero _ => Some 0
  | S754_finite s m e =>
      let a := if 0 <=? e then Z.pos m * 2 ^ e else Z.pos m / 2 ^ (- e) in
      Some (if s then - a else a)
  | _ => None
  end.

(** The decimal numeral of an integer. *)
Definition string_of_Z (z : Z) : string :=
  DecimalString.NilZero.string_of_int (Z.to_int z).

End Num.

(** ** JavaScript values, errors and the fragment of the language in use *)

Module Js.

(** Values that reach the server: whatever [JSON.parse] can produce, plus
    [undefined] (absent properties, absent arguments).  An object keeps its
    properties in insertion order. *)
Inductive JsValue : Type :=
| JUndefined
| JNull
| JBool (b : bool)
| JNum (n : Num.number)
| JStr (s : string)
| JArr (items : list JsValue)
| JObj (fields : list (string * JsValue)).

(** A thrown exception: every [throw] of the program raises an [Error], the
    engine raises [TypeError]s; the handler reads only [message]. *)
Record JsError : Type := mkError { err_name : string; message : string }.

Definition Error (msg : string) : JsError := mkError "Error" msg.
Definition TypeError (msg : string) : JsError := mkError "TypeError" msg.

(** Completion of a synchronous computation: a value or a thrown error. *)
Inductive Result (A : Type) : Type :=
| Ok (a : A)
| Throw (e : JsError).
Arguments Ok {A} a.
Arguments Throw {A} e.

Definition bind {A B : Type} (c : Result A) (k : A -> Result B) : Result B :=
  match c with
  | Ok a => k a
  | Throw e => Throw e
  end.

Definition isOk {A : Type} (c : Result A) : bool :=
  match c with Ok _ => true | Throw _ => false end.

Declare Scope js_scope.
Delimit Scope js_scope with js.
Notation "x <- c ;; k" := (bind c (fun x => k))
  (at level 61, c at next level, right associativity) : js_scope.
Notation "c ;;; k" := (bind c (fun _ => k))
  (at level 61, right associativity) : js_scope.
Local Open Scope js_scope.

(** *** Elementary operators *)

(** [ToBoolean]. *)
Definition truthy (v : JsValue) : bool :=
  match v with
  | JUndefined | JNull => false
  | JBool b => b
  | JNum n => negb (Num.isNaN n || Num.isZero n)
  | JStr s => negb (String.eqb s "")
  | JArr _ | JObj _ => true
  end.

(** [v === undefined]. *)
Definition is_undefined (v : JsValue) : bool :=
  match v with JUndefined => true | _ => false end.

Definition nullish (v : JsValue) : bool :=
  match v with JUndefined | JNull => true | _ => false end.

(** [a ?? b] and [a || b] (both operands already evaluated: the right-hand
    sides in the program are literals or property reads that cannot throw). *)
Definition coalesce (a b : JsValue) : JsValue := if nullish a then b else a.
Definition or_else (a b : JsValue) : JsValue := if truthy a then a else b.

Definition typeof (v : JsValue) : string :=
  match v with
  | JUndefined => "undefined"
  | JNull => "object"
  | JBool _ => "boolean"
  | JNum _ => "number"
  | JStr _ => "string"
  | JArr _ | JObj _ => "object"
  end.

Fixpoint lookup (k : string) (fields : list (string * JsValue)) : option JsValue :=
  match fields with
  | [] => None
  | (k', v) :: rest => if String.eqb k k' then Some v else lookup k rest
  end.

Definition describe_nullish (v : JsValue) : string :=
  match v with JNull => "null" | _ => "undefined" end.

(** [v.k] and [v[k]] for the property names the program reads.  None of
    them is a member of a built-in prototype, so a primitive or an array
    answers [undefined]; reading from [undefined] or [null] throws (the
    message is V8's). *)
Definition get (v : JsValue) (k : string) : Result JsValue :=
  match v with
  | JUndefined | JNull =>
      Throw (TypeError ("Cannot read properties of " ++ describe_nullish v
                        ++ " (reading '" ++ k ++ "')"))
  | JObj fields =>
      Ok (match lookup k fields with Some x => x | None => JUndefined end)
  | _ => Ok JUndefined
  end.

(** [v?.k]. *)
Definition get_opt (v : JsValue) (k : string) : JsValue :=
  match v with
  | JObj fields => match lookup k fields with Some x => x | None => JUndefined end
  | _ => JUndefined
  end.

(** [const { k, ... } = v]: destructuring [undefined] or [null] throws
    before any property is read. *)
Definition destructure (v : JsValue) (name first : string) : Result unit :=
  if nullish v
  then Throw (TypeError ("Cannot destructure property '" ++ first ++ "' of '"
                         ++ name ++ "' as it is " ++ describe_nullish v ++ "."))
  else Ok tt.

(** *** Strings *)

(** White space and line terminators of ECMAScript among the code units
    below 256: TAB, LF, VT, FF, CR, SP and NBSP. *)
Definition isWhiteSpace (c : ascii) : bool :=
  let n := nat_of_ascii c in
  ((9 <=? n) && (n <=? 13))%nat || (n =? 32)%nat || (n =? 160)%nat.

Fixpoint trimStart (s : string) : string :=
  match s with
  | String c rest => if isWhiteSpace c then trimStart rest else s
  | EmptyString => EmptyString
  end.

Fixpoint trimEnd (s : string) : string :=
  match s with
  | EmptyString => EmptyString
  | String c rest =>
      match trimEnd rest with
      | EmptyString => if isWhiteSpace c then EmptyString else String c EmptyString
      | t => String c t
      end
  end.

(** [String.prototype.trim]. *)
Definition trim (s : string) : string := trimEnd (trimStart s).

(** [String.prototype.includes]. *)
Definition includes (s t : string) : bool :=
  match String.index 0 t s with Some _ => true | None => false end.

(** *** The engine

    Conversions and built-ins whose result ECMA-262 leaves to the engine
    (or defines by an algorithm that plays no part here) are an interface:
    - [StringToNumber]: [ToNumber] applied to a String;
    - [NumberToString]: [Number::toString] in radix 10;
    - [Date_parse]: [Date.parse], the time value in milliseconds since the
      epoch, [None] standing for NaN;
    - [localeCompare]: the sign of [String.prototype.localeCompare];
    - [JSON_stringify]: [JSON.stringify(value, null, 2)]. *)
Class Runtime : Type := {
  StringToNumber : string -> Num.number;
  NumberToString : Num.number -> string;
  Date_parse : string -> option Z;
  localeCompare : string -> string -> comparison;
  JSON_stringify : JsValue -> string
}.

Section Coercions.
Context {rt : Runtime}.

(** [ToString].  An array prints its elements separated by commas, with
    [undefined] and [null] printed as nothing; a plain object prints as
    [[object Object]] unless an own property shadows [toString], in which
    case no conversion method is callable and the engine throws. *)
Fixpoint ToString (v : JsValue) : Result string :=
  match v with
  | JUndefined => Ok "undefined"
  | JNull => Ok "null"
  | JBool true => Ok "true"
  | JBool false => Ok "false"
  | JNum n => Ok (NumberToString n)
  | JStr s => Ok s
  | JArr items =>
      (fix join (l : list JsValue) : Result string :=
         match l with
         | [] => Ok ""
         | x :: rest =>
             sx <- (if nullish x then Ok "" else ToString x) ;;
             match rest with
             | [] => Ok sx
             | _ => sr <- join rest ;; Ok (sx ++ "," ++ sr)
             end
         end) items
  | JObj fields =>
      match lookup "toString" fields with
      | Some _ => Throw (TypeError "Cannot convert object to primitive value")
      | None => Ok "[object Object]"
      end
  end.

(** [ToPrimitive]: an array or object converts through its string form
    ([valueOf] of a plain object or array returns the object itself). *)
Definition ToPrimitive (v : JsValue) : Result JsValue :=
  match v with
  | JArr _ | JObj _ => s <- ToString v ;; Ok (JStr s)
  | _ => Ok v
  end.

(** [ToNumber]. *)
Definition ToNumber (v : JsValue) : Result Num.number :=
  p <- ToPrimitive v ;;
  Ok (match p with
      | JUndefined => Num.NaN
      | JNull => Num.of_Z 0
      | JBool true => Num.of_Z 1
      | JBool false => Num.of_Z 0
      | JNum n => n
      | JStr s => StringToNumber s
      | JArr _ | JObj _ => Num.NaN
      end).

(** [a < b]: two strings compare by code units, anything else as numbers. *)
Definition lessThan (a b : JsValue) : Result bool :=
  pa <- ToPrimitive a ;;
  pb <- ToPrimitive b ;;
  match pa, pb with
  | JStr x, JStr y => Ok (String.ltb x y)
  | _, _ => na <- ToNumber pa ;; nb <- ToNumber pb ;; Ok (Num.ltb na nb)
  end.

(** [a > b] is [b < a] with the operands still evaluated left to right. *)
Definition greaterThan (a b : JsValue) : Result bool :=
  pa <- ToPrimitive a ;;
  pb <- ToPrimitive b ;;
  match pa, pb with
  | JStr x, JStr y => Ok (String.ltb y x)
  | _, _ => na <- ToNumber pa ;; nb <- ToNumber pb ;; Ok (Num.ltb nb na)
  end.

(** *** Dates *)

(** A [Date] object is its time value: milliseconds since the epoch, or
    NaN ("Invalid Date"). *)
Inductive DateObj : Type :=
| ValidDate (t : Z)
| InvalidDate.

(** [TimeClip]: finite, at most 8.64e15 in magnitude, truncated. *)
Definition TimeClip (n : Num.number) : DateObj :=
  match Num.trunc n with
  | Some t => if Z.abs t <=? 8640000000000000 then ValidDate t else InvalidDate
  | None => InvalidDate
  end.

(** [new Date(v)]: a string is parsed, anything else is a time value. *)
Definition new_Date (v : JsValue) : Result DateObj :=
  p <- ToPrimitive v ;;
  match p with
  | JStr s => Ok (match Date_parse s with
                  | Some t => ValidDate t
                  | None => InvalidDate
                  end)
  | _ => n <- ToNumber p ;; Ok (TimeClip n)
  end.

(** [isNaN(date)]. *)
Definition date_isNaN (d : DateObj) : bool :=
  match d with ValidDate _ => false | InvalidDate => true end.

(** [a >= b] on dates: the time values compare as numbers, and any
    comparison with NaN is false. *)
Definition date_ge (a b : DateObj) : bool :=
  match a, b with
  | ValidDate x, ValidDate y => y <=? x
  | _, _ => false
  end.

(** [dateString.includes('T')]: the String method on a string, the Array
    method (membership of the element ['T']) on an array; no other value
    has a callable [includes]. *)
Definition call_includes (name : string) (v : JsValue) (t : string) : Result bool :=
  match v with
  | JStr s => Ok (includes s t)
  | JArr items =>
      Ok (existsb (fun x => match x with JStr u => String.eqb u t | _ => false end) items)
  | JUndefined | JNull =>
      Throw (TypeError ("Cannot read properties of " ++ describe_nullish v
                        ++ " (reading 'includes')"))
  | _ => Throw (TypeError (name ++ ".includes is not a function"))
  end.

(** [v.trim()]. *)
Definition call_trim (name : string) (v : JsValue) : Result string :=
  match v with
  | JStr s => Ok (trim s)
  | JUndefined | JNull =>
      Throw (TypeError ("Cannot read properties of " ++ describe_nullish v
                        ++ " (reading 'trim')"))
  | _ => Throw (TypeError (name ++ ".trim is not a function"))
  end.

(** *** Arrays *)

(** [arr.filter(p)] and [arr.map(f)] with callbacks that may throw. *)
Fixpoint filterM {A : Type} (p : A -> Result bool) (l : list A) : Result (list A) :=
  match l with
  | [] => Ok []
  | x :: rest =>
      b <- p x ;;
      r <- filterM p rest ;;
      Ok (if b then x :: r else r)
  end.

Fixpoint mapM {A B : Type} (f : A -> Result B) (l : list A) : Result (list B) :=
  match l with
  | [] => Ok []
  | x :: rest => y <- f x ;; r <- mapM f rest ;; Ok (y :: r)
  end.

(** [arr.sort(cmp)].  ECMA-262 fixes the result only for a consistent
    comparator and requires the sort to be stable; which pairs the
    comparator is called on, and in which argument order, is left to the
    engine.  A stable insertion sort is one such algorithm: it agrees with
    every engine whenever the comparator does not throw, and on arrays of
    fewer than two elements, where no engine calls the comparator.  It
    calls the comparator with the earlier element first, where Node calls
    it with the later one first: when the comparator throws on some pairs
    only, whether the sort throws is the engine's matter and the model
    decides nothing about it.  [cmp a b] answers the sign of the
    comparator's number. *)
Fixpoint insertM {A : Type} (cmp : A -> A -> Result comparison)
         (x : A) (l : list A) : Result (list A) :=
  match l with
  | [] => Ok [x]
  | y :: rest =>
      c <- cmp x y ;;
      match c with
      | Gt => r <- insertM cmp x rest ;; Ok (y :: r)
      | _ => Ok (x :: y :: rest)
      end
  end.

Fixpoint sortM {A : Type} (cmp : A -> A -> Result comparison)
         (l : list A) : Result (list A) :=
  match l with
  | [] => Ok []
  | x :: rest => r <- sortM cmp rest ;; insertM cmp x r
  end.

(** A JSON array, or the error of calling an Array method on a value
    that has none. *)
Definition as_array (what method : string) (v : JsValue) : Result (list JsValue) :=
  match v with
  | JArr items => Ok items
  | _ => Throw (TypeError (what ++ "." ++ method ++ " is not a function"))
  end.

End Coercions.

End Js.

(** ** A reference engine

    One executable instance of [Runtime], used to run the model on concrete
    requests.  It covers the part of each built-in that ECMA-262 fixes and
    that the examples need: integer numerals, integral number printing, the
    date-time string format [YYYY-MM-DD[THH:mm[:ss[.sss]]][Z]] read as UTC,
    code-unit collation and [JSON.stringify] with a two-space indent.  The
    theorems below hold for every instance. *)

Module Reference.
Import Js.

Definition digit (c : ascii) : option Z :=
  let n := nat_of_ascii c in
  if ((48 <=? n) && (n <=? 57))%nat then Some (Z.of_nat n - 48) else None.

Fixpoint digits (s : string) (acc : Z) : option Z :=
  match s with
  | EmptyString => Some acc
  | String c rest =>
      match digit c with
      | Some d => digits rest (10 * acc + d)
      | None => None
      end
  end.

Definition numeral (s : string) : option Z :=
  match s with
  | EmptyString => None
  | _ => digits s 0
  end.

Definition StringToNumber (s : string) : Num.number :=
  match trim s with
  | EmptyString => Num.of_Z 0
  | String "-" rest =>
      match numeral rest with
      | Some z => SFopp (Num.of_Z z)
      | None => Num.NaN
      end
  | String "+" rest =>
      match numeral rest with
      | Some z => Num.of_Z z
      | None => Num.NaN
      end
  | t =>
      match numeral t with
      | Some z => Num.of_Z z
      | None => Num.NaN
      end
  end.

Definition NumberToString (n : Num.number) : string :=
  match n with
  | S754_nan => "NaN"
  | S754_infinity false => "Infinity"
  | S754_infinity true => "-Infinity"
  | _ => match Num.trunc n with
         | Some z => Num.string_of_Z z
         | None => "NaN"
         end
  end.

(** Days from 1970-01-01 to a date of the proleptic Gregorian calendar. *)
Definition days_from_civil (y m d : Z) : Z :=
  let y' := if m <=? 2 then y - 1 else y in
  let era := y' / 400 in
  let yoe := y' - era * 400 in
  let mp := (m + 9) mod 12 in
  let doy := (153 * mp + 2) / 5 + d - 1 in
  let doe := yoe * 365 + yoe / 4 - yoe / 100 + doy in
  era * 146097 + doe - 719468.

Definition field (i n : nat) (s : string) : option Z :=
  let t := substring i n s in
  if (String.length t =? n)%nat then digits t 0 else None.

Definition at_ (i : nat) (c : string) (s : string) : bool :=
  String.eqb (substring i 1 s) c.

Definition in_range (lo hi : Z) (o : option Z) : option Z :=
  match o with
  | Some z => if (lo <=? z) && (z <=? hi) then Some z else None
  | None => None
  end.

Definition parse_day (s : string) : option Z :=
  match field 0 4 s, in_range 1 12 (field 5 2 s), in_range 1 31 (field 8 2 s) with
  | Some y, Some m, Some d =>
      if at_ 4 "-" s && at_ 7 "-" s then Some (days_from_civil y m d) else None
  | _, _, _ => None
  end.

(** [HH:mm], [HH:mm:ss] or [HH:mm:ss.sss], in milliseconds. *)
Definition parse_clock (t : string) : option Z :=
  match in_range 0 23 (field 0 2 t), in_range 0 59 (field 3 2 t) with
  | Some h, Some mi =>
      if negb (at_ 2 ":" t) then None
      else
        let base := (h * 60 + mi) * 60000 in
        match String.length t with
        | 5%nat => Some base
        | 8%nat =>
            match in_range 0 59 (field 6 2 t) with
            | Some sec => if at_ 5 ":" t then Some (base + sec * 1000) else None
            | None => None
            end
        | 12%nat =>
            match in_range 0 59 (field 6 2 t), field 9 3 t with
            | Some sec, Some ms =>
                if at_ 5 ":" t && at_ 8 "." t
                then Some (base + sec * 1000 + ms) else None
            | _, _ => None
            end
        | _ => None
        end
  | _, _ => None
  end.

Definition Date_parse (s : string) : option Z :=
  match parse_day (substring 0 10 s) with
  | None => None
  | Some days =>
      let n := String.length s in
      if (n =? 10)%nat then Some (days * 86400000)
      else if negb (at_ 10 "T" s) then None
      else
        let t := substring 11 (n - 11) s in
        let k := String.length t in
        let t' := if at_ (k - 1) "Z" t then substring 0 (k - 1) t else t in
        match parse_clock t' with
        | Some ms => Some (days * 86400000 + ms)
        | None => None
        end
  end.

Definition dquote : string := String (ascii_of_nat 34) EmptyString.
Definition newline : string := String (ascii_of_nat 10) EmptyString.

Definition hex_digit (n : nat) : string :=
  substring n 1 "0123456789abcdef".

Definition escape (c : ascii) : string :=
  let n := nat_of_ascii c in
  if (n =? 34)%nat then "\" ++ dquote
  else if (n =? 92)%nat then "\\"
  else if (n =? 8)%nat then "\b"
  else if (n =? 9)%nat then "\t"
  else if (n =? 10)%nat then "\n"
  else if (n =? 12)%nat then "\f"
  else if (n =? 13)%nat then "\r"
  else if (n <? 32)%nat then "\u00" ++ hex_digit (n / 16) ++ hex_digit (n mod 16)
  else String c EmptyString.

Fixpoint escape_all (s : string) : string :=
  match s with
  | EmptyString => EmptyString
  | String c rest => escape c ++ escape_all rest
  end.

Definition quote (s : string) : string := dquote ++ escape_all s ++ dquote.

Fixpoint join (sep : string) (l : list string) : string :=
  match l with
  | [] => ""
  | [x] => x
  | x :: rest => x ++ sep ++ join sep rest
  end.

(** [SerializeJSONProperty] with gap ["  "]: [None] is the [undefined]
    that makes an object omit the property and an array print [null]. *)
Fixpoint serialize (indent : string) (v : JsValue) : option string :=
  let inner := indent ++ "  " in
  match v with
  | JUndefined => None
  | JNull => Some "null"
  | JBool true => Some "true"
  | JBool false => Some "false"
  | JNum n => Some (if Num.isFinite n then NumberToString n else "null")
  | JStr s => Some (quote s)
  | JArr items =>
      let parts :=
        (fix each (l : list JsValue) : list string :=
           match l with
           | [] => []
           | x :: rest =>
               (inner ++ match serialize inner x with Some t => t | None => "null" end)
               :: each rest
           end) items in
      Some (match parts with
            | [] => "[]"
            | _ => "[" ++ newline ++ join ("," ++ newline) parts
                   ++ newline ++ indent ++ "]"
            end)
  | JObj fields =>
      let parts :=
        (fix each (l : list (string * JsValue)) : list string :=
           match l with
           | [] => []
           | (k, x) :: rest =>
               match serialize inner x with
               | Some t => (inner ++ quote k ++ ": " ++ t) :: each rest
               | None => each rest
               end
           end) fields in
      Some (match parts with
            | [] => "{}"
            | _ => "{" ++ newline ++ join ("," ++ newline) parts
                   ++ newline ++ indent ++ "}"
            end)
  end.

Definition JSON_stringify (v : JsValue) : string :=
  match serialize "" v with
  | Some t => t
  | None => "undefined"
  end.

#[export] Instance engine : Runtime := {|
  Js.StringToNumber := StringToNumber;
  Js.NumberToString := NumberToString;
  Js.Date_parse := Date_parse;
  Js.localeCompare := String.compare;
  Js.JSON_stringify := JSON_stringify
|}.

End Reference.

(** ** The server *)

Module Graylog.
Import Js.
Local Open Scope js_scope.

(** *** The outside world *)

(** What [axios.get] rejects with: [error.response] (present when the
    remote answered with a status outside 2xx), [error.request] (present
    when a request was sent) and [error.message]. *)
Record Response : Type := mkResponse { status : Z; data : JsValue }.

Record AxiosError : Type := mkAxiosError {
  response : option Response;
  request : bool;
  error_message : string
}.

Inductive AxiosOutcome : Type :=
| Resolved (body : JsValue)
| Rejected (error : AxiosError).

(** [CONFIG.baseUrl] and the remote API: the outcome of
    [axios.get(url, { params, ... })]. *)
Class Env : Type := {
  baseUrl : string;
  axios_get : string -> JsValue -> AxiosOutcome
}.

(** One outbound request, as recorded in the trace of a tool call. *)
Record HttpGet : Type := mkHttpGet { url : string; params : JsValue }.

(** An asynchronous operation: the requests it sent, and how it settled. *)
Definition Async (A : Type) : Type := (list HttpGet * Result A)%type.

Definition lift {A : Type} (c : Result A) : Async A := ([], c).

Definition bindA {A B : Type} (c : Async A) (k : A -> Async B) : Async B :=
  match c with
  | (tr, Ok a) => let '(tr', r) := k a in ((tr ++ tr')%list, r)
  | (tr, Throw e) => (tr, Throw e)
  end.

Notation "x <~ c ;; k" := (bindA c (fun x => k))
  (at level 61, c at next level, right associativity) : js_scope.

(** The result envelope of the tool-call protocol. *)
Record Content : Type := mkContent { type : string; text : string }.
Record Envelope : Type := mkEnvelope { content : list Content; isError : option bool }.

Record CallToolRequest : Type := mkRequest { name : string; arguments : JsValue }.

Section Server.
Context {rt : Runtime} {env : Env}.

(** *** Helper functions (index.js, lines 45-110) *)

Definition isValidISO8601 (dateString : JsValue) : Result bool :=
  if negb (truthy dateString) then Ok false
  else
    date <- new_Date dateString ;;
    (* [date instanceof Date] always holds *)
    if date_isNaN date then Ok false
    else call_includes "dateString" dateString "T".

Definition validateTimeRange (from to : JsValue) : Result unit :=
  okFrom <- isValidISO8601 from ;;
  if negb okFrom
  then Throw (Error "Invalid 'from' timestamp. Use ISO 8601 format (e.g., '2025-09-29T17:57:26.568Z')")
  else
    okTo <- isValidISO8601 to ;;
    if negb okTo
    then Throw (Error "Invalid 'to' timestamp. Use ISO 8601 format (e.g., '2025-09-30T12:36:20.910Z')")
    else
      fromDate <- new_Date from ;;
      toDate <- new_Date to ;;
      if date_ge fromDate toDate
      then Throw (Error "'from' timestamp must be before 'to' timestamp")
      else Ok tt.

(** [`${data?.message || fallback}`]. *)
Definition message_or (data : JsValue) (fallback : string) : Result string :=
  ToString (or_else (get_opt data "message") (JStr fallback)).

Definition formatError (error : AxiosError) : Result string :=
  match response error with
  | Some r =>
      let status := status r in
      let data := data r in
      if status =? 401 then
        Ok "Authentication failed. Check API_TOKEN in MCP configuration."
      else if status =? 400 then
        m <- message_or data "Check query syntax and parameters" ;;
        Ok ("Invalid query: " ++ m)
      else if status =? 404 then
        Ok "Endpoint not found. Check BASE_URL in MCP configuration."
      else if status =? 500 then
        m <- message_or data (error_message error) ;;
        Ok ("Graylog server error: " ++ m)
      else
        m <- message_or data (error_message error) ;;
        Ok ("Graylog API error (" ++ Num.string_of_Z status ++ "): " ++ m)
  | None =>
      if request error
      then Ok ("Cannot reach Graylog at " ++ baseUrl ++ ". Check network connectivity.")
      else Ok (error_message error)
  end.

(** The [console.error] diagnostic of the [catch] block writes to the
    standard error stream only and is left out. *)
Definition graylogRequest (endpoint : string) (params : JsValue) : Async JsValue :=
  let u := baseUrl ++ endpoint in
  ([mkHttpGet u params],
   match axios_get u params with
   | Resolved body => Ok body
   | Rejected error => m <- formatError error ;; Throw (Error m)
   end).

(** *** The inline checks of the two search tools
    (index.js, lines 256-268 and 316-332; [test/validation.test.js]
    names them). *)

Definition validateQuery (query : JsValue) : Result unit :=
  bad <- (if negb (truthy query) then Ok true
          else if negb (String.eqb (typeof query) "string") then Ok true
          else t <- call_trim "query" query ;; Ok (negb (truthy (JStr t)))) ;;
  if bad
  then Throw (Error "'query' parameter is required and must be a non-empty string")
  else Ok tt.

Definition validateStreamId (streamId : JsValue) : Result unit :=
  if negb (is_undefined streamId) && negb (String.eqb (typeof streamId) "string")
  then Throw (Error "'streamId' must be a string")
  else Ok tt.

Definition validateRangeSeconds (rangeSeconds : JsValue) : Result unit :=
  below <- lessThan rangeSeconds (JNum (Num.of_Z 1)) ;;
  bad <- (if below then Ok true
          else greaterThan rangeSeconds (JNum (Num.of_Z 86400))) ;;
  if bad
  then Throw (Error "'rangeSeconds' must be between 1 and 86400 (24 hours)")
  else Ok tt.

Definition validateLimit (limit : JsValue) : Result unit :=
  below <- lessThan limit (JNum (Num.of_Z 1)) ;;
  bad <- (if below then Ok true
          else greaterThan limit (JNum (Num.of_Z 1000))) ;;
  if bad
  then Throw (Error "'limit' must be between 1 and 1000")
  else Ok tt.

(** [if (streamId) params.filter = `streams:${streamId}`]. *)
Definition withStreamFilter (streamId : JsValue)
           (params : list (string * JsValue)) : Result JsValue :=
  if truthy streamId
  then s <- ToString streamId ;;
       Ok (JObj (params ++ [("filter", JStr ("streams:" ++ s))])%list)
  else Ok (JObj params).

(** *** Response shaping *)

(** [(messages || []).filter(m => m && m.message).map(m => ({...}))]
    (index.js, lines 291-298 and 354-361). *)
Definition keepMessage (m : JsValue) : Result bool :=
  if truthy m then payload <- get m "message" ;; Ok (truthy payload)
  else Ok false.

Definition projectMessage (m : JsValue) : Result JsValue :=
  payload <- get m "message" ;;
  timestamp <- get payload "timestamp" ;;
  message <- get payload "message" ;;
  source <- get payload "source" ;;
  level <- get payload "level" ;;
  Ok (JObj [("timestamp", timestamp); ("message", message);
            ("source", source); ("level", level)]).

Definition formatMessages (messages : JsValue) : Result (list JsValue) :=
  raw <- as_array "(data.messages || [])" "filter" (or_else messages (JArr [])) ;;
  kept <- filterM keepMessage raw ;;
  mapM projectMessage kept.

Definition searchResult (data time_range : JsValue) : Result JsValue :=
  total_results <- get data "total_results" ;;
  built_query <- get data "built_query" ;;
  messages <- get data "messages" ;;
  shaped <- formatMessages messages ;;
  Ok (JObj [("total_results", or_else total_results (JNum (Num.of_Z 0)));
            ("query", built_query);
            ("time_range", time_range);
            ("messages", JArr shaped)]).

Definition textResult (result : JsValue) : Envelope :=
  mkEnvelope [mkContent "text" (JSON_stringify result)] None.

(** *** Tool functions (index.js, lines 250-417) *)

(** Lines 252-281 of [searchLogsAbsolute]: everything up to the request,
    that is, the validation and the request parameters it yields. *)
Definition searchLogsAbsolute_params (args : JsValue) : Result JsValue :=
  destructure args "args" "query" ;;;
  query <- get args "query" ;;
  from <- get args "from" ;;
  to <- get args "to" ;;
  streamId <- get args "streamId" ;;
  args_limit <- get args "limit" ;;
  let limit := coalesce args_limit (JNum (Num.of_Z 50)) in
  validateQuery query ;;;
  validateTimeRange from to ;;;
  validateStreamId streamId ;;;
  validateLimit limit ;;;
  query' <- call_trim "query" query ;;
  from' <- call_trim "from" from ;;
  to' <- call_trim "to" to ;;
  withStreamFilter streamId
    [("query", JStr query'); ("from", JStr from'); ("to", JStr to');
     ("limit", limit); ("fields", JStr "message,timestamp,source,level")].

Definition searchLogsAbsolute (args : JsValue) : Async Envelope :=
  params <~ lift (searchLogsAbsolute_params args) ;;
  data <~ graylogRequest "/api/search/universal/absolute" params ;;
  lift (from <- get args "from" ;;
        to <- get args "to" ;;
        result <- searchResult data (JObj [("from", from); ("to", to)]) ;;
        Ok (textResult result)).

(** Lines 311-344 of [searchLogsRelative]. *)
Definition searchLogsRelative_params (args : JsValue) : Result JsValue :=
  destructure args "args" "query" ;;;
  query <- get args "query" ;;
  streamId <- get args "streamId" ;;
  args_rangeSeconds <- get args "rangeSeconds" ;;
  let rangeSeconds := coalesce args_rangeSeconds (JNum (Num.of_Z 900)) in
  args_limit <- get args "limit" ;;
  let limit := coalesce args_limit (JNum (Num.of_Z 50)) in
  validateQuery query ;;;
  validateRangeSeconds rangeSeconds ;;;
  validateStreamId streamId ;;;
  validateLimit limit ;;;
  query' <- call_trim "query" query ;;
  withStreamFilter streamId
    [("query", JStr query'); ("range", rangeSeconds);
     ("limit", limit); ("fields", JStr "message,timestamp,source,level")].

Definition searchLogsRelative (args : JsValue) : Async Envelope :=
  params <~ lift (searchLogsRelative_params args) ;;
  data <~ graylogRequest "/api/search/universal/relative" params ;;
  lift (args_rangeSeconds <- get args "rangeSeconds" ;;
        let rangeSeconds := coalesce args_rangeSeconds (JNum (Num.of_Z 900)) in
        seconds <- ToString rangeSeconds ;;
        result <- searchResult data (JStr ("Last " ++ seconds ++ " seconds")) ;;
        Ok (textResult result)).

(** [.filter(s => !s.is_default)]. *)
Definition notDefault (s : JsValue) : Result bool :=
  is_default <- get s "is_default" ;;
  Ok (negb (truthy is_default)).

(** [(a, b) => a.title.localeCompare(b.title)]: only a string has the
    method; its argument is converted to a string. *)
Definition compareTitles (a b : JsValue) : Result comparison :=
  title_a <- get a "title" ;;
  match title_a with
  | JUndefined | JNull =>
      Throw (TypeError ("Cannot read properties of " ++ describe_nullish title_a
                        ++ " (reading 'localeCompare')"))
  | JStr x =>
      title_b <- get b "title" ;;
      y <- ToString title_b ;;
      Ok (localeCompare x y)
  | _ =>
      get b "title" ;;;
      Throw (TypeError "a.title.localeCompare is not a function")
  end.

Definition projectStream (s : JsValue) : Result JsValue :=
  id <- get s "id" ;;
  title <- get s "title" ;;
  description <- get s "description" ;;
  disabled <- get s "disabled" ;;
  Ok (JObj [("id", id); ("title", title);
            ("description", or_else description (JStr ""));
            ("disabled", disabled)]).

(** Lines 375-388 of [listStreams]: the shaping of the remote answer. *)
Definition streamsResult (data : JsValue) : Result JsValue :=
  raw <- get data "streams" ;;
  all <- as_array "(data.streams || [])" "filter" (or_else raw (JArr [])) ;;
  kept <- filterM notDefault all ;;
  sorted <- sortM compareTitles kept ;;
  streams <- mapM projectStream sorted ;;
  Ok (JObj [("total", JNum (Num.of_Z (Z.of_nat (List.length streams))));
            ("streams", JArr streams)]).

Definition listStreams : Async Envelope :=
  data <~ graylogRequest "/api/streams" (JObj []) ;;
  lift (result <- streamsResult data ;; Ok (textResult result)).

Definition systemResult (data : JsValue) : Result JsValue :=
  version <- get data "version" ;;
  codename <- get data "codename" ;;
  cluster_id <- get data "cluster_id" ;;
  node_id <- get data "node_id" ;;
  hostname <- get data "hostname" ;;
  is_processing <- get data "is_processing" ;;
  timezone <- get data "timezone" ;;
  Ok (JObj [("version", version); ("codename", codename);
            ("cluster_id", cluster_id); ("node_id", node_id);
            ("hostname", hostname); ("is_processing", is_processing);
            ("timezone", timezone)]).

Definition getSystemInfo : Async Envelope :=
  data <~ graylogRequest "/api/system" (JObj []) ;;
  lift (result <- systemResult data ;; Ok (textResult result)).

(** *** The dispatcher (index.js, lines 215-244) *)

(** The [switch] inside the [try] block. *)
Definition callTool (name : string) (args : JsValue) : Async Envelope :=
  if String.eqb name "search_logs_absolute" then searchLogsAbsolute args
  else if String.eqb name "search_logs_relative" then searchLogsRelative args
  else if String.eqb name "list_streams" then listStreams
  else if String.eqb name "get_system_info" then getSystemInfo
  else lift (Throw (Error ("Unknown tool: " ++ name))).

Definition errorEnvelope (error : JsError) : Envelope :=
  mkEnvelope [mkContent "text" ("Error: " ++ message error)] (Some true).

(** The handler registered for [CallToolRequestSchema]: what it returns
    to the transport, together with the requests it sent. *)
Definition CallToolRequest_handler (request : CallToolRequest)
  : list HttpGet * Envelope :=
  let name := name request in
  let args := arguments request in
  match callTool name args with
  | (sent, Ok envelope) => (sent, envelope)
  | (sent, Throw error) => (sent, errorEnvelope error)
  end.

End Server.

(** *** Startup (index.js, lines 20-39) *)

(** How [validateEnvironment] leaves the process: terminated by
    [process.exit], or running; either way with the lines it wrote to the
    standard error stream. *)
Inductive Startup : Type :=
| Exits (code : Z) (stderr : list string)
| Runs (stderr : list string).

(** A variable of [process.env]: a string, or [undefined] when unset. *)
Definition env_value (v : option string) : JsValue :=
  match v with Some s => JStr s | None => JUndefined end.

Definition validateEnvironment (BASE_URL API_TOKEN : option string) : Startup :=
  let required := [("BASE_URL", env_value BASE_URL); ("API_TOKEN", env_value API_TOKEN)] in
  let missing :=
    map fst (filter (fun entry => negb (truthy (snd entry))) required) in
  if (0 <? List.length missing)%nat
  then Exits 1
         [("[graylog-mcp] FATAL: Missing environment variables: "
           ++ String.concat ", " missing);
          "[graylog-mcp] Set these in your MCP client configuration."]
  else Runs ["[graylog-mcp] Connected to "
             ++ match BASE_URL with Some b => b | None => "undefined" end].

(** *** Tool definitions (index.js, lines 129-209) *)

Definition dq : string := String (ascii_of_nat 34) EmptyString.

Definition property (type description : string) (more : list (string * JsValue)) : JsValue :=
  JObj ([("type", JStr type); ("description", JStr description)] ++ more).

Definition tool (name description : string) (properties : list (string * JsValue))
           (more : list (string * JsValue)) : JsValue :=
  JObj [("name", JStr name);
        ("description", JStr description);
        ("inputSchema",
         JObj ([("type", JStr "object"); ("properties", JObj properties)] ++ more))].

(** The handler registered for [ListToolsRequestSchema]. *)
Definition ListToolsRequest_handler : JsValue :=
  JObj
    [("tools",
      JArr
        [tool "search_logs_absolute"
           "Search Graylog logs using absolute timestamps (from/to). Use this for debugging errors with specific timestamps."
           [("query",
             property "string"
               ("Search query using Elasticsearch syntax (e.g., '" ++ dq
                ++ "/api/v1/registrations" ++ dq ++ " AND " ++ dq ++ "PUT" ++ dq ++ "')")
               []);
            ("from",
             property "string"
               "Start timestamp in ISO 8601 format (e.g., '2025-09-29T17:57:26.568Z')" []);
            ("to",
             property "string"
               "End timestamp in ISO 8601 format (e.g., '2025-09-30T12:36:20.910Z')" []);
            ("streamId",
             property "string"
               "Optional: Stream ID to filter results (use list_streams to find IDs)" []);
            ("limit",
             property "number" "Maximum number of results (default: 50, max: 1000)"
               [("default", JNum (Num.of_Z 50))])]
           [("required", JArr [JStr "query"; JStr "from"; JStr "to"])];
         tool "search_logs_relative"
           "Search Graylog logs using relative time range (e.g., last 15 minutes). Use this for recent log queries."
           [("query", property "string" "Search query using Elasticsearch syntax" []);
            ("rangeSeconds",
             property "number" "Time range in seconds (e.g., 900 = last 15 minutes)"
               [("default", JNum (Num.of_Z 900))]);
            ("streamId", property "string" "Optional: Stream ID to filter results" []);
            ("limit",
             property "number" "Maximum number of results (default: 50)"
               [("default", JNum (Num.of_Z 50))])]
           [("required", JArr [JStr "query"])];
         tool "list_streams"
           "List all available Graylog streams (applications). Use this to discover stream IDs for filtering."
           [] [];
         tool "get_system_info"
           "Get Graylog system information and health status. Use this to verify connectivity."
           [] []])].

End Graylog.

(** ** Vocabulary of the properties

    Total counterparts of the callbacks of the program, the shape of an
    accepted request, and the sort that [Array.prototype.sort] stands for,
    as the statements below use them. *)

Import Js Graylog.
Local Open Scope js_scope.

(** The optional stream filter that a validated [streamId] adds. *)
Definition streamFilter (sid : JsValue) : list (string * JsValue) :=
  match sid with
  | JStr s => if String.eqb s "" then [] else [("filter", JStr ("streams:" ++ s))]
  | _ => []
  end.

(** The arguments object [args] carries these values under the names the
    absolute search reads ([undefined] standing for an absent property). *)
Definition absolute_request (args : JsValue) (q f t : string) (sid lim : JsValue) : Prop :=
  get args "query" = Ok (JStr q) /\
  get args "from" = Ok (JStr f) /\
  get args "to" = Ok (JStr t) /\
  get args "streamId" = Ok sid /\
  get args "limit" = Ok lim.

(** The same for the relative search. *)
Definition relative_request (args : JsValue) (q : string) (rs sid lim : JsValue) : Prop :=
  get args "query" = Ok (JStr q) /\
  get args "rangeSeconds" = Ok rs /\
  get args "streamId" = Ok sid /\
  get args "limit" = Ok lim.

(** The request parameters of an accepted absolute search. *)
Definition absoluteParams (q f t : string) (sid limit : JsValue) : JsValue :=
  JObj ([("query", JStr (trim q)); ("from", JStr (trim f)); ("to", JStr (trim t));
         ("limit", limit); ("fields", JStr "message,timestamp,source,level")]
        ++ streamFilter sid).

(** The request parameters of an accepted relative search. *)
Definition relativeParams (q : string) (range sid limit : JsValue) : JsValue :=
  JObj ([("query", JStr (trim q)); ("range", range);
         ("limit", limit); ("fields", JStr "message,timestamp,source,level")]
        ++ streamFilter sid).

(** What the [filter] callback of the search tools decides, and what the
    [map] callback builds, as total functions. *)
Definition keptMessage (m : JsValue) : bool :=
  truthy m && truthy (get_opt m "message").

Definition projectedMessage (m : JsValue) : JsValue :=
  let payload := get_opt m "message" in
  JObj [("timestamp", get_opt payload "timestamp");
        ("message", get_opt payload "message");
        ("source", get_opt payload "source");
        ("level", get_opt payload "level")].

(** The same for the stream list. *)
Definition keptStream (s : JsValue) : bool :=
  negb (truthy (get_opt s "is_default")).

Definition projectedStream (s : JsValue) : JsValue :=
  JObj [("id", get_opt s "id");
        ("title", get_opt s "title");
        ("description", or_else (get_opt s "description") (JStr ""));
        ("disabled", get_opt s "disabled")].

Definition title_of (s : JsValue) : string :=
  match get_opt s "title" with JStr t => t | _ => "" end.

Definition hasTitle (s : JsValue) : Prop :=
  nullish s = false /\ exists t, get_opt s "title" = JStr t.

(** Insertion of [x] before the first element that does not precede it, and
    the sort built on it. *)
Fixpoint insert {A : Type} (cmp : A -> A -> comparison) (x : A) (l : list A) : list A :=
  match l with
  | [] => [x]
  | y :: rest =>
      match cmp x y with
      | Gt => y :: insert cmp x rest
      | _ => x :: y :: rest
      end
  end.

Fixpoint isort {A : Type} (cmp : A -> A -> comparison) (l : list A) : list A :=
  match l with
  | [] => []
  | x :: rest => insert cmp x (isort cmp rest)
  end.

(** [a] may come before [b] under the comparator. *)
Definition precedes {A : Type} (cmp : A -> A -> comparison) (a b : A) : Prop :=
  cmp a b <> Gt.

(** The comparator of the stream list on entries with string titles. *)
Definition byTitle {rt : Runtime} (a b : JsValue) : comparison :=
  localeCompare (title_of a) (title_of b).

(** The exclusion test of the stream list as the specification words it,
    [is_default === true], and the statement that the list leaves out
    exactly the entries that pass it. *)
Definition isDefaultTrue (s : JsValue) : bool :=
  match get_opt s "is_default" with JBool true => true | _ => false end.

Definition excludes_exactly_boolean_true (rt : Runtime) : Prop :=
  forall data raw,
    lookup "streams" data = Some (JArr raw) ->
    Forall (fun s => nullish s = false) raw ->
    Forall hasTitle raw ->
    exists kept,
      streamsResult (JObj data)
      = Ok (JObj [("total", JNum (Num.of_Z (Z.of_nat (List.length kept))));
                  ("streams", JArr (map projectedStream kept))]) /\
      (forall s, In s kept <-> In s raw /\ isDefaultTrue s = false).

(** What the tool list advertises: the names, and for a tool the
    properties its schema requires and the default its schema gives. *)
Definition items_of (v : JsValue) : list JsValue :=
  match v with JArr items => items | _ => [] end.

Definition string_of (v : JsValue) : string :=
  match v with JStr s => s | _ => "" end.

Definition advertisedTools : list JsValue :=
  items_of (get_opt ListToolsRequest_handler "tools").

Definition advertisedNames : list string :=
  map (fun t => string_of (get_opt t "name")) advertisedTools.

Definition schemaOf (name : string) : JsValue :=
  match find (fun t => String.eqb (string_of (get_opt t "name")) name) advertisedTools with
  | Some t => get_opt t "inputSchema"
  | None => JUndefined
  end.

Definition requiredOf (name : string) : list string :=
  map string_of (items_of (get_opt (schemaOf name) "required")).

Definition defaultOf (name prop : string) : JsValue :=
  get_opt (get_opt (get_opt (schemaOf name) "properties") prop) "default".

(** The messages of the errors that the checks of the two searches raise. *)
Definition validationMessages : list string :=
  ["'query' parameter is required and must be a non-empty string";
   "Invalid 'from' timestamp. Use ISO 8601 format (e.g., '2025-09-29T17:57:26.568Z')";
   "Invalid 'to' timestamp. Use ISO 8601 format (e.g., '2025-09-30T12:36:20.910Z')";
   "'from' timestamp must be before 'to' timestamp";
   "'rangeSeconds' must be between 1 and 86400 (24 hours)";
   "'streamId' must be a string";
   "'limit' must be between 1 and 1000"].

(** The four endpoints of the remote API. *)
Definition endpoints : list string :=
  ["/api/search/universal/absolute"; "/api/search/universal/relative";
   "/api/streams"; "/api/system"].

(** First and last character of a string. *)
Definition first_char (s : string) : option ascii :=
  match s with String c _ => Some c | EmptyString => None end.

Fixpoint last_char (s : string) : option ascii :=
  match s with
  | EmptyString => None
  | String c EmptyString => Some c
  | String _ rest => last_char rest
  end.

(** No white space at either end. *)
Definition trimmed (s : string) : Prop :=
  (forall c, first_char s = Some c -> isWhiteSpace c = false) /\
  (forall c, last_char s = Some c -> isWhiteSpace c = false).

(** The property names of an object, in order. *)
Definition keys (v : JsValue) : list string :=
  match v with JObj fields => map fst fields | _ => [] end.

(** The seven fields of the system status. *)
Definition systemFields : list string :=
  ["version"; "codename"; "cluster_id"; "node_id"; "hostname";
   "is_processing"; "timezone"].

(** The integers from [lo], [n] of them. *)
Fixpoint Zrange (lo : Z) (n : nat) : list Z :=
  match n with
  | O => []
  | S n' => lo :: Zrange (lo + 1) n'
  end.

(** The test on the entries of [messages] as the specification words it
    (neither the entry nor its nested payload is null or absent), and the
    statement that a search keeps exactly the entries that pass it. *)
Definition keptAsStated (m : JsValue) : bool :=
  negb (nullish m) && negb (nullish (get_opt m "message")).

Definition shapes_messages_as_stated (rt : Runtime) (env : Env) : Prop :=
  forall args params q rs sid lim seconds fields raw,
    searchLogsRelative_params args = Ok params ->
    relative_request args q rs sid lim ->
    ToString (coalesce rs (JNum (Num.of_Z 900))) = Ok seconds ->
    axios_get (baseUrl ++ "/api/search/universal/relative") params
    = Resolved (JObj fields) ->
    lookup "messages" fields = Some (JArr raw) ->
    snd (searchLogsRelative args)
    = Ok (textResult
            (JObj [("total_results",
                    or_else (get_opt (JObj fields) "total_results") (JNum (Num.of_Z 0)));
                   ("query", get_opt (JObj fields) "built_query");
                   ("time_range", JStr ("Last " ++ seconds ++ " seconds"));
                   ("messages",
                    JArr (map projectedMessage (filter keptAsStated raw)))])).

(** The statement that every remote failure is normalised to a message:
    here, that every 400 answer yields the invalid-query message. *)
Definition every_400_yields_a_message (rt : Runtime) (env : Env) : Prop :=
  forall error r,
    response error = Some r -> status r = 400 ->
    exists detail, formatError error = Ok ("Invalid query: " ++ detail).

(** Requests and remotes for the concrete runs. *)

Module Runs.
Import Reference.

Definition exampleEnv (answer : AxiosOutcome) : Env :=
  {| baseUrl := "https://graylog.example.com";
     axios_get := fun _ _ => answer |}.

Definition noAnswer : AxiosOutcome :=
  Rejected (mkAxiosError None true "timeout of 30000ms exceeded").

Definition absoluteArgs (extra : list (string * JsValue)) : JsValue :=
  JObj ([("query", JStr "level:ERROR");
         ("from", JStr "2025-09-29T17:57:26.568Z");
         ("to", JStr "2025-09-30T12:36:20.910Z")] ++ extra).

Definition relativeArgs (extra : list (string * JsValue)) : JsValue :=
  JObj ([("query", JStr "level:ERROR")] ++ extra).

Definition stream (id title : string) (extra : list (string * JsValue)) : JsValue :=
  JObj ([("id", JStr id); ("title", JStr title); ("disabled", JBool false)] ++ extra).

End Runs.

(** ** Properties *)

(** *** Numbers *)

Lemma SFcompare_antisym (a b : spec_float) :
  SFcompare b a = option_map CompOpp (SFcompare a b).
Proof.
  destruct a as [sa|sa| |sa ma ea], b as [sb|sb| |sb mb eb]; simpl;
    try reflexivity; try (destruct sa; reflexivity); try (destruct sb; reflexivity);
    try (destruct sa, sb; reflexivity).
  destruct sa, sb; simpl; try reflexivity;
    rewrite (Z.compare_antisym ea eb); destruct (ea ?= eb)%Z; simpl; try reflexivity;
    change (Pos.compare_cont Eq mb ma) with (Pos.compare mb ma);
    change (Pos.compare_cont Eq ma mb) with (Pos.compare ma mb);
    rewrite (Pos.compare_antisym ma mb); destruct (ma ?= mb)%positive; reflexivity.
Qed.

(** [a <= b] excludes [b < a]. *)
Lemma leb_not_gtb (a b : Num.number) :
  Num.leb a b = true -> Num.ltb b a = false.
Proof.
  unfold Num.leb, Num.ltb, SFleb, SFltb. rewrite (SFcompare_antisym a b).
  destruct (SFcompare a b) as [[| |]|]; simpl; congruence.
Qed.

Lemma ltb_nan_l (a : Num.number) : Num.ltb Num.NaN a = false.
Proof. reflexivity. Qed.

Lemma ltb_nan_r (a : Num.number) : Num.ltb a Num.NaN = false.
Proof. destruct a; reflexivity. Qed.

Lemma negative_below_one (n : Num.number) :
  Num.ltb n (Num.of_Z 0) = true -> Num.ltb n (Num.of_Z 1) = true.
Proof.
  destruct n as [s|s| |s m e]; try destruct s; simpl; try discriminate; reflexivity.
Qed.

(** *** The error monad *)

Lemma bind_Ok_inv {A B : Type} (c : Result A) (k : A -> Result B) (b : B) :
  bind c k = Ok b -> exists a, c = Ok a /\ k a = Ok b.
Proof. destruct c as [a|e]; simpl; [eauto | discriminate]. Qed.

Lemma isOk_true {A : Type} (c : Result A) :
  isOk c = true <-> exists a, c = Ok a.
Proof.
  destruct c; simpl; split; eauto; try discriminate.
  intros [a H]; discriminate.
Qed.

Ltac bind_inv H :=
  let a := fresh "a" in
  let Ha := fresh "Ha" in
  apply bind_Ok_inv in H; destruct H as [a [Ha H]].

(** *** Parameter validation *)

Section Validation.
Context {rt : Runtime}.

Lemma ToPrimitive_ToNumber (v p : JsValue) :
  ToPrimitive v = Ok p -> ToNumber p = ToNumber v.
Proof.
  destruct v; intros H; unfold ToPrimitive in H;
    try (injection H as <-; reflexivity).
  - unfold ToNumber at 2. unfold ToPrimitive.
    destruct (ToString (JArr items)) as [s|e];
      [injection H as <-; reflexivity | discriminate].
  - unfold ToNumber at 2. unfold ToPrimitive.
    destruct (ToString (JObj fields)) as [s|e];
      [injection H as <-; reflexivity | discriminate].
Qed.

Lemma ToNumber_ToPrimitive (v : JsValue) (n : Num.number) :
  ToNumber v = Ok n -> exists p, ToPrimitive v = Ok p /\ ToNumber p = Ok n.
Proof.
  intros H. destruct (ToPrimitive v) as [p|e] eqn:E.
  - exists p. split; [reflexivity|]. now rewrite (ToPrimitive_ToNumber v p E).
  - unfold ToNumber in H. rewrite E in H. discriminate.
Qed.

(** Against a number, [<] and [>] compare the numeric value of the other
    operand. *)
Lemma lessThan_number (v : JsValue) (n m : Num.number) :
  ToNumber v = Ok n -> lessThan v (JNum m) = Ok (Num.ltb n m).
Proof.
  intros H. destruct (ToNumber_ToPrimitive v n H) as [p [Hp Hn]].
  unfold lessThan. rewrite Hp.
  destruct p; cbn [bind ToPrimitive]; rewrite Hn; reflexivity.
Qed.

Lemma greaterThan_number (v : JsValue) (n m : Num.number) :
  ToNumber v = Ok n -> greaterThan v (JNum m) = Ok (Num.ltb m n).
Proof.
  intros H. destruct (ToNumber_ToPrimitive v n H) as [p [Hp Hn]].
  unfold greaterThan. rewrite Hp.
  destruct p; cbn [bind ToPrimitive]; rewrite Hn; reflexivity.
Qed.

Lemma validateLimit_number (v : JsValue) (n : Num.number) :
  ToNumber v = Ok n ->
  validateLimit v =
    if Num.ltb n (Num.of_Z 1) || Num.ltb (Num.of_Z 1000) n
    then Throw (Error "'limit' must be between 1 and 1000")
    else Ok tt.
Proof.
  intros H. unfold validateLimit.
  rewrite (lessThan_number v n _ H). cbn [bind].
  destruct (Num.ltb n (Num.of_Z 1)); cbn [bind orb]; [reflexivity|].
  rewrite (greaterThan_number v n _ H). cbn [bind].
  destruct (Num.ltb (Num.of_Z 1000) n); reflexivity.
Qed.

Lemma validateRangeSeconds_number (v : JsValue) (n : Num.number) :
  ToNumber v = Ok n ->
  validateRangeSeconds v =
    if Num.ltb n (Num.of_Z 1) || Num.ltb (Num.of_Z 86400) n
    then Throw (Error "'rangeSeconds' must be between 1 and 86400 (24 hours)")
    else Ok tt.
Proof.
  intros H. unfold validateRangeSeconds.
  rewrite (lessThan_number v n _ H). cbn [bind].
  destruct (Num.ltb n (Num.of_Z 1)); cbn [bind orb]; [reflexivity|].
  rewrite (greaterThan_number v n _ H). cbn [bind].
  destruct (Num.ltb (Num.of_Z 86400) n); reflexivity.
Qed.

Lemma validateStreamId_Ok (sid : JsValue) :
  validateStreamId sid = Ok tt <-> sid = JUndefined \/ exists s, sid = JStr s.
Proof.
  unfold validateStreamId. destruct sid; simpl; split; intros H;
    try discriminate; eauto;
    destruct H as [H | [s H]]; discriminate.
Qed.

Lemma validateStreamId_Throw (sid : JsValue) :
  is_undefined sid = false -> typeof sid <> "string" ->
  validateStreamId sid = Throw (Error "'streamId' must be a string").
Proof.
  unfold validateStreamId. intros -> H.
  destruct (String.eqb_spec (typeof sid) "string"); [contradiction | reflexivity].
Qed.

Lemma validateQuery_Ok (query : JsValue) :
  validateQuery query = Ok tt <-> exists s, query = JStr s /\ trim s <> "".
Proof.
  split.
  - unfold validateQuery. destruct query; simpl; intros H; try discriminate.
    + destruct b; discriminate.
    + destruct (negb (Num.isNaN n || Num.isZero n)); discriminate.
    + exists s. split; [reflexivity|].
      destruct (String.eqb_spec s ""); simpl in H; [discriminate|].
      destruct (String.eqb_spec (trim s) ""); simpl in H; [discriminate | assumption].
  - intros [s [-> Ht]]. unfold validateQuery. simpl.
    destruct (String.eqb_spec s "") as [->|_]; simpl; [now elim Ht|].
    destruct (String.eqb_spec (trim s) ""); simpl; [contradiction | reflexivity].
Qed.

Lemma withStreamFilter_valid (sid : JsValue) (fields : list (string * JsValue)) :
  validateStreamId sid = Ok tt ->
  withStreamFilter sid fields = Ok (JObj (fields ++ streamFilter sid)).
Proof.
  intros H. apply validateStreamId_Ok in H. destruct H as [-> | [s ->]].
  - unfold withStreamFilter. simpl. now rewrite app_nil_r.
  - unfold withStreamFilter. simpl.
    destruct (String.eqb s ""); simpl; [now rewrite app_nil_r | reflexivity].
Qed.

Lemma lookup_app_not_filter (k : string) (fields : list (string * JsValue)) (sid : JsValue) :
  k <> "filter" -> lookup k (fields ++ streamFilter sid) = lookup k fields.
Proof.
  intros Hk. induction fields as [|[k' v] rest IH]; simpl.
  - destruct sid; simpl; try reflexivity.
    destruct (String.eqb s ""); simpl; [reflexivity|].
    destruct (String.eqb_spec k "filter"); [contradiction | reflexivity].
  - destruct (String.eqb k k'); [reflexivity | exact IH].
Qed.

End Validation.

(** *** The two search tools up to the request *)

Section Searches.
Context {rt : Runtime}.

Lemma get_Ok_not_nullish (args : JsValue) (k : string) (v : JsValue) :
  get args k = Ok v -> nullish args = false.
Proof. destruct args; simpl; intros H; try reflexivity; discriminate. Qed.

(** With a usable query and time range, the absolute search comes down to
    its last two checks. *)
Lemma searchLogsAbsolute_params_checks args q f t sid lim :
  absolute_request args q f t sid lim ->
  trim q <> "" ->
  validateTimeRange (JStr f) (JStr t) = Ok tt ->
  searchLogsAbsolute_params args =
    (validateStreamId sid ;;;
     validateLimit (coalesce lim (JNum (Num.of_Z 50))) ;;;
     withStreamFilter sid
       [("query", JStr (trim q)); ("from", JStr (trim f)); ("to", JStr (trim t));
        ("limit", coalesce lim (JNum (Num.of_Z 50)));
        ("fields", JStr "message,timestamp,source,level")]).
Proof.
  intros (Hq & Hf & Ht & Hs & Hl) Hne Htr.
  unfold searchLogsAbsolute_params, destructure.
  rewrite (get_Ok_not_nullish _ _ _ Hq), Hq, Hf, Ht, Hs, Hl. cbn [bind].
  rewrite (proj2 (validateQuery_Ok (JStr q))) by eauto.
  rewrite Htr. reflexivity.
Qed.

Lemma searchLogsAbsolute_params_accepts args q f t sid lim :
  absolute_request args q f t sid lim ->
  trim q <> "" ->
  validateTimeRange (JStr f) (JStr t) = Ok tt ->
  validateStreamId sid = Ok tt ->
  validateLimit (coalesce lim (JNum (Num.of_Z 50))) = Ok tt ->
  searchLogsAbsolute_params args =
    Ok (absoluteParams q f t sid (coalesce lim (JNum (Num.of_Z 50)))).
Proof.
  intros Hargs Hne Htr Hsid Hlim.
  rewrite (searchLogsAbsolute_params_checks _ _ _ _ _ _ Hargs Hne Htr).
  rewrite Hsid, Hlim. cbn [bind].
  now rewrite withStreamFilter_valid.
Qed.

(** With a usable query, the relative search comes down to its last three
    checks. *)
Lemma searchLogsRelative_params_checks args q rs sid lim :
  relative_request args q rs sid lim ->
  trim q <> "" ->
  searchLogsRelative_params args =
    (validateRangeSeconds (coalesce rs (JNum (Num.of_Z 900))) ;;;
     validateStreamId sid ;;;
     validateLimit (coalesce lim (JNum (Num.of_Z 50))) ;;;
     withStreamFilter sid
       [("query", JStr (trim q)); ("range", coalesce rs (JNum (Num.of_Z 900)));
        ("limit", coalesce lim (JNum (Num.of_Z 50)));
        ("fields", JStr "message,timestamp,source,level")]).
Proof.
  intros (Hq & Hr & Hs & Hl) Hne.
  unfold searchLogsRelative_params, destructure.
  rewrite (get_Ok_not_nullish _ _ _ Hq), Hq, Hr, Hs, Hl. cbn [bind].
  rewrite (proj2 (validateQuery_Ok (JStr q))) by eauto.
  reflexivity.
Qed.

Lemma searchLogsRelative_params_accepts args q rs sid lim :
  relative_request args q rs sid lim ->
  trim q <> "" ->
  validateRangeSeconds (coalesce rs (JNum (Num.of_Z 900))) = Ok tt ->
  validateStreamId sid = Ok tt ->
  validateLimit (coalesce lim (JNum (Num.of_Z 50))) = Ok tt ->
  searchLogsRelative_params args =
    Ok (relativeParams q (coalesce rs (JNum (Num.of_Z 900))) sid
          (coalesce lim (JNum (Num.of_Z 50)))).
Proof.
  intros Hargs Hne Hrs Hsid Hlim.
  rewrite (searchLogsRelative_params_checks _ _ _ _ _ Hargs Hne).
  rewrite Hrs, Hsid, Hlim. cbn [bind].
  now rewrite withStreamFilter_valid.
Qed.

(** Whatever else the arguments hold, an accepted search has passed each
    check on the values it read. *)
Lemma searchLogsAbsolute_params_Ok_inv args params :
  searchLogsAbsolute_params args = Ok params ->
  exists sid lim,
    get args "streamId" = Ok sid /\ get args "limit" = Ok lim /\
    validateStreamId sid = Ok tt /\
    validateLimit (coalesce lim (JNum (Num.of_Z 50))) = Ok tt.
Proof.
  unfold searchLogsAbsolute_params. intros H.
  do 10 bind_inv H.
  repeat match goal with u : unit |- _ => destruct u end.
  eauto 10.
Qed.

Lemma searchLogsRelative_params_Ok_inv args params :
  searchLogsRelative_params args = Ok params ->
  exists rs sid lim,
    get args "rangeSeconds" = Ok rs /\ get args "streamId" = Ok sid /\
    get args "limit" = Ok lim /\
    validateRangeSeconds (coalesce rs (JNum (Num.of_Z 900))) = Ok tt /\
    validateStreamId sid = Ok tt /\
    validateLimit (coalesce lim (JNum (Num.of_Z 50))) = Ok tt.
Proof.
  unfold searchLogsRelative_params. intros H.
  do 9 bind_inv H.
  repeat match goal with u : unit |- _ => destruct u end.
  eauto 12.
Qed.

End Searches.

(** *** Limits, ranges and stream ids *)

Section SearchValidation.
Context {rt : Runtime}.

Lemma get_absoluteParams_limit q f t sid limit :
  get (absoluteParams q f t sid limit) "limit" = Ok limit.
Proof.
  unfold absoluteParams, get.
  rewrite lookup_app_not_filter by discriminate. reflexivity.
Qed.

Lemma get_relativeParams_limit q range sid limit :
  get (relativeParams q range sid limit) "limit" = Ok limit.
Proof.
  unfold relativeParams, get.
  rewrite lookup_app_not_filter by discriminate. reflexivity.
Qed.

Lemma get_relativeParams_range q range sid limit :
  get (relativeParams q range sid limit) "range" = Ok range.
Proof.
  unfold relativeParams, get.
  rewrite lookup_app_not_filter by discriminate. reflexivity.
Qed.

Lemma validateLimit_in_range (n : Num.number) :
  Num.leb (Num.of_Z 1) n = true -> Num.leb n (Num.of_Z 1000) = true ->
  validateLimit (JNum n) = Ok tt.
Proof.
  intros H1 H2. rewrite (validateLimit_number (JNum n) n eq_refl).
  now rewrite (leb_not_gtb _ _ H1), (leb_not_gtb _ _ H2).
Qed.

Lemma validateLimit_out_of_range (n : Num.number) :
  Num.ltb n (Num.of_Z 1) = true \/ Num.ltb (Num.of_Z 1000) n = true ->
  validateLimit (JNum n) = Throw (Error "'limit' must be between 1 and 1000").
Proof.
  intros H. rewrite (validateLimit_number (JNum n) n eq_refl).
  destruct H as [-> | ->]; [reflexivity | now rewrite orb_true_r].
Qed.

Lemma validateRangeSeconds_in_range (n : Num.number) :
  Num.leb (Num.of_Z 1) n = true -> Num.leb n (Num.of_Z 86400) = true ->
  validateRangeSeconds (JNum n) = Ok tt.
Proof.
  intros H1 H2. rewrite (validateRangeSeconds_number (JNum n) n eq_refl).
  now rewrite (leb_not_gtb _ _ H1), (leb_not_gtb _ _ H2).
Qed.

Lemma validateRangeSeconds_out_of_range (n : Num.number) :
  Num.ltb n (Num.of_Z 1) = true \/ Num.ltb (Num.of_Z 86400) n = true ->
  validateRangeSeconds (JNum n) =
    Throw (Error "'rangeSeconds' must be between 1 and 86400 (24 hours)").
Proof.
  intros H. rewrite (validateRangeSeconds_number (JNum n) n eq_refl).
  destruct H as [-> | ->]; [reflexivity | now rewrite orb_true_r].
Qed.

(** Whatever the other arguments are, a limit of zero is never accepted by
    either search. *)
Lemma limit_zero_never_accepted (args : JsValue) :
  get args "limit" = Ok (JNum (Num.of_Z 0)) ->
  isOk (searchLogsAbsolute_params args) = false /\
  isOk (searchLogsRelative_params args) = false.
Proof.
  intros Hl. split.
  - destruct (searchLogsAbsolute_params args) as [p|e] eqn:E; [|reflexivity].
    apply searchLogsAbsolute_params_Ok_inv in E.
    destruct E as (sid & lim & _ & Hl' & _ & Hv).
    rewrite Hl in Hl'. injection Hl' as <-. discriminate Hv.
  - destruct (searchLogsRelative_params args) as [p|e] eqn:E; [|reflexivity].
    apply searchLogsRelative_params_Ok_inv in E.
    destruct E as (rs & sid & lim & _ & _ & Hl' & _ & _ & Hv).
    rewrite Hl in Hl'. injection Hl' as <-. discriminate Hv.
Qed.

(** C2.  Absolute search, with a usable query, time range and stream id:
    an absent or null [limit] is validated and sent as 50; any other value
    is taken as it is (so 0 is not replaced by the default); a number in
    [1, 1000] is accepted and sent unchanged; a number below 1 or above
    1000, and 0 in particular, is rejected with the error that names the
    range, ['limit' must be between 1 and 1000]. *)
Theorem absolute_limit_validation args q f t sid lim :
  absolute_request args q f t sid lim ->
  trim q <> "" ->
  validateTimeRange (JStr f) (JStr t) = Ok tt ->
  validateStreamId sid = Ok tt ->
  (nullish lim = true ->
     searchLogsAbsolute_params args =
       Ok (absoluteParams q f t sid (JNum (Num.of_Z 50)))) /\
  (nullish lim = false ->
     forall params, searchLogsAbsolute_params args = Ok params ->
                    get params "limit" = Ok lim) /\
  (forall n, lim = JNum n ->
     Num.leb (Num.of_Z 1) n = true -> Num.leb n (Num.of_Z 1000) = true ->
     searchLogsAbsolute_params args = Ok (absoluteParams q f t sid (JNum n))) /\
  (forall n, lim = JNum n ->
     Num.ltb n (Num.of_Z 1) = true \/ Num.ltb (Num.of_Z 1000) n = true ->
     searchLogsAbsolute_params args =
       Throw (Error "'limit' must be between 1 and 1000")) /\
  (lim = JNum (Num.of_Z 0) ->
     searchLogsAbsolute_params args =
       Throw (Error "'limit' must be between 1 and 1000")).
Proof.
  intros Hargs Hq Htr Hsid.
  pose proof (searchLogsAbsolute_params_checks _ _ _ _ _ _ Hargs Hq Htr) as E.
  rewrite Hsid in E. cbn [bind] in E.
  assert (Hout : forall n, lim = JNum n ->
            Num.ltb n (Num.of_Z 1) = true \/ Num.ltb (Num.of_Z 1000) n = true ->
            searchLogsAbsolute_params args =
              Throw (Error "'limit' must be between 1 and 1000")).
  { intros n -> Hn. rewrite E. cbn [coalesce nullish].
    now rewrite (validateLimit_out_of_range n Hn). }
  repeat split.
  - intros Hnull.
    rewrite (searchLogsAbsolute_params_accepts _ _ _ _ _ _ Hargs Hq Htr Hsid);
      unfold coalesce; rewrite Hnull; [reflexivity|].
    now apply validateLimit_in_range.
  - intros Hnn params Hp. rewrite E in Hp. unfold coalesce in Hp.
    rewrite Hnn in Hp. bind_inv Hp.
    rewrite (withStreamFilter_valid _ _ Hsid) in Hp. injection Hp as <-.
    apply get_absoluteParams_limit.
  - intros n -> H1 H2.
    now rewrite (searchLogsAbsolute_params_accepts _ _ _ _ _ _ Hargs Hq Htr Hsid)
      by (apply validateLimit_in_range; assumption).
  - exact Hout.
  - intros ->. apply (Hout _ eq_refl). left. reflexivity.
Qed.

(** C7.  Relative search, with a usable query: an absent or null
    [rangeSeconds] is validated and sent as 900, any other value is taken
    as it is; a number in [1, 86400] is accepted (the stream id and the
    limit being acceptable too) and sent unchanged; 0, a negative number
    or a number above 86400 is rejected with an error whose text names the
    bounds "1 and 86400". *)
Theorem relative_rangeSeconds_validation args q rs sid lim :
  relative_request args q rs sid lim ->
  trim q <> "" ->
  (validateStreamId sid = Ok tt ->
   validateLimit (coalesce lim (JNum (Num.of_Z 50))) = Ok tt ->
     (nullish rs = true ->
        searchLogsRelative_params args =
          Ok (relativeParams q (JNum (Num.of_Z 900)) sid
                (coalesce lim (JNum (Num.of_Z 50))))) /\
     (forall n, rs = JNum n ->
        Num.leb (Num.of_Z 1) n = true -> Num.leb n (Num.of_Z 86400) = true ->
        searchLogsRelative_params args =
          Ok (relativeParams q (JNum n) sid (coalesce lim (JNum (Num.of_Z 50)))))) /\
  (nullish rs = false ->
     forall params, searchLogsRelative_params args = Ok params ->
                    get params "range" = Ok rs) /\
  (forall n, rs = JNum n ->
     n = Num.of_Z 0 \/ Num.ltb n (Num.of_Z 0) = true \/
     Num.ltb n (Num.of_Z 1) = true \/ Num.ltb (Num.of_Z 86400) n = true ->
     exists msg,
       searchLogsRelative_params args = Throw (Error msg) /\
       msg = "'rangeSeconds' must be between 1 and 86400 (24 hours)" /\
       includes msg "1 and 86400" = true).
Proof.
  intros Hargs Hq.
  pose proof (searchLogsRelative_params_checks _ _ _ _ _ Hargs Hq) as E.
  split; [|split].
  - intros Hsid Hlim. split.
    + intros Hnull.
      rewrite (searchLogsRelative_params_accepts _ _ _ _ _ Hargs Hq);
        try assumption.
      * unfold coalesce at 1. now rewrite Hnull.
      * unfold coalesce. rewrite Hnull.
        now apply validateRangeSeconds_in_range.
    + intros n -> H1 H2.
      rewrite (searchLogsRelative_params_accepts _ _ _ _ _ Hargs Hq);
        try assumption; [reflexivity|].
      now apply validateRangeSeconds_in_range.
  - intros Hnn params Hp.
    destruct (searchLogsRelative_params_Ok_inv _ _ Hp)
      as (rs' & sid' & lim' & Hr' & Hs' & Hl' & Hvr & Hvs & Hvl).
    destruct Hargs as (_ & Hr & Hs & Hl).
    rewrite Hr in Hr'. rewrite Hs in Hs'. rewrite Hl in Hl'.
    injection Hr' as <-. injection Hs' as <-. injection Hl' as <-.
    rewrite E, Hvr, Hvs, Hvl in Hp. cbn [bind] in Hp.
    rewrite (withStreamFilter_valid _ _ Hvs) in Hp. injection Hp as <-.
    unfold coalesce at 1. rewrite Hnn. apply get_relativeParams_range.
  - intros n -> Hn. eexists. split; [|split; [reflexivity | reflexivity]].
    rewrite E. cbn [coalesce nullish].
    rewrite validateRangeSeconds_out_of_range; [reflexivity|].
    destruct Hn as [-> | [Hn | [Hn | Hn]]]; auto.
    left. now apply negative_below_one.
Qed.

(** C8.  A [streamId] that is neither [undefined] nor a string ([null]
    included) fails the streamId check with ['streamId' must be a string];
    that is the error of either search once the checks that come before it
    pass, and no such request is accepted whatever its other arguments.
    [undefined] and every string pass the check. *)
Theorem streamId_validation (sid : JsValue) :
  (is_undefined sid = false -> typeof sid <> "string" ->
     validateStreamId sid = Throw (Error "'streamId' must be a string") /\
     (forall args q f t lim,
        absolute_request args q f t sid lim -> trim q <> "" ->
        validateTimeRange (JStr f) (JStr t) = Ok tt ->
        searchLogsAbsolute_params args = Throw (Error "'streamId' must be a string")) /\
     (forall args q rs lim,
        relative_request args q rs sid lim -> trim q <> "" ->
        validateRangeSeconds (coalesce rs (JNum (Num.of_Z 900))) = Ok tt ->
        searchLogsRelative_params args = Throw (Error "'streamId' must be a string")) /\
     (forall args, get args "streamId" = Ok sid ->
        isOk (searchLogsAbsolute_params args) = false /\
        isOk (searchLogsRelative_params args) = false)) /\
  (is_undefined sid = true \/ typeof sid = "string" ->
     validateStreamId sid = Ok tt) /\
  (sid = JNull -> validateStreamId sid = Throw (Error "'streamId' must be a string")).
Proof.
  split; [|split].
  - intros Hu Ht. pose proof (validateStreamId_Throw sid Hu Ht) as Hv.
    repeat split.
    + exact Hv.
    + intros args q f t lim Hargs Hq Htr.
      rewrite (searchLogsAbsolute_params_checks _ _ _ _ _ _ Hargs Hq Htr).
      now rewrite Hv.
    + intros args q rs lim Hargs Hq Hrs.
      rewrite (searchLogsRelative_params_checks _ _ _ _ _ Hargs Hq).
      now rewrite Hrs, Hv.
    + destruct (searchLogsAbsolute_params args) as [p|e] eqn:E; [|reflexivity].
      apply searchLogsAbsolute_params_Ok_inv in E.
      destruct E as (sid' & lim & Hs' & _ & Hv' & _).
      rewrite H in Hs'. injection Hs' as <-. rewrite Hv in Hv'. discriminate.
    + destruct (searchLogsRelative_params args) as [p|e] eqn:E; [|reflexivity].
      apply searchLogsRelative_params_Ok_inv in E.
      destruct E as (rs & sid' & lim & _ & Hs' & _ & _ & Hv' & _).
      rewrite H in Hs'. injection Hs' as <-. rewrite Hv in Hv'. discriminate.
  - intros [H | H]; destruct sid; simpl in *; try discriminate; reflexivity.
  - intros ->. reflexivity.
Qed.

End SearchValidation.

(** *** Requests sent by the search tools *)

Section Requests.
Context {rt : Runtime} {env : Env}.

Lemma graylogRequest_sent (endpoint : string) (params : JsValue) :
  fst (graylogRequest endpoint params) = [mkHttpGet (baseUrl ++ endpoint) params].
Proof. reflexivity. Qed.

Lemma bindA_lift_Throw {A B : Type} (e : JsError) (k : A -> Async B) :
  bindA (lift (Throw e)) k = ([], Throw e).
Proof. reflexivity. Qed.

Lemma bindA_lift_Ok {A B : Type} (a : A) (k : A -> Async B) :
  bindA (lift (Ok a)) k = k a.
Proof. unfold bindA, lift. destruct (k a). reflexivity. Qed.

(** A request followed by a step that sends nothing more. *)
Lemma fst_request_then {B : Type} endpoint params (k : JsValue -> Result B) :
  fst (bindA (graylogRequest endpoint params) (fun data => lift (k data)))
  = [mkHttpGet (baseUrl ++ endpoint) params].
Proof.
  unfold bindA, graylogRequest, lift.
  destruct (axios_get (baseUrl ++ endpoint) params) as [body|error]; cbn [bind].
  - reflexivity.
  - destruct (formatError error); reflexivity.
Qed.

Lemma searchLogsAbsolute_rejected args e :
  searchLogsAbsolute_params args = Throw e ->
  searchLogsAbsolute args = ([], Throw e).
Proof. intros H. unfold searchLogsAbsolute. now rewrite H. Qed.

Lemma searchLogsAbsolute_sent args params :
  searchLogsAbsolute_params args = Ok params ->
  fst (searchLogsAbsolute args)
  = [mkHttpGet (baseUrl ++ "/api/search/universal/absolute") params].
Proof.
  intros H. unfold searchLogsAbsolute. rewrite H, bindA_lift_Ok.
  apply fst_request_then.
Qed.

Lemma searchLogsRelative_rejected args e :
  searchLogsRelative_params args = Throw e ->
  searchLogsRelative args = ([], Throw e).
Proof. intros H. unfold searchLogsRelative. now rewrite H. Qed.

Lemma searchLogsRelative_sent args params :
  searchLogsRelative_params args = Ok params ->
  fst (searchLogsRelative args)
  = [mkHttpGet (baseUrl ++ "/api/search/universal/relative") params].
Proof.
  intros H. unfold searchLogsRelative. rewrite H, bindA_lift_Ok.
  apply fst_request_then.
Qed.

(** C10.  A limit that is not nullish and whose numeric value is NaN (the
    number NaN, a string that is not a numeral) makes both comparisons
    false, so the limit check raises nothing; with the other arguments
    acceptable, either search is accepted and sends that very value as the
    [limit] of its request.  The rejection applies exactly to the values
    that compare below 1 or above 1000. *)
Theorem incomparable_limit_is_forwarded (lim : JsValue) :
  ToNumber lim = Ok Num.NaN ->
  nullish lim = false ->
  (lessThan lim (JNum (Num.of_Z 1)) = Ok false /\
   greaterThan lim (JNum (Num.of_Z 1000)) = Ok false /\
   validateLimit lim = Ok tt) /\
  (forall args q f t sid,
     absolute_request args q f t sid lim -> trim q <> "" ->
     validateTimeRange (JStr f) (JStr t) = Ok tt ->
     validateStreamId sid = Ok tt ->
     searchLogsAbsolute_params args = Ok (absoluteParams q f t sid lim) /\
     get (absoluteParams q f t sid lim) "limit" = Ok lim /\
     fst (searchLogsAbsolute args)
     = [mkHttpGet (baseUrl ++ "/api/search/universal/absolute")
                  (absoluteParams q f t sid lim)]) /\
  (forall args q rs sid,
     relative_request args q rs sid lim -> trim q <> "" ->
     validateRangeSeconds (coalesce rs (JNum (Num.of_Z 900))) = Ok tt ->
     validateStreamId sid = Ok tt ->
     let range := coalesce rs (JNum (Num.of_Z 900)) in
     searchLogsRelative_params args = Ok (relativeParams q range sid lim) /\
     get (relativeParams q range sid lim) "limit" = Ok lim /\
     fst (searchLogsRelative args)
     = [mkHttpGet (baseUrl ++ "/api/search/universal/relative")
                  (relativeParams q range sid lim)]) /\
  (forall v n, ToNumber v = Ok n ->
     (validateLimit v = Throw (Error "'limit' must be between 1 and 1000")
      <-> Num.ltb n (Num.of_Z 1) = true \/ Num.ltb (Num.of_Z 1000) n = true)).
Proof.
  intros Hnan Hnn.
  assert (Hv : validateLimit lim = Ok tt).
  { rewrite (validateLimit_number lim _ Hnan). reflexivity. }
  assert (Hc : coalesce lim (JNum (Num.of_Z 50)) = lim).
  { unfold coalesce. now rewrite Hnn. }
  split; [|split; [|split]].
  - rewrite (lessThan_number lim _ _ Hnan), (greaterThan_number lim _ _ Hnan).
    repeat split; assumption.
  - intros args q f t sid Hargs Hq Htr Hsid.
    assert (E : searchLogsAbsolute_params args = Ok (absoluteParams q f t sid lim)).
    { rewrite (searchLogsAbsolute_params_accepts _ _ _ _ _ _ Hargs Hq Htr Hsid);
        rewrite Hc; [reflexivity | exact Hv]. }
    split; [exact E|]. split; [apply get_absoluteParams_limit|].
    now apply searchLogsAbsolute_sent.
  - intros args q rs sid Hargs Hq Hrs Hsid range.
    assert (E : searchLogsRelative_params args = Ok (relativeParams q range sid lim)).
    { rewrite (searchLogsRelative_params_accepts _ _ _ _ _ Hargs Hq Hrs Hsid);
        rewrite Hc; [reflexivity | exact Hv]. }
    split; [exact E|]. split; [apply get_relativeParams_limit|].
    now apply searchLogsRelative_sent.
  - intros v n Hn. rewrite (validateLimit_number v n Hn).
    destruct (Num.ltb n (Num.of_Z 1)), (Num.ltb (Num.of_Z 1000) n); cbn [orb];
      split; intros H; try reflexivity; try discriminate; auto.
    destruct H; discriminate.
Qed.

End Requests.

(** *** Timestamps *)

Lemma includes_T_cons (c : ascii) (s : string) :
  includes (String c s) "T" = Ascii.eqb c "T" || includes s "T".
Proof.
  unfold includes. cbn [index prefix].
  destruct (ascii_dec "T" c) as [<-|Hne].
  - destruct s; reflexivity.
  - replace (Ascii.eqb c "T") with false
      by (symmetry; apply Ascii.eqb_neq; congruence).
    cbn [orb]. destruct (index 0 "T" s); reflexivity.
Qed.

(** [includes s "T"] holds exactly of the strings that contain the
    character T. *)
Lemma includes_T_iff (s : string) :
  includes s "T" = true <-> exists a b, s = a ++ "T" ++ b.
Proof.
  split.
  - induction s as [|c s IH]; [discriminate|].
    rewrite includes_T_cons. intros H. apply orb_true_iff in H.
    destruct H as [H | H].
    + apply Ascii.eqb_eq in H. subst c. exists "", s. reflexivity.
    + destruct (IH H) as (a & b & ->). exists (String c a), b. reflexivity.
  - intros (a & b & ->). induction a as [|c a IH].
    + cbn [append]. rewrite includes_T_cons. reflexivity.
    + cbn [append]. cbn [append] in IH. rewrite includes_T_cons, IH.
      apply orb_true_r.
Qed.

Section Timestamps.
Context {rt : Runtime}.

Lemma new_Date_string (s : string) :
  new_Date (JStr s)
  = Ok (match Date_parse s with Some t => ValidDate t | None => InvalidDate end).
Proof. reflexivity. Qed.

Lemma isValidISO8601_string (s : string) :
  isValidISO8601 (JStr s)
  = Ok (match Date_parse s with Some _ => includes s "T" | None => false end).
Proof.
  unfold isValidISO8601. cbn [truthy].
  destruct (String.eqb_spec s "") as [->|Hne]; cbn [negb].
  - destruct (Date_parse ""); reflexivity.
  - rewrite new_Date_string. cbn [bind].
    destruct (Date_parse s); reflexivity.
Qed.

(** C3.  For strings [f] and [t], the time-range check succeeds exactly
    when both parse to a date, both contain the character T and the time
    of [f] is strictly before the time of [t].  A bare date such as
    [2025-09-29] is rejected in either position, and so is a pair of
    equal values. *)
Theorem time_range_validation (f t : string) :
  (validateTimeRange (JStr f) (JStr t) = Ok tt <->
   exists tf tt',
     Date_parse f = Some tf /\ Date_parse t = Some tt' /\
     (exists a b, f = a ++ "T" ++ b) /\ (exists a b, t = a ++ "T" ++ b) /\
     tf < tt') /\
  validateTimeRange (JStr "2025-09-29") (JStr t)
  = Throw (Error "Invalid 'from' timestamp. Use ISO 8601 format (e.g., '2025-09-29T17:57:26.568Z')") /\
  validateTimeRange (JStr f) (JStr "2025-09-29") <> Ok tt /\
  validateTimeRange (JStr f) (JStr f) <> Ok tt /\
  (isValidISO8601 (JStr f) = Ok true ->
   validateTimeRange (JStr f) (JStr f)
   = Throw (Error "'from' timestamp must be before 'to' timestamp")).
Proof.
  assert (Main' : forall f t,
    validateTimeRange (JStr f) (JStr t) = Ok tt <->
    exists tf tt',
      Date_parse f = Some tf /\ Date_parse t = Some tt' /\
      includes f "T" = true /\ includes t "T" = true /\ tf < tt').
  { clear f t. intros f t. unfold validateTimeRange.
    rewrite !isValidISO8601_string, !new_Date_string. cbn [bind].
    destruct (Date_parse f) as [tf|], (Date_parse t) as [tt'|];
      destruct (includes f "T"), (includes t "T"); cbn [negb bind date_ge];
      try (split; [discriminate | intros (x & y & H1 & H2 & H3 & H4 & _);
                                  discriminate]).
    destruct (Z.leb_spec tt' tf) as [Hle|Hgt]; split; intros H;
      try discriminate; try reflexivity.
    - destruct H as (x & y & H1 & H2 & _ & _ & Hlt).
      injection H1 as <-. injection H2 as <-. lia.
    - exists tf, tt'. repeat split; try reflexivity; assumption. }
  assert (Main : forall f t,
    validateTimeRange (JStr f) (JStr t) = Ok tt <->
    exists tf tt',
      Date_parse f = Some tf /\ Date_parse t = Some tt' /\
      (exists a b, f = a ++ "T" ++ b) /\ (exists a b, t = a ++ "T" ++ b) /\
      tf < tt').
  { clear f t. intros f t. rewrite Main'. split.
    - intros (x & y & H1 & H2 & H3 & H4 & H5). exists x, y.
      apply includes_T_iff in H3, H4. repeat split; assumption.
    - intros (x & y & H1 & H2 & H3 & H4 & H5). exists x, y.
      apply includes_T_iff in H3, H4. repeat split; assumption. }
  split; [apply Main|]. split; [|split; [|split]].
  - unfold validateTimeRange. rewrite isValidISO8601_string.
    destruct (Date_parse "2025-09-29"); reflexivity.
  - intros H. apply Main in H.
    destruct H as (_ & _ & _ & _ & _ & H & _).
    apply includes_T_iff in H. discriminate.
  - intros H. apply Main in H.
    destruct H as (x & y & H1 & H2 & _ & _ & Hlt).
    rewrite H1 in H2. injection H2 as <-. lia.
  - intros Hv. unfold validateTimeRange. rewrite Hv. cbn [bind negb].
    rewrite isValidISO8601_string in Hv. rewrite new_Date_string.
    destruct (Date_parse f) as [tf|]; [|discriminate]. cbn [bind date_ge].
    now rewrite Z.leb_refl.
Qed.

End Timestamps.

(** *** Remote failures *)

Section RemoteFailures.
Context {rt : Runtime} {env : Env}.

(** The server-supplied message when there is one that prints, else the
    fallback. *)
Lemma message_or_fallback (data : JsValue) (fallback : string) :
  truthy (get_opt data "message") = false ->
  message_or data fallback = Ok fallback.
Proof. intros H. unfold message_or, or_else. now rewrite H. Qed.

Lemma message_or_string (data : JsValue) (fallback s : string) :
  get_opt data "message" = JStr s -> s <> "" ->
  message_or data fallback = Ok s.
Proof.
  intros H Hs. unfold message_or, or_else. rewrite H. cbn [truthy].
  destruct (String.eqb_spec s ""); [contradiction | reflexivity].
Qed.

End RemoteFailures.

(** *** Response shaping *)

Section Sorting.
Context {A : Type} (cmp : A -> A -> comparison).

Lemma insert_perm (x : A) (l : list A) : Permutation (x :: l) (insert cmp x l).
Proof.
  induction l as [|y rest IH]; cbn [insert]; [reflexivity|].
  destruct (cmp x y); try reflexivity.
  rewrite perm_swap. now apply perm_skip.
Qed.

Lemma isort_perm (l : list A) : Permutation l (isort cmp l).
Proof.
  induction l as [|x rest IH]; cbn [isort]; [reflexivity|].
  rewrite <- insert_perm. now apply perm_skip.
Qed.

Hypothesis cmp_antisym : forall a b, cmp b a = CompOpp (cmp a b).

Lemma insert_sorted (x : A) (l : list A) :
  Sorted (precedes cmp) l -> Sorted (precedes cmp) (insert cmp x l).
Proof.
  induction l as [|y rest IH]; cbn [insert]; intros Hs.
  - repeat constructor.
  - destruct (cmp x y) eqn:E.
    + constructor; [assumption|]. constructor. unfold precedes. congruence.
    + constructor; [assumption|]. constructor. unfold precedes. congruence.
    + inversion Hs as [|? ? Hrest Hhd]; subst.
      constructor; [now apply IH|].
      assert (Hyx : precedes cmp y x).
      { unfold precedes. rewrite (cmp_antisym x y), E. discriminate. }
      destruct rest as [|z rest']; cbn [insert].
      * now constructor.
      * destruct (cmp x z); constructor; try assumption;
          now inversion Hhd.
Qed.

Lemma isort_sorted (l : list A) : Sorted (precedes cmp) (isort cmp l).
Proof.
  induction l as [|x rest IH]; cbn [isort]; [constructor|].
  now apply insert_sorted.
Qed.

End Sorting.

Section SortM.
Context {A : Type} (cmpM : A -> A -> Result comparison)
        (cmp : A -> A -> comparison) (P : A -> Prop).
Hypothesis cmpM_pure : forall a b, P a -> P b -> cmpM a b = Ok (cmp a b).

Lemma insertM_pure (x : A) (l : list A) :
  P x -> Forall P l -> insertM cmpM x l = Ok (insert cmp x l).
Proof.
  intros Hx. induction l as [|y rest IH]; intros Hl; cbn [insertM insert].
  - reflexivity.
  - inversion Hl; subst. rewrite cmpM_pure by assumption. cbn [bind].
    destruct (cmp x y); try reflexivity.
    now rewrite IH.
Qed.

Lemma sortM_pure (l : list A) :
  Forall P l -> sortM cmpM l = Ok (isort cmp l).
Proof.
  induction l as [|x rest IH]; intros Hl; cbn [sortM isort]; [reflexivity|].
  inversion Hl; subst. rewrite IH by assumption. cbn [bind].
  apply insertM_pure; [assumption|].
  eapply Permutation_Forall; [apply isort_perm | assumption].
Qed.

End SortM.

Lemma filterM_pure {A : Type} (p : A -> Result bool) (q : A -> bool) (l : list A) :
  (forall x, In x l -> p x = Ok (q x)) -> filterM p l = Ok (filter q l).
Proof.
  induction l as [|x rest IH]; intros H; cbn [filterM filter]; [reflexivity|].
  rewrite H by (left; reflexivity). cbn [bind].
  rewrite IH by (intros; apply H; now right). cbn [bind].
  destruct (q x); reflexivity.
Qed.

Lemma mapM_pure {A B : Type} (f : A -> Result B) (g : A -> B) (l : list A) :
  (forall x, In x l -> f x = Ok (g x)) -> mapM f l = Ok (map g l).
Proof.
  induction l as [|x rest IH]; intros H; cbn [mapM map]; [reflexivity|].
  rewrite H by (left; reflexivity). cbn [bind].
  rewrite IH by (intros; apply H; now right). reflexivity.
Qed.

Lemma get_not_nullish (v : JsValue) (k : string) :
  nullish v = false -> get v k = Ok (get_opt v k).
Proof. destruct v; simpl; intros H; try reflexivity; discriminate. Qed.

Lemma truthy_not_nullish (v : JsValue) : truthy v = true -> nullish v = false.
Proof. destruct v; simpl; intros H; try reflexivity; discriminate. Qed.

Section Shaping.
Context {rt : Runtime}.

Lemma keepMessage_pure (m : JsValue) : keepMessage m = Ok (keptMessage m).
Proof.
  unfold keepMessage, keptMessage. destruct (truthy m) eqn:E; [|reflexivity].
  now rewrite (get_not_nullish m _ (truthy_not_nullish m E)).
Qed.

Lemma projectMessage_kept (m : JsValue) :
  keptMessage m = true -> projectMessage m = Ok (projectedMessage m).
Proof.
  unfold keptMessage. intros H. apply andb_true_iff in H. destruct H as [Hm Hp].
  apply truthy_not_nullish in Hm, Hp.
  unfold projectMessage, projectedMessage.
  rewrite (get_not_nullish m _ Hm). cbn [bind].
  now rewrite !(get_not_nullish (get_opt m "message") _ Hp).
Qed.

Lemma formatMessages_array (raw : list JsValue) :
  formatMessages (JArr raw) = Ok (map projectedMessage (filter keptMessage raw)).
Proof.
  unfold formatMessages. cbn [or_else truthy as_array bind].
  rewrite (filterM_pure keepMessage keptMessage)
    by (intros; apply keepMessage_pure).
  cbn [bind]. apply mapM_pure.
  intros m Hm. apply filter_In in Hm. now apply projectMessage_kept.
Qed.

(** **** Streams *)

Lemma notDefault_pure (s : JsValue) :
  nullish s = false -> notDefault s = Ok (keptStream s).
Proof. intros H. unfold notDefault. now rewrite (get_not_nullish s _ H). Qed.

Lemma projectStream_pure (s : JsValue) :
  nullish s = false -> projectStream s = Ok (projectedStream s).
Proof.
  intros H. unfold projectStream, projectedStream.
  now rewrite !(get_not_nullish s _ H).
Qed.

Lemma compareTitles_pure (a b : JsValue) :
  hasTitle a -> hasTitle b -> compareTitles a b = Ok (byTitle a b).
Proof.
  intros [Ha [x Hx]] [Hb [y Hy]]. unfold compareTitles, byTitle, title_of.
  rewrite (get_not_nullish a _ Ha), (get_not_nullish b _ Hb), Hx, Hy.
  reflexivity.
Qed.

(** The stream list, for an answer whose [streams] entries are not null
    and whose retained entries have a string title. *)
Lemma streamsResult_array (data : list (string * JsValue)) (raw : list JsValue) :
  lookup "streams" data = Some (JArr raw) ->
  Forall (fun s => nullish s = false) raw ->
  Forall hasTitle (filter keptStream raw) ->
  let streams := map projectedStream (isort byTitle (filter keptStream raw)) in
  streamsResult (JObj data)
  = Ok (JObj [("total", JNum (Num.of_Z (Z.of_nat (List.length streams))));
              ("streams", JArr streams)]).
Proof.
  intros Hd Hraw Htitles streams. unfold streamsResult. cbn [get bind].
  rewrite Hd. cbn [or_else truthy as_array bind].
  rewrite (filterM_pure notDefault keptStream)
    by (intros s Hs; apply notDefault_pure;
        exact (proj1 (Forall_forall _ raw) Hraw s Hs)).
  cbn [bind].
  rewrite (sortM_pure compareTitles byTitle hasTitle compareTitles_pure)
    by assumption.
  cbn [bind].
  rewrite (mapM_pure projectStream projectedStream).
  - reflexivity.
  - intros s Hs. apply projectStream_pure.
    apply (Permutation_in _ (Permutation_sym (isort_perm byTitle _))) in Hs.
    apply filter_In in Hs. destruct Hs as [Hs _].
    exact (proj1 (Forall_forall _ raw) Hraw s Hs).
Qed.

End Shaping.

Section Streams.
Context {rt : Runtime}.

(** C5, as the code has it.  For an answer whose [streams] entries are
    not null and whose retained entries have string titles, and a
    collation whose sign flips when its arguments are swapped: the list
    leaves out exactly the entries whose [is_default] is truthy (the
    boolean [true] or any other value that is not falsy), orders the rest
    ascending by title under [localeCompare], projects each to [id],
    [title], [description] (the empty string when absent or falsy) and
    [disabled], and reports as [total] the number of streams returned. *)
Theorem stream_list_shaping (data : list (string * JsValue)) (raw : list JsValue) :
  lookup "streams" data = Some (JArr raw) ->
  Forall (fun s => nullish s = false) raw ->
  Forall hasTitle (filter keptStream raw) ->
  (forall x y, localeCompare y x = CompOpp (localeCompare x y)) ->
  exists kept,
    let streams := map projectedStream kept in
    streamsResult (JObj data)
    = Ok (JObj [("total", JNum (Num.of_Z (Z.of_nat (List.length streams))));
                ("streams", JArr streams)]) /\
    (forall s, In s kept <-> In s raw /\ truthy (get_opt s "is_default") = false) /\
    Permutation kept (filter keptStream raw) /\
    Sorted (fun a b => localeCompare (title_of a) (title_of b) <> Gt) kept /\
    ((forall x y z, localeCompare x y <> Gt -> localeCompare y z <> Gt ->
                    localeCompare x z <> Gt) ->
     StronglySorted (fun a b => localeCompare (title_of a) (title_of b) <> Gt) kept) /\
    (forall s, truthy (get_opt s "description") = false ->
               get (projectedStream s) "description" = Ok (JStr "")) /\
    (forall s, truthy (get_opt s "description") = true ->
               get (projectedStream s) "description" = Ok (get_opt s "description")).
Proof.
  intros Hd Hraw Htitles Hanti.
  exists (isort byTitle (filter keptStream raw)). cbv zeta.
  split; [exact (streamsResult_array data raw Hd Hraw Htitles)|].
  assert (Hperm := isort_perm byTitle (filter keptStream raw)).
  assert (Hsorted : Sorted (fun a b => localeCompare (title_of a) (title_of b) <> Gt)
                           (isort byTitle (filter keptStream raw))).
  { apply (isort_sorted byTitle). intros a b. apply Hanti. }
  repeat match goal with |- _ /\ _ => split end.
  - intros s. split.
    + intros Hs. apply (Permutation_in _ (Permutation_sym Hperm)) in Hs.
      apply filter_In in Hs. destruct Hs as [Hin Hk]. split; [assumption|].
      unfold keptStream in Hk. now apply negb_true_iff in Hk.
    + intros [Hin Hk]. apply (Permutation_in _ Hperm).
      apply filter_In. split; [assumption|].
      unfold keptStream. now rewrite Hk.
  - now apply Permutation_sym.
  - exact Hsorted.
  - intros Htrans. apply Sorted_StronglySorted; [|exact Hsorted].
    intros a b c. apply Htrans.
  - intros s Hs. unfold projectedStream, or_else. cbn [get lookup String.eqb].
    now rewrite Hs.
  - intros s Hs. unfold projectedStream, or_else. cbn [get lookup String.eqb].
    now rewrite Hs.
Qed.

End Streams.

(** *** The dispatcher *)

Section Dispatch.
Context {rt : Runtime} {env : Env}.

Lemma graylogRequest_rejected endpoint params error m :
  axios_get (baseUrl ++ endpoint) params = Rejected error ->
  formatError error = Ok m ->
  graylogRequest endpoint params
  = ([mkHttpGet (baseUrl ++ endpoint) params], Throw (Error m)).
Proof. intros H Hm. unfold graylogRequest. now rewrite H, Hm. Qed.

Lemma graylogRequest_resolved endpoint params body :
  axios_get (baseUrl ++ endpoint) params = Resolved body ->
  graylogRequest endpoint params
  = ([mkHttpGet (baseUrl ++ endpoint) params], Ok body).
Proof. intros H. unfold graylogRequest. now rewrite H. Qed.

(** A request followed by a shaping step that answers a text result. *)
Lemma request_then_text endpoint params (k : JsValue -> Result JsValue) sent envelope :
  bindA (graylogRequest endpoint params)
        (fun data => lift (result <- k data ;; Ok (textResult result)))
  = (sent, Ok envelope) ->
  exists result, envelope = textResult result.
Proof.
  unfold bindA, graylogRequest, lift.
  destruct (axios_get (baseUrl ++ endpoint) params) as [body|error]; cbn [bind].
  - destruct (k body) as [result|e]; cbn [bind]; intros H; [|discriminate].
    injection H as _ <-. eauto.
  - destruct (formatError error); discriminate.
Qed.

(** Every tool that settles normally answers one text item and no error
    flag. *)
Lemma callTool_Ok name args sent envelope :
  callTool name args = (sent, Ok envelope) ->
  exists result, envelope = textResult result.
Proof.
  unfold callTool.
  destruct (String.eqb name "search_logs_absolute"); [|
  destruct (String.eqb name "search_logs_relative"); [|
  destruct (String.eqb name "list_streams"); [|
  destruct (String.eqb name "get_system_info")]]].
  - unfold searchLogsAbsolute.
    destruct (searchLogsAbsolute_params args) as [params|e]; [|discriminate].
    rewrite bindA_lift_Ok. unfold bindA, graylogRequest, lift.
    destruct (axios_get _ params) as [body|error]; cbn [bind].
    + intros H. injection H as _ H. do 3 bind_inv H. injection H as <-. eauto.
    + destruct (formatError error); discriminate.
  - unfold searchLogsRelative.
    destruct (searchLogsRelative_params args) as [params|e]; [|discriminate].
    rewrite bindA_lift_Ok. unfold bindA, graylogRequest, lift.
    destruct (axios_get _ params) as [body|error]; cbn [bind].
    + intros H. injection H as _ H. do 3 bind_inv H. injection H as <-. eauto.
    + destruct (formatError error); discriminate.
  - apply request_then_text.
  - apply request_then_text.
  - discriminate.
Qed.

End Dispatch.

Section Handler.
Context {rt : Runtime} {env : Env}.

Lemma handler_unfold (request : CallToolRequest) :
  CallToolRequest_handler request
  = (fst (callTool (name request) (arguments request)),
     match snd (callTool (name request) (arguments request)) with
     | Ok envelope => envelope
     | Throw error => errorEnvelope error
     end).
Proof.
  unfold CallToolRequest_handler.
  destruct (callTool (name request) (arguments request)) as [sent [envelope|error]];
    reflexivity.
Qed.

(** C9.  A tool name other than the four defined ones is answered with the
    error envelope whose text is "Error: Unknown tool: " followed by the
    name; no request is sent, whatever the arguments and the remote. *)
Theorem unknown_tool_is_reported (tool : string) (args : JsValue) :
  tool <> "search_logs_absolute" ->
  tool <> "search_logs_relative" ->
  tool <> "list_streams" ->
  tool <> "get_system_info" ->
  callTool tool args = ([], Throw (Error ("Unknown tool: " ++ tool))) /\
  CallToolRequest_handler (mkRequest tool args)
  = ([], mkEnvelope [mkContent "text" ("Error: Unknown tool: " ++ tool)] (Some true)) /\
  (exists before,
     text (hd (mkContent "" "") (content (snd (CallToolRequest_handler (mkRequest tool args)))))
     = before ++ "Unknown tool: " ++ tool).
Proof.
  intros H1 H2 H3 H4.
  assert (E : callTool tool args = ([], Throw (Error ("Unknown tool: " ++ tool)))).
  { unfold callTool.
    apply String.eqb_neq in H1, H2, H3, H4. now rewrite H1, H2, H3, H4. }
  assert (E' : CallToolRequest_handler (mkRequest tool args)
               = ([], mkEnvelope [mkContent "text" ("Error: Unknown tool: " ++ tool)]
                                 (Some true))).
  { rewrite handler_unfold. cbn [name arguments]. rewrite E. reflexivity. }
  split; [exact E|]. split; [exact E'|].
  rewrite E'. exists "Error: ". reflexivity.
Qed.

(** C1.  Whatever the request, the handler returns an envelope with one
    text item.  When the tool throws (a validation error, a normalised
    remote failure, a failure while shaping the answer, an unknown tool
    name, or an error of the engine), the envelope has [isError] set to
    true and the text "Error: " followed by the message of what was
    thrown; the handler itself never throws: its result is an envelope in
    every case, and [isError] is set exactly when the tool threw. *)
Theorem every_failure_is_enveloped (request : CallToolRequest) :
  let outcome := snd (callTool (name request) (arguments request)) in
  let envelope := snd (CallToolRequest_handler request) in
  (exists text flag, envelope = mkEnvelope [mkContent "text" text] flag) /\
  (forall error, outcome = Throw error ->
     envelope = mkEnvelope [mkContent "text" ("Error: " ++ message error)] (Some true)) /\
  (isError envelope = Some true <-> exists error, outcome = Throw error) /\
  (forall args error,
     request = mkRequest "search_logs_absolute" args ->
     searchLogsAbsolute_params args = Throw error ->
     CallToolRequest_handler request = ([], errorEnvelope error)) /\
  (forall args error,
     request = mkRequest "search_logs_relative" args ->
     searchLogsRelative_params args = Throw error ->
     CallToolRequest_handler request = ([], errorEnvelope error)) /\
  (forall args error m,
     request = mkRequest "list_streams" args ->
     axios_get (baseUrl ++ "/api/streams") (JObj []) = Rejected error ->
     formatError error = Ok m ->
     envelope = mkEnvelope [mkContent "text" ("Error: " ++ m)] (Some true)) /\
  (forall args data error,
     request = mkRequest "list_streams" args ->
     axios_get (baseUrl ++ "/api/streams") (JObj []) = Resolved data ->
     streamsResult data = Throw error ->
     envelope = errorEnvelope error) /\
  (forall tool args,
     request = mkRequest tool args ->
     tool <> "search_logs_absolute" -> tool <> "search_logs_relative" ->
     tool <> "list_streams" -> tool <> "get_system_info" ->
     envelope = mkEnvelope [mkContent "text" ("Error: Unknown tool: " ++ tool)] (Some true)).
Proof.
  intros outcome envelope. subst outcome envelope.
  rewrite handler_unfold. cbn [snd].
  repeat match goal with |- _ /\ _ => split end.
  - destruct (callTool (name request) (arguments request)) as [sent [e|error]] eqn:E;
      cbn [snd].
    + destruct (callTool_Ok _ _ _ _ E) as [result ->]. unfold textResult. eauto.
    + unfold errorEnvelope. eauto.
  - intros error ->. reflexivity.
  - destruct (callTool (name request) (arguments request)) as [sent [e|error]] eqn:E;
      cbn [snd].
    + destruct (callTool_Ok _ _ _ _ E) as [result ->]. cbn [textResult isError].
      split; [discriminate | intros [error H]; discriminate].
    + split; [eauto | reflexivity].
  - intros args error -> H. cbn [name arguments]. unfold callTool. cbn [String.eqb Ascii.eqb Bool.eqb].
    now rewrite (searchLogsAbsolute_rejected _ _ H).
  - intros args error -> H. cbn [name arguments]. unfold callTool. cbn [String.eqb Ascii.eqb Bool.eqb].
    now rewrite (searchLogsRelative_rejected _ _ H).
  - intros args error m -> H Hm. cbn [name arguments]. unfold callTool.
    cbn [String.eqb Ascii.eqb Bool.eqb]. unfold listStreams.
    now rewrite (graylogRequest_rejected _ _ _ _ H Hm).
  - intros args data error -> H Hs. cbn [name arguments]. unfold callTool.
    cbn [String.eqb Ascii.eqb Bool.eqb]. unfold listStreams.
    rewrite (graylogRequest_resolved _ _ _ H). unfold bindA, lift.
    now rewrite Hs.
  - intros tool args -> H1 H2 H3 H4. cbn [name arguments]. unfold callTool.
    apply String.eqb_neq in H1, H2, H3, H4. now rewrite H1, H2, H3, H4.
Qed.

End Handler.

(** ** Concrete runs on the reference engine *)

Import Runs.

(** The scenarios of [test/validation.test.js] and of the helper tests. *)

Example isValidISO8601_accepts :
  isValidISO8601 (rt := Reference.engine) (JStr "2025-09-29T17:57:26.568Z") = Ok true /\
  isValidISO8601 (rt := Reference.engine) (JStr "2024-02-29T00:00:00Z") = Ok true.
Proof. split; vm_compute; reflexivity. Qed.

Example isValidISO8601_rejects :
  isValidISO8601 (rt := Reference.engine) (JStr "") = Ok false /\
  isValidISO8601 (rt := Reference.engine) JNull = Ok false /\
  isValidISO8601 (rt := Reference.engine) JUndefined = Ok false /\
  isValidISO8601 (rt := Reference.engine) (JStr "2025-09-29") = Ok false /\
  isValidISO8601 (rt := Reference.engine) (JStr "invalid") = Ok false /\
  isValidISO8601 (rt := Reference.engine) (JStr "2025-13-01T00:00:00Z") = Ok false.
Proof. repeat split; vm_compute; reflexivity. Qed.

Example validateTimeRange_runs :
  validateTimeRange (rt := Reference.engine)
    (JStr "2025-09-29T17:57:26.568Z") (JStr "2025-09-30T12:36:20.910Z") = Ok tt /\
  validateTimeRange (rt := Reference.engine)
    (JStr "2025-09-30T12:36:20.910Z") (JStr "2025-09-29T17:57:26.568Z")
  = Throw (Error "'from' timestamp must be before 'to' timestamp") /\
  validateTimeRange (rt := Reference.engine)
    (JStr "2025-09-29T17:57:26.568Z") (JStr "2025-09-29T17:57:26.568Z")
  = Throw (Error "'from' timestamp must be before 'to' timestamp") /\
  validateTimeRange (rt := Reference.engine)
    (JStr "2025-09-29T17:57:26.568Z") (JStr "invalid")
  = Throw (Error "Invalid 'to' timestamp. Use ISO 8601 format (e.g., '2025-09-30T12:36:20.910Z')").
Proof. repeat split; vm_compute; reflexivity. Qed.

Example validateLimit_runs :
  map (fun z => isOk (validateLimit (rt := Reference.engine) (JNum (Num.of_Z z))))
      [1; 50; 100; 1000; 0; -1; 1001]
  = [true; true; true; true; false; false; false].
Proof. vm_compute. reflexivity. Qed.

Example validateRangeSeconds_runs :
  map (fun z => isOk (validateRangeSeconds (rt := Reference.engine) (JNum (Num.of_Z z))))
      [1; 900; 3600; 86400; 0; -1; 86401; 100000]
  = [true; true; true; true; false; false; false; false].
Proof. vm_compute. reflexivity. Qed.

Example validateQuery_runs :
  map (fun v => isOk (validateQuery v))
      [JStr "level:ERROR"; JStr "  /api/v1/registrations  "; JNull; JUndefined;
       JStr ""; JStr "   "; JNum (Num.of_Z 123); JObj []; JArr []]
  = [true; true; false; false; false; false; false; false; false].
Proof. vm_compute. reflexivity. Qed.

(** A relative search for [level:ERROR] over 3600 seconds is accepted and
    its limit resolves to 50. *)
Example relative_scenario :
  searchLogsRelative_params (rt := Reference.engine)
    (relativeArgs [("rangeSeconds", JNum (Num.of_Z 3600))])
  = Ok (JObj [("query", JStr "level:ERROR"); ("range", JNum (Num.of_Z 3600));
              ("limit", JNum (Num.of_Z 50));
              ("fields", JStr "message,timestamp,source,level")]).
Proof. vm_compute. reflexivity. Qed.

(** An empty query with a valid time range fails with the query-required
    message. *)
Example empty_query_scenario :
  searchLogsAbsolute_params (rt := Reference.engine)
    (JObj [("query", JStr ""); ("from", JStr "2025-01-01T00:00:00Z");
           ("to", JStr "2025-01-02T00:00:00Z")])
  = Throw (Error "'query' parameter is required and must be a non-empty string").
Proof. vm_compute. reflexivity. Qed.

(** A call without arguments: the engine's error is enveloped like any
    other. *)
Example missing_arguments_run :
  CallToolRequest_handler (rt := Reference.engine) (env := exampleEnv noAnswer)
    (mkRequest "search_logs_absolute" JUndefined)
  = ([], mkEnvelope
           [mkContent "text"
              "Error: Cannot destructure property 'query' of 'args' as it is undefined."]
           (Some true)).
Proof. vm_compute. reflexivity. Qed.

(** A remote that does not answer. *)
Example unreachable_run :
  CallToolRequest_handler (rt := Reference.engine) (env := exampleEnv noAnswer)
    (mkRequest "get_system_info" JUndefined)
  = ([mkHttpGet "https://graylog.example.com/api/system" (JObj [])],
     mkEnvelope
       [mkContent "text"
          "Error: Cannot reach Graylog at https://graylog.example.com. Check network connectivity."]
       (Some true)).
Proof. vm_compute. reflexivity. Qed.

(** An answer that cannot be shaped: a JSON [null] body. *)
Example unshapeable_run :
  snd (CallToolRequest_handler (rt := Reference.engine) (env := exampleEnv (Resolved JNull))
         (mkRequest "list_streams" JUndefined))
  = mkEnvelope
      [mkContent "text" "Error: Cannot read properties of null (reading 'streams')"]
      (Some true).
Proof. vm_compute. reflexivity. Qed.

(** A stream list: the default stream is left out, the rest is ordered by
    title. *)
Example list_streams_run :
  streamsResult (rt := Reference.engine)
    (JObj [("streams",
            JArr [stream "3" "nexus" [];
                  stream "1" "All messages" [("is_default", JBool true)];
                  stream "2" "billing" [("description", JStr "Billing service")]])])
  = Ok (JObj [("total", JNum (Num.of_Z 2));
              ("streams",
               JArr [JObj [("id", JStr "2"); ("title", JStr "billing");
                           ("description", JStr "Billing service");
                           ("disabled", JBool false)];
                     JObj [("id", JStr "3"); ("title", JStr "nexus");
                           ("description", JStr "");
                           ("disabled", JBool false)]])]).
Proof. vm_compute. reflexivity. Qed.

(** ** The theorems at concrete inputs *)

(** C2 at [limit: 0]. *)
Lemma absolute_limit_validation_witness :
  searchLogsAbsolute_params (rt := Reference.engine)
    (absoluteArgs [("limit", JNum (Num.of_Z 0))])
  = Throw (Error "'limit' must be between 1 and 1000").
Proof.
  refine (proj2 (proj2 (proj2 (proj2
            (absolute_limit_validation (rt := Reference.engine)
               (absoluteArgs [("limit", JNum (Num.of_Z 0))])
               "level:ERROR" "2025-09-29T17:57:26.568Z" "2025-09-30T12:36:20.910Z"
               JUndefined (JNum (Num.of_Z 0)) _ _ _ _)))) eq_refl).
  - repeat split.
  - vm_compute. discriminate.
  - vm_compute. reflexivity.
  - reflexivity.
Defined.

(** C7 at [rangeSeconds: 86400], with no stream id and no limit. *)
Lemma relative_rangeSeconds_validation_witness :
  searchLogsRelative_params (rt := Reference.engine)
    (relativeArgs [("rangeSeconds", JNum (Num.of_Z 86400))])
  = Ok (relativeParams "level:ERROR" (JNum (Num.of_Z 86400)) JUndefined
          (JNum (Num.of_Z 50))).
Proof.
  refine (proj2 (proj1
            (relative_rangeSeconds_validation (rt := Reference.engine)
               (relativeArgs [("rangeSeconds", JNum (Num.of_Z 86400))])
               "level:ERROR" (JNum (Num.of_Z 86400)) JUndefined JUndefined _ _)
            _ _) (Num.of_Z 86400) eq_refl _ _).
  - repeat split.
  - vm_compute. discriminate.
  - reflexivity.
  - vm_compute. reflexivity.
  - vm_compute. reflexivity.
  - vm_compute. reflexivity.
Defined.

(** C8 at [streamId: null]. *)
Lemma streamId_validation_witness :
  searchLogsAbsolute_params (rt := Reference.engine)
    (absoluteArgs [("streamId", JNull)])
  = Throw (Error "'streamId' must be a string").
Proof.
  refine (proj1 (proj2 (proj1 (streamId_validation (rt := Reference.engine) JNull)
                          eq_refl _))
            (absoluteArgs [("streamId", JNull)])
            "level:ERROR" "2025-09-29T17:57:26.568Z" "2025-09-30T12:36:20.910Z"
            JUndefined _ _ _).
  - discriminate.
  - repeat split.
  - vm_compute. discriminate.
  - vm_compute. reflexivity.
Defined.

(** C10 at [limit: "abc"]: the request goes out with that limit. *)
Lemma incomparable_limit_is_forwarded_witness :
  fst (searchLogsAbsolute (rt := Reference.engine) (env := exampleEnv noAnswer)
         (absoluteArgs [("limit", JStr "abc")]))
  = [mkHttpGet "https://graylog.example.com/api/search/universal/absolute"
       (JObj [("query", JStr "level:ERROR");
              ("from", JStr "2025-09-29T17:57:26.568Z");
              ("to", JStr "2025-09-30T12:36:20.910Z");
              ("limit", JStr "abc");
              ("fields", JStr "message,timestamp,source,level")])].
Proof.
  refine (proj2 (proj2
            (proj1 (proj2
               (incomparable_limit_is_forwarded
                  (rt := Reference.engine) (env := exampleEnv noAnswer)
                  (JStr "abc") _ eq_refl))
               (absoluteArgs [("limit", JStr "abc")])
               "level:ERROR" "2025-09-29T17:57:26.568Z" "2025-09-30T12:36:20.910Z"
               JUndefined _ _ _ _))).
  - vm_compute. reflexivity.
  - repeat split.
  - vm_compute. discriminate.
  - vm_compute. reflexivity.
  - reflexivity.
Defined.

(** C9 at the tool name [foo]. *)
Lemma unknown_tool_is_reported_witness :
  CallToolRequest_handler (rt := Reference.engine) (env := exampleEnv noAnswer)
    (mkRequest "foo" (JObj []))
  = ([], mkEnvelope [mkContent "text" "Error: Unknown tool: foo"] (Some true)).
Proof.
  refine (proj1 (proj2
            (unknown_tool_is_reported (rt := Reference.engine) (env := exampleEnv noAnswer)
               "foo" (JObj []) _ _ _ _))); discriminate.
Defined.

(** C1 at a search whose [from] is a bare date. *)
Lemma every_failure_is_enveloped_witness :
  snd (CallToolRequest_handler (rt := Reference.engine) (env := exampleEnv noAnswer)
         (mkRequest "search_logs_absolute"
            (JObj [("query", JStr "level:ERROR"); ("from", JStr "2025-09-29");
                   ("to", JStr "2025-09-30T12:36:20.910Z")])))
  = mkEnvelope
      [mkContent "text"
         "Error: Invalid 'from' timestamp. Use ISO 8601 format (e.g., '2025-09-29T17:57:26.568Z')"]
      (Some true).
Proof.
  refine (proj1 (proj2
            (every_failure_is_enveloped (rt := Reference.engine) (env := exampleEnv noAnswer)
               (mkRequest "search_logs_absolute"
                  (JObj [("query", JStr "level:ERROR"); ("from", JStr "2025-09-29");
                         ("to", JStr "2025-09-30T12:36:20.910Z")]))))
            (Error "Invalid 'from' timestamp. Use ISO 8601 format (e.g., '2025-09-29T17:57:26.568Z')")
            _).
  vm_compute. reflexivity.
Defined.


(** C5 as amended, at three streams of which one is the default stream. *)
Lemma stream_list_shaping_witness :
  exists kept,
    streamsResult (rt := Reference.engine)
      (JObj [("streams",
              JArr [stream "3" "nexus" [];
                    stream "1" "All messages" [("is_default", JBool true)];
                    stream "2" "billing" []])])
    = Ok (JObj [("total", JNum (Num.of_Z (Z.of_nat (List.length (map projectedStream kept)))));
                ("streams", JArr (map projectedStream kept))]) /\
    Sorted (fun a b => String.compare (title_of a) (title_of b) <> Gt) kept.
Proof.
  destruct (stream_list_shaping (rt := Reference.engine)
              [("streams",
                JArr [stream "3" "nexus" [];
                      stream "1" "All messages" [("is_default", JBool true)];
                      stream "2" "billing" []])]
              [stream "3" "nexus" [];
               stream "1" "All messages" [("is_default", JBool true)];
               stream "2" "billing" []]
              eq_refl)
    as (kept & Hres & _ & _ & Hsorted & _).
  - repeat constructor.
  - repeat constructor; eexists; reflexivity.
  - intros x y. apply String.compare_antisym.
  - exists kept. split; [exact Hres | exact Hsorted].
Defined.

(** C5 as stated fails: a stream whose [is_default] is the number 1 is not
    the boolean [true], and the list leaves it out all the same. *)
Lemma stream_list_counterexample :
  ~ excludes_exactly_boolean_true Reference.engine.
Proof.
  intros H.
  pose (s := stream "7" "audit" [("is_default", JNum (Num.of_Z 1))]).
  destruct (H [("streams", JArr [s])] [s] eq_refl) as (kept & Hres & Hin).
  - repeat constructor.
  - repeat constructor; eexists; reflexivity.
  - assert (E : streamsResult (rt := Reference.engine) (JObj [("streams", JArr [s])])
                = Ok (JObj [("total", JNum (Num.of_Z 0)); ("streams", JArr [])]))
      by (vm_compute; reflexivity).
    rewrite E in Hres.
    destruct kept as [|k rest].
    + apply (proj2 (Hin s)). split; [left; reflexivity | reflexivity].
    + discriminate Hres.
Qed.

Example stream_with_numeric_flag_run :
  let s := stream "7" "audit" [("is_default", JNum (Num.of_Z 1))] in
  isDefaultTrue s = false /\
  notDefault s = Ok false /\
  streamsResult (rt := Reference.engine) (JObj [("streams", JArr [s])])
  = Ok (JObj [("total", JNum (Num.of_Z 0)); ("streams", JArr [])]).
Proof. repeat split; vm_compute; reflexivity. Qed.

(** ** Further properties of the program *)

(** *** Startup *)

(** X1.  The process keeps running exactly when both variables are set to
    non-empty strings, and then logs the base address; otherwise it exits
    with code 1 after naming, in the order BASE_URL, API_TOKEN, exactly the
    variables that are unset or empty. *)
Theorem validateEnvironment_outcome (base token : option string) :
  (forall log, validateEnvironment base token = Runs log ->
     exists url tok,
       base = Some url /\ url <> "" /\ token = Some tok /\ tok <> "" /\
       log = ["[graylog-mcp] Connected to " ++ url]) /\
  (forall url tok, base = Some url -> url <> "" -> token = Some tok -> tok <> "" ->
     validateEnvironment base token = Runs ["[graylog-mcp] Connected to " ++ url]) /\
  (forall code log, validateEnvironment base token = Exits code log ->
     code = 1 /\
     exists missing,
       log = ["[graylog-mcp] FATAL: Missing environment variables: "
              ++ String.concat ", " missing;
              "[graylog-mcp] Set these in your MCP client configuration."] /\
       missing = ((if truthy (env_value base) then [] else ["BASE_URL"])
                  ++ (if truthy (env_value token) then [] else ["API_TOKEN"]))%list /\
       (In "BASE_URL" missing <-> base = None \/ base = Some "") /\
       (In "API_TOKEN" missing <-> token = None \/ token = Some "")).
Proof.
  assert (Hset : forall o : option string,
            truthy (env_value o) = false <-> o = None \/ o = Some "").
  { intros [s|]; cbn [env_value truthy].
    - destruct (String.eqb_spec s "") as [->|Hne]; cbn [negb]; split; auto.
      + discriminate.
      + intros [H | H]; [discriminate | injection H as ->; now elim Hne].
    - split; auto. }
  unfold validateEnvironment. cbn [filter map fst snd].
  destruct (truthy (env_value base)) eqn:Eb, (truthy (env_value token)) eqn:Et;
    cbn [negb filter map fst snd List.length Nat.ltb Nat.leb app].
  - repeat split.
    + intros log H. injection H as <-.
      destruct base as [url|]; [|discriminate]. destruct token as [tok|]; [|discriminate].
      exists url, tok. cbn [env_value truthy] in Eb, Et.
      repeat split; try reflexivity.
      * intros ->. discriminate.
      * intros ->. discriminate.
    + intros url tok -> _ -> _. reflexivity.
    + discriminate.
    + discriminate.
  - repeat split; try discriminate.
    + intros url tok -> _ -> Htok. cbn [env_value truthy] in Et.
      destruct (String.eqb_spec tok ""); [contradiction | discriminate].
    + injection H as <- _. reflexivity.
    + injection H as _ <-. exists ["API_TOKEN"].
      split; [reflexivity|]. split; [reflexivity|]. split; split.
      * intros [H | []]. discriminate.
      * intros H. apply Hset in H. congruence.
      * intros _. now apply Hset.
      * intros _. now left.
  - repeat split; try discriminate.
    + intros url tok -> Hurl -> _. cbn [env_value truthy] in Eb.
      destruct (String.eqb_spec url ""); [contradiction | discriminate].
    + injection H as <- _. reflexivity.
    + injection H as _ <-. exists ["BASE_URL"].
      split; [reflexivity|]. split; [reflexivity|]. split; split.
      * intros _. now apply Hset.
      * intros _. now left.
      * intros [H | []]. discriminate.
      * intros H. apply Hset in H. congruence.
  - repeat split; try discriminate.
    + intros url tok -> Hurl -> _. cbn [env_value truthy] in Eb.
      destruct (String.eqb_spec url ""); [contradiction | discriminate].
    + injection H as <- _. reflexivity.
    + injection H as _ <-. exists ["BASE_URL"; "API_TOKEN"].
      split; [reflexivity|]. split; [reflexivity|]. split; split.
      * intros _. now apply Hset.
      * intros _. now left.
      * intros _. now apply Hset.
      * intros _. right. now left.
Qed.

(** *** What the engine can throw *)

Lemma bind_Throw_inv {A B : Type} (c : Result A) (k : A -> Result B) (e : JsError) :
  bind c k = Throw e -> c = Throw e \/ exists a, c = Ok a /\ k a = Throw e.
Proof.
  destruct c as [a|e']; simpl; intros H; [right; eauto | left].
  now injection H as ->.
Qed.

Ltac throw_inv H :=
  let a := fresh "a" in
  let Ha := fresh "Ha" in
  apply bind_Throw_inv in H; destruct H as [H | [a [Ha H]]].

Section EngineErrors.
Context {rt : Runtime}.

Lemma ToString_join_throws (items : list JsValue) (e : JsError) :
  Forall (fun v => forall e', ToString v = Throw e' ->
                   e' = TypeError "Cannot convert object to primitive value") items ->
  ToString (JArr items) = Throw e ->
  e = TypeError "Cannot convert object to primitive value".
Proof.
  induction 1 as [|x rest Hx Hrest IH]; cbn [ToString]; [discriminate|].
  intros H. throw_inv H.
  - destruct (nullish x); [discriminate | now apply Hx].
  - destruct rest as [|y rest']; [discriminate|].
    throw_inv H; [|discriminate]. now apply IH.
Qed.

Lemma ToString_throws (v : JsValue) (e : JsError) :
  ToString v = Throw e -> e = TypeError "Cannot convert object to primitive value".
Proof.
  revert v e.
  fix IH 1. intros v e.
  destruct v as [| |b|n|s|items|fields]; try discriminate.
  - destruct b; discriminate.
  - apply ToString_join_throws.
    induction items as [|x rest IHl]; constructor; [apply IH | exact IHl].
  - cbn [ToString]. destruct (lookup "toString" fields); [|discriminate].
    intros H. now injection H as <-.
Qed.

Lemma ToString_primitive (v : JsValue) :
  (forall items, v <> JArr items) -> (forall fields, v <> JObj fields) ->
  exists s, ToString v = Ok s.
Proof.
  intros Ha Ho. destruct v as [| |b|n|s|items|fields]; cbn [ToString]; eauto.
  - destruct b; eauto.
  - now elim (Ha items).
  - now elim (Ho fields).
Qed.

Lemma ToPrimitive_throws (v : JsValue) (e : JsError) :
  ToPrimitive v = Throw e -> err_name e = "TypeError".
Proof.
  destruct v; try discriminate; unfold ToPrimitive; intros H;
    (throw_inv H; [apply ToString_throws in H; now subst | discriminate]).
Qed.

Lemma ToNumber_throws (v : JsValue) (e : JsError) :
  ToNumber v = Throw e -> err_name e = "TypeError".
Proof.
  unfold ToNumber. intros H. throw_inv H; [|discriminate].
  now apply ToPrimitive_throws in H.
Qed.

Lemma lessThan_throws (a b : JsValue) (e : JsError) :
  lessThan a b = Throw e -> err_name e = "TypeError".
Proof.
  unfold lessThan. intros H. throw_inv H; [now apply ToPrimitive_throws in H|].
  throw_inv H; [now apply ToPrimitive_throws in H|].
  destruct a0, a1; try discriminate;
    (throw_inv H; [now apply ToNumber_throws in H|]);
    (throw_inv H; [now apply ToNumber_throws in H | discriminate]).
Qed.

Lemma greaterThan_throws (a b : JsValue) (e : JsError) :
  greaterThan a b = Throw e -> err_name e = "TypeError".
Proof.
  unfold greaterThan. intros H. throw_inv H; [now apply ToPrimitive_throws in H|].
  throw_inv H; [now apply ToPrimitive_throws in H|].
  destruct a0, a1; try discriminate;
    (throw_inv H; [now apply ToNumber_throws in H|]);
    (throw_inv H; [now apply ToNumber_throws in H | discriminate]).
Qed.

Lemma new_Date_throws (v : JsValue) (e : JsError) :
  new_Date v = Throw e -> err_name e = "TypeError".
Proof.
  unfold new_Date. intros H. throw_inv H; [now apply ToPrimitive_throws in H|].
  destruct a; try discriminate;
    (throw_inv H; [now apply ToNumber_throws in H | discriminate]).
Qed.

Lemma call_includes_throws (name : string) (v : JsValue) (t : string) (e : JsError) :
  call_includes name v t = Throw e -> err_name e = "TypeError".
Proof. destruct v; cbn [call_includes]; intros H; try discriminate; now injection H as <-. Qed.

Lemma call_trim_throws (name : string) (v : JsValue) (e : JsError) :
  call_trim name v = Throw e -> err_name e = "TypeError".
Proof. destruct v; cbn [call_trim]; intros H; try discriminate; now injection H as <-. Qed.

Lemma call_trim_Ok (name : string) (v : JsValue) (t : string) :
  call_trim name v = Ok t -> exists s, v = JStr s /\ t = trim s.
Proof.
  destruct v; cbn [call_trim]; intros H; try discriminate.
  injection H as <-. eauto.
Qed.

Lemma get_throws (v : JsValue) (k : string) (e : JsError) :
  get v k = Throw e -> err_name e = "TypeError".
Proof. destruct v; cbn [get]; intros H; try discriminate; now injection H as <-. Qed.

Lemma destructure_throws (v : JsValue) (name first : string) (e : JsError) :
  destructure v name first = Throw e -> err_name e = "TypeError".
Proof.
  unfold destructure. destruct (nullish v); intros H; [|discriminate].
  now injection H as <-.
Qed.

Lemma isValidISO8601_throws (v : JsValue) (e : JsError) :
  isValidISO8601 v = Throw e -> err_name e = "TypeError".
Proof.
  unfold isValidISO8601. destruct (negb (truthy v)); [discriminate|].
  intros H. throw_inv H; [now apply new_Date_throws in H|].
  destruct (date_isNaN a); [discriminate|]. now apply call_includes_throws in H.
Qed.

(** An error of a check: raised by the engine, or one of the messages of
    the program. *)
Lemma validateQuery_throws (q : JsValue) (e : JsError) :
  validateQuery q = Throw e ->
  e = Error "'query' parameter is required and must be a non-empty string".
Proof.
  unfold validateQuery. intros H. throw_inv H.
  - destruct (negb (truthy q)); [discriminate|].
    destruct (negb (String.eqb (typeof q) "string")) eqn:E; [discriminate|].
    destruct q; try discriminate.
  - destruct a; [now injection H as <- | discriminate].
Qed.

Lemma validateTimeRange_throws (f t : JsValue) (e : JsError) :
  validateTimeRange f t = Throw e ->
  err_name e = "TypeError" \/
  e = Error "Invalid 'from' timestamp. Use ISO 8601 format (e.g., '2025-09-29T17:57:26.568Z')" \/
  e = Error "Invalid 'to' timestamp. Use ISO 8601 format (e.g., '2025-09-30T12:36:20.910Z')" \/
  e = Error "'from' timestamp must be before 'to' timestamp".
Proof.
  unfold validateTimeRange. intros H.
  throw_inv H; [left; now apply isValidISO8601_throws in H|].
  match type of H with (if ?b then _ else _) = _ => destruct b end;
    [injection H as <-; auto|].
  throw_inv H; [left; now apply isValidISO8601_throws in H|].
  match type of H with (if ?b then _ else _) = _ => destruct b end;
    [injection H as <-; auto|].
  throw_inv H; [left; now apply new_Date_throws in H|].
  throw_inv H; [left; now apply new_Date_throws in H|].
  match type of H with (if ?b then _ else _) = _ => destruct b end;
    [injection H as <-; auto | discriminate].
Qed.

Lemma validateStreamId_throws (sid : JsValue) (e : JsError) :
  validateStreamId sid = Throw e -> e = Error "'streamId' must be a string".
Proof.
  unfold validateStreamId.
  destruct (negb (is_undefined sid) && negb (String.eqb (typeof sid) "string"));
    intros H; [now injection H as <- | discriminate].
Qed.

Lemma validateLimit_throws (v : JsValue) (e : JsError) :
  validateLimit v = Throw e ->
  err_name e = "TypeError" \/ e = Error "'limit' must be between 1 and 1000".
Proof.
  unfold validateLimit. intros H.
  throw_inv H; [left; now apply lessThan_throws in H|].
  throw_inv H.
  - destruct a; [discriminate|]. left; now apply greaterThan_throws in H.
  - destruct a0; [right; now injection H as <- | discriminate].
Qed.

Lemma validateRangeSeconds_throws (v : JsValue) (e : JsError) :
  validateRangeSeconds v = Throw e ->
  err_name e = "TypeError" \/
  e = Error "'rangeSeconds' must be between 1 and 86400 (24 hours)".
Proof.
  unfold validateRangeSeconds. intros H.
  throw_inv H; [left; now apply lessThan_throws in H|].
  throw_inv H.
  - destruct a; [discriminate|]. left; now apply greaterThan_throws in H.
  - destruct a0; [right; now injection H as <- | discriminate].
Qed.

Lemma withStreamFilter_throws (sid : JsValue) fields (e : JsError) :
  withStreamFilter sid fields = Throw e -> err_name e = "TypeError".
Proof.
  unfold withStreamFilter. destruct (truthy sid); [|discriminate].
  intros H. throw_inv H; [|discriminate].
  apply ToString_throws in H. now subst.
Qed.

End EngineErrors.

(** *** Acceptance and rejection of a search *)

Section Acceptance.
Context {rt : Runtime}.

(** X2.  An absolute search is accepted exactly when its arguments carry a
    non-blank string query, string [from] and [to] that pass the time-range
    check, a [streamId] that is undefined or a string, and a limit (50 when
    nullish) that passes the limit check; the parameters sent are then the
    trimmed query, [from] and [to], the limit as received, the fixed field
    list and the optional stream filter. *)
Theorem absolute_search_acceptance (args params : JsValue) :
  searchLogsAbsolute_params args = Ok params <->
  exists q f t sid lim,
    absolute_request args q f t sid lim /\
    trim q <> "" /\
    validateTimeRange (JStr f) (JStr t) = Ok tt /\
    validateStreamId sid = Ok tt /\
    validateLimit (coalesce lim (JNum (Num.of_Z 50))) = Ok tt /\
    params = absoluteParams q f t sid (coalesce lim (JNum (Num.of_Z 50))).
Proof.
  split.
  - unfold searchLogsAbsolute_params. intros H.
    bind_inv H. bind_inv H. bind_inv H. bind_inv H. bind_inv H. bind_inv H.
    bind_inv H. bind_inv H. bind_inv H. bind_inv H.
    bind_inv H. bind_inv H. bind_inv H.
    repeat match goal with u : unit |- _ => destruct u end.
    match goal with Hq : validateQuery _ = Ok tt |- _ =>
      apply validateQuery_Ok in Hq; destruct Hq as [q [-> Hq]] end.
    repeat match goal with Ht : call_trim _ _ = Ok _ |- _ =>
      apply call_trim_Ok in Ht; destruct Ht as [? [? ->]] end.
    repeat match goal with E : JStr _ = JStr _ |- _ => injection E as <- end.
    subst.
    match goal with Hs : validateStreamId _ = Ok tt |- _ =>
      rewrite (withStreamFilter_valid _ _ Hs) in H end.
    injection H as <-.
    do 5 eexists. unfold absolute_request.
    repeat split; try eassumption; reflexivity.
  - intros (q & f & t & sid & lim & Hargs & Hq & Htr & Hsid & Hlim & ->).
    now apply searchLogsAbsolute_params_accepts.
Qed.

(** X3.  The same for the relative search, with the range (900 when
    nullish) in place of the two timestamps. *)
Theorem relative_search_acceptance (args params : JsValue) :
  searchLogsRelative_params args = Ok params <->
  exists q rs sid lim,
    relative_request args q rs sid lim /\
    trim q <> "" /\
    validateRangeSeconds (coalesce rs (JNum (Num.of_Z 900))) = Ok tt /\
    validateStreamId sid = Ok tt /\
    validateLimit (coalesce lim (JNum (Num.of_Z 50))) = Ok tt /\
    params = relativeParams q (coalesce rs (JNum (Num.of_Z 900))) sid
               (coalesce lim (JNum (Num.of_Z 50))).
Proof.
  split.
  - unfold searchLogsRelative_params. intros H.
    bind_inv H. bind_inv H. bind_inv H. bind_inv H. bind_inv H.
    bind_inv H. bind_inv H. bind_inv H. bind_inv H. bind_inv H.
    repeat match goal with u : unit |- _ => destruct u end.
    match goal with Hq : validateQuery _ = Ok tt |- _ =>
      apply validateQuery_Ok in Hq; destruct Hq as [q [-> Hq]] end.
    repeat match goal with Ht : call_trim _ _ = Ok _ |- _ =>
      apply call_trim_Ok in Ht; destruct Ht as [? [? ->]] end.
    repeat match goal with E : JStr _ = JStr _ |- _ => injection E as <- end.
    match goal with Hs : validateStreamId _ = Ok tt |- _ =>
      rewrite (withStreamFilter_valid _ _ Hs) in H end.
    injection H as <-.
    do 4 eexists. unfold relative_request.
    repeat split; try eassumption; reflexivity.
  - intros (q & rs & sid & lim & Hargs & Hq & Hrs & Hsid & Hlim & ->).
    now apply searchLogsRelative_params_accepts.
Qed.

End Acceptance.

Section Rejection.
Context {rt : Runtime}.

Ltac engine_error H :=
  first [ apply destructure_throws in H
        | apply get_throws in H
        | apply call_trim_throws in H
        | apply withStreamFilter_throws in H ]; left; exact H.

(** X4.  Whatever the arguments, a search that is rejected before the
    request is rejected either by the engine (a [TypeError]: no arguments
    object, a value without the method that is called on it, an object
    that does not convert) or with one of the seven messages of the
    checks; the rejections of the absolute search never mention
    [rangeSeconds]. *)
Theorem search_rejections (args : JsValue) (e : JsError) :
  (searchLogsAbsolute_params args = Throw e ->
     err_name e = "TypeError" \/
     (err_name e = "Error" /\ In (message e) validationMessages /\
      message e <> "'rangeSeconds' must be between 1 and 86400 (24 hours)")) /\
  (searchLogsRelative_params args = Throw e ->
     err_name e = "TypeError" \/
     (err_name e = "Error" /\ In (message e) validationMessages)).
Proof.
  split.
  - unfold searchLogsAbsolute_params. intros H.
    throw_inv H; [engine_error H|].
    do 5 (throw_inv H; [engine_error H|]).
    throw_inv H; [apply validateQuery_throws in H; subst e; right; cbn;
                  repeat split; auto 10; discriminate|].
    throw_inv H.
    { apply validateTimeRange_throws in H.
      destruct H as [H | [-> | [-> | ->]]]; [now left| | |];
        right; cbn; repeat split; auto 10; discriminate. }
    throw_inv H; [apply validateStreamId_throws in H; subst e; right; cbn;
                  repeat split; auto 10; discriminate|].
    throw_inv H.
    { apply validateLimit_throws in H. destruct H as [H | ->]; [now left|].
      right; cbn; repeat split; auto 10; discriminate. }
    do 3 (throw_inv H; [engine_error H|]).
    engine_error H.
  - unfold searchLogsRelative_params. intros H.
    throw_inv H; [engine_error H|].
    do 4 (throw_inv H; [engine_error H|]).
    throw_inv H; [apply validateQuery_throws in H; subst e; right; cbn; auto 10|].
    throw_inv H.
    { apply validateRangeSeconds_throws in H. destruct H as [H | ->]; [now left|].
      right; cbn; auto 10. }
    throw_inv H; [apply validateStreamId_throws in H; subst e; right; cbn; auto 10|].
    throw_inv H.
    { apply validateLimit_throws in H. destruct H as [H | ->]; [now left|].
      right; cbn; auto 10. }
    throw_inv H; [engine_error H|].
    engine_error H.
Qed.

(** X5.  The query check accepts exactly the strings that are not blank and
    answers every other value (null, undefined, a non-string, white space
    only) with the query message, never with an engine error; it comes
    first in both searches, so a rejected query decides the error of the
    request whatever the other arguments are. *)
Theorem query_validation (q : JsValue) :
  (validateQuery q = Ok tt <-> exists s, q = JStr s /\ trim s <> "") /\
  (validateQuery q <> Ok tt ->
     validateQuery q
     = Throw (Error "'query' parameter is required and must be a non-empty string")) /\
  (forall args,
     nullish args = false -> get_opt args "query" = q -> validateQuery q <> Ok tt ->
     searchLogsAbsolute_params args
     = Throw (Error "'query' parameter is required and must be a non-empty string") /\
     searchLogsRelative_params args
     = Throw (Error "'query' parameter is required and must be a non-empty string")).
Proof.
  assert (Hbad : validateQuery q <> Ok tt ->
            validateQuery q
            = Throw (Error "'query' parameter is required and must be a non-empty string")).
  { intros Hne. destruct (validateQuery q) as [[]|e] eqn:E; [now elim Hne|].
    now rewrite (validateQuery_throws _ _ E). }
  split; [apply validateQuery_Ok|]. split; [exact Hbad|].
  intros args Hargs Hq Hne. specialize (Hbad Hne).
  unfold searchLogsAbsolute_params, searchLogsRelative_params, destructure.
  rewrite Hargs, !(get_not_nullish args _ Hargs), Hq. cbn [bind].
  now rewrite Hbad.
Qed.

End Rejection.

(** *** The tool list and the dispatcher *)

Section ToolList.
Context {rt : Runtime} {env : Env}.

Lemma advertisedNames_eq :
  advertisedNames
  = ["search_logs_absolute"; "search_logs_relative"; "list_streams"; "get_system_info"].
Proof. reflexivity. Qed.

(** X6.  The names in the tool list are exactly the names the dispatcher
    knows: a listed tool is dispatched to its operation and is never
    answered as unknown, and a name that is not listed always is. *)
Theorem listed_tools_are_dispatched (tool : string) (args : JsValue) :
  (In tool advertisedNames <->
   callTool tool args <> ([], Throw (Error ("Unknown tool: " ++ tool)))) /\
  callTool "search_logs_absolute" args = searchLogsAbsolute args /\
  callTool "search_logs_relative" args = searchLogsRelative args /\
  callTool "list_streams" args = listStreams /\
  callTool "get_system_info" args = getSystemInfo.
Proof.
  split; [|repeat split].
  assert (Hsearch : forall (p : Result JsValue) k ep,
            (forall e, p = Throw e -> message e <> "Unknown tool: " ++ tool
                                      \/ err_name e = "TypeError") ->
            bindA (lift p) (fun params =>
                     bindA (graylogRequest ep params) k)
            <> (([] : list HttpGet), Throw (Error ("Unknown tool: " ++ tool)) : Result Envelope)).
  { intros p k ep Hp. destruct p as [params|e].
    - rewrite bindA_lift_Ok. unfold bindA, graylogRequest.
      destruct (axios_get _ params); cbn [bind].
      + destruct (k _) as [tr r]. discriminate.
      + destruct (formatError _); discriminate.
    - rewrite bindA_lift_Throw. intros H. injection H as ->.
      destruct (Hp _ eq_refl) as [H | H]; [now elim H | discriminate]. }
  rewrite advertisedNames_eq. split.
  - intros [<- | [<- | [<- | [<- | []]]]]; unfold callTool; cbn [String.eqb Ascii.eqb Bool.eqb].
    + apply Hsearch. intros e He.
      destruct (proj1 (search_rejections args e) He) as [H | (_ & Hin & _)]; [now right|].
      left. intros Heq. rewrite Heq in Hin.
      cbn in Hin. repeat (destruct Hin as [Hin | Hin]; [discriminate|]). exact Hin.
    + apply Hsearch. intros e He.
      destruct (proj2 (search_rejections args e) He) as [H | (_ & Hin)]; [now right|].
      left. intros Heq. rewrite Heq in Hin.
      cbn in Hin. repeat (destruct Hin as [Hin | Hin]; [discriminate|]). exact Hin.
    + unfold listStreams, bindA, graylogRequest.
      destruct (axios_get _ _); cbn [bind]; [discriminate|].
      destruct (formatError _); discriminate.
    + unfold getSystemInfo, bindA, graylogRequest.
      destruct (axios_get _ _); cbn [bind]; [discriminate|].
      destruct (formatError _); discriminate.
  - intros H.
    destruct (String.eqb_spec tool "search_logs_absolute"); [now left|].
    destruct (String.eqb_spec tool "search_logs_relative"); [right; now left|].
    destruct (String.eqb_spec tool "list_streams"); [right; right; now left|].
    destruct (String.eqb_spec tool "get_system_info"); [right; right; right; now left|].
    elim H. unfold callTool.
    repeat match goal with Hn : tool <> _ |- _ =>
      apply String.eqb_neq in Hn; rewrite Hn; clear Hn end.
    reflexivity.
Qed.

End ToolList.

Section Schema.
Context {rt : Runtime}.

(** X7.  What a tool's schema lists under [required] is enforced: a search
    whose arguments lack a required property (or have it undefined) is
    never accepted; and every property of a search schema that is not
    required may be left out, a request with only the required properties
    well formed being accepted. *)
Theorem required_properties_are_enforced (args : JsValue) (k : string) :
  get_opt args k = JUndefined ->
  (In k (requiredOf "search_logs_absolute") ->
     isOk (searchLogsAbsolute_params args) = false) /\
  (In k (requiredOf "search_logs_relative") ->
     isOk (searchLogsRelative_params args) = false) /\
  (forall q f t,
     trim q <> "" -> validateTimeRange (JStr f) (JStr t) = Ok tt ->
     isOk (searchLogsAbsolute_params
             (JObj [("query", JStr q); ("from", JStr f); ("to", JStr t)])) = true) /\
  (forall q, trim q <> "" ->
     isOk (searchLogsRelative_params (JObj [("query", JStr q)])) = true).
Proof.
  intros Hk. repeat split.
  - intros Hin.
    destruct (searchLogsAbsolute_params args) as [params|e] eqn:E; [|reflexivity].
    apply absolute_search_acceptance in E.
    destruct E as (q & f & t & sid & lim & (Hq & Hf & Ht & _) & _ & Htr & _).
    assert (Hnn := get_Ok_not_nullish _ _ _ Hq).
    rewrite (get_not_nullish _ "query" Hnn) in Hq.
    rewrite (get_not_nullish _ "from" Hnn) in Hf.
    rewrite (get_not_nullish _ "to" Hnn) in Ht.
    cbn in Hin. destruct Hin as [<- | [<- | [<- | []]]]; rewrite Hk in *; discriminate.
  - intros Hin.
    destruct (searchLogsRelative_params args) as [params|e] eqn:E; [|reflexivity].
    apply relative_search_acceptance in E.
    destruct E as (q & rs & sid & lim & (Hq & _) & _).
    assert (Hnn := get_Ok_not_nullish _ _ _ Hq).
    rewrite (get_not_nullish _ _ Hnn) in Hq.
    cbn in Hin. destruct Hin as [<- | []]; rewrite Hk in *; discriminate.
  - intros q f t Hq Htr.
    rewrite (searchLogsAbsolute_params_accepts _ q f t JUndefined JUndefined);
      try reflexivity; try assumption; repeat split.
  - intros q Hq.
    rewrite (searchLogsRelative_params_accepts _ q JUndefined JUndefined JUndefined);
      try reflexivity; try assumption; repeat split.
Qed.

(** X8.  The defaults the schemas advertise are the defaults the searches
    apply: a request that leaves out [limit] (or [rangeSeconds]) is
    accepted exactly when the request that spells out the advertised
    default is, and sends the same parameters. *)
Theorem advertised_defaults_are_applied (fields : list (string * JsValue)) :
  lookup "limit" fields = None ->
  lookup "rangeSeconds" fields = None ->
  searchLogsAbsolute_params (JObj fields)
  = searchLogsAbsolute_params
      (JObj (("limit", defaultOf "search_logs_absolute" "limit") :: fields)) /\
  searchLogsRelative_params (JObj fields)
  = searchLogsRelative_params
      (JObj (("limit", defaultOf "search_logs_relative" "limit")
             :: ("rangeSeconds", defaultOf "search_logs_relative" "rangeSeconds")
             :: fields)).
Proof.
  intros Hl Hr. split.
  - unfold searchLogsAbsolute_params. cbn [destructure nullish get lookup String.eqb Ascii.eqb Bool.eqb bind].
    rewrite Hl. reflexivity.
  - unfold searchLogsRelative_params. cbn [destructure nullish get lookup String.eqb Ascii.eqb Bool.eqb bind].
    rewrite Hl, Hr. reflexivity.
Qed.

End Schema.

(** *** More on timestamps *)

Section MoreTimestamps.
Context {rt : Runtime}.

(** X9.  When [from]/[to] is an accepted pair of strings, the same pair in
    the other order is rejected with the before-message, and each of the
    two strings alone is a valid timestamp. *)
Theorem swapped_time_range_is_rejected (f t : string) :
  validateTimeRange (JStr f) (JStr t) = Ok tt ->
  validateTimeRange (JStr t) (JStr f)
  = Throw (Error "'from' timestamp must be before 'to' timestamp") /\
  isValidISO8601 (JStr f) = Ok true /\
  isValidISO8601 (JStr t) = Ok true.
Proof.
  unfold validateTimeRange.
  rewrite !isValidISO8601_string, !new_Date_string. cbn [bind].
  destruct (Date_parse f) as [tf|], (Date_parse t) as [tt'|];
    destruct (includes f "T"), (includes t "T"); cbn [negb bind date_ge];
    try discriminate.
  destruct (Z.leb_spec tt' tf) as [Hle|Hgt]; [discriminate|]. intros _.
  destruct (Z.leb_spec tf tt') as [Hle'|Hgt']; [|lia].
  repeat split.
Qed.

(** X10.  Only a string or an array can pass as a timestamp.  A falsy value
    is answered [false]; a number or a boolean that denotes a valid time
    (an epoch in milliseconds, say) is not answered [false] but makes the
    engine throw, since it has no [includes]; so an absolute search whose
    [from] is such a number fails with that engine error and not with the
    timestamp message. *)
Theorem timestamps_must_be_strings (v : JsValue) :
  (isValidISO8601 v = Ok true ->
     (exists s, v = JStr s /\ Date_parse s <> None /\ includes s "T" = true) \/
     (exists items, v = JArr items /\ In (JStr "T") items)) /\
  (truthy v = false -> isValidISO8601 v = Ok false) /\
  (forall n, v = JNum n -> truthy v = true -> TimeClip n <> InvalidDate ->
     isValidISO8601 v = Throw (TypeError "dateString.includes is not a function") /\
     forall args q,
       get args "query" = Ok (JStr q) -> trim q <> "" -> get args "from" = Ok v ->
       searchLogsAbsolute_params args
       = Throw (TypeError "dateString.includes is not a function")).
Proof.
  repeat split.
  - unfold isValidISO8601. destruct (negb (truthy v)); [discriminate|].
    intros H. bind_inv H. destruct (date_isNaN a) eqn:Ed; [discriminate|].
    destruct v; cbn [call_includes] in H; try discriminate.
    + left. exists s. rewrite new_Date_string in Ha. injection Ha as <-.
      injection H as H. destruct (Date_parse s); [|discriminate].
      repeat split; [discriminate | assumption].
    + right. exists items. split; [reflexivity|].
      injection H as H. apply existsb_exists in H. destruct H as [x [Hin Hx]].
      destruct x; try discriminate. apply String.eqb_eq in Hx. now subst.
  - intros H. unfold isValidISO8601. now rewrite H.
  - subst v. unfold isValidISO8601. rewrite H0. cbn [negb].
    unfold new_Date. cbn [ToPrimitive bind ToNumber].
    destruct (TimeClip n); [reflexivity | now elim H1].
  - intros args q Hq Hne Hf.
    assert (Hv : isValidISO8601 v
                 = Throw (TypeError "dateString.includes is not a function")).
    { subst v. unfold isValidISO8601. rewrite H0. cbn [negb].
      unfold new_Date. cbn [ToPrimitive bind ToNumber].
      destruct (TimeClip n); [reflexivity | now elim H1]. }
    assert (Hnn := get_Ok_not_nullish _ _ _ Hq).
    unfold searchLogsAbsolute_params, destructure.
    rewrite Hnn, Hq, Hf, !(get_not_nullish args _ Hnn). cbn [bind].
    rewrite (proj2 (validateQuery_Ok (JStr q))) by eauto. cbn [bind].
    unfold validateTimeRange. now rewrite Hv.
Qed.

End MoreTimestamps.

(** *** What an accepted search sends *)

Lemma trimStart_first (s : string) (c : ascii) :
  first_char (trimStart s) = Some c -> isWhiteSpace c = false.
Proof.
  induction s as [|a s IH]; cbn [trimStart]; [discriminate|].
  destruct (isWhiteSpace a) eqn:E; [exact IH|].
  cbn [first_char]. intros H. now injection H as <-.
Qed.

Lemma trimEnd_last (s : string) (c : ascii) :
  last_char (trimEnd s) = Some c -> isWhiteSpace c = false.
Proof.
  induction s as [|a s IH]; cbn [trimEnd]; [discriminate|].
  destruct (trimEnd s) as [|b r] eqn:E.
  - destruct (isWhiteSpace a) eqn:Ea; [discriminate|].
    cbn [last_char]. intros H. now injection H as <-.
  - exact IH.
Qed.

Lemma trimEnd_first (s : string) (a c : ascii) :
  isWhiteSpace a = false ->
  first_char (trimEnd (String a s)) = Some c -> c = a.
Proof.
  intros Ha. cbn [trimEnd]. destruct (trimEnd s).
  - rewrite Ha. cbn [first_char]. intros H. now injection H.
  - cbn [first_char]. intros H. now injection H.
Qed.

Lemma trim_trimmed (s : string) : trimmed (trim s).
Proof.
  unfold trimmed, trim. split; [|apply trimEnd_last].
  intros c. destruct (trimStart s) as [|a r] eqn:E; [discriminate|].
  intros H.
  assert (Ha : isWhiteSpace a = false).
  { apply (trimStart_first s). now rewrite E. }
  now rewrite (trimEnd_first r a c Ha H).
Qed.

Lemma trimStart_id (s : string) :
  (forall c, first_char s = Some c -> isWhiteSpace c = false) -> trimStart s = s.
Proof.
  destruct s as [|a r]; [reflexivity|]. intros H. cbn [trimStart].
  now rewrite (H a eq_refl).
Qed.

Lemma trimEnd_id (s : string) :
  (forall c, last_char s = Some c -> isWhiteSpace c = false) -> trimEnd s = s.
Proof.
  induction s as [|a r IH]; [reflexivity|]. intros H. cbn [trimEnd].
  destruct r as [|b r'].
  - cbn [trimEnd]. now rewrite (H a eq_refl).
  - rewrite IH by (intros c Hc; apply H; exact Hc).
    reflexivity.
Qed.

Lemma trim_idempotent (s : string) : trim (trim s) = trim s.
Proof.
  destruct (trim_trimmed s) as [Hf Hl]. unfold trim at 1.
  rewrite (trimStart_id _ Hf). now apply trimEnd_id.
Qed.

Section SentParameters.
Context {rt : Runtime}.

(** X11.  The text parameters of an accepted search are sent trimmed: the
    query is not empty and has no white space at either end, and trimming
    it again changes nothing; the same holds for [from] and [to], which
    are not empty either. *)
Theorem sent_text_is_trimmed (args params : JsValue) :
  (searchLogsAbsolute_params args = Ok params ->
     exists q f t,
       get params "query" = Ok (JStr q) /\ get params "from" = Ok (JStr f) /\
       get params "to" = Ok (JStr t) /\
       q <> "" /\ trimmed q /\ trimmed f /\ trimmed t /\
       trim q = q /\ trim f = f /\ trim t = t) /\
  (searchLogsRelative_params args = Ok params ->
     exists q, get params "query" = Ok (JStr q) /\ q <> "" /\ trimmed q /\ trim q = q).
Proof.
  split; intros H.
  - apply absolute_search_acceptance in H.
    destruct H as (q & f & t & sid & lim & _ & Hq & _ & _ & _ & ->).
    exists (trim q), (trim f), (trim t). unfold absoluteParams.
    repeat split; try apply trim_trimmed; try apply trim_idempotent; assumption.
  - apply relative_search_acceptance in H.
    destruct H as (q & rs & sid & lim & _ & Hq & _ & _ & _ & ->).
    exists (trim q). unfold relativeParams.
    repeat split; try apply trim_trimmed; try apply trim_idempotent; assumption.
Qed.

(** X12.  An accepted search carries a [filter] parameter exactly when its
    [streamId] is a non-empty string, and the filter is then [streams:]
    followed by the id as given; an empty string passes the check and
    filters nothing.  The field list sent is always the same four
    fields. *)
Theorem stream_filter_parameter (args params sid : JsValue) :
  get args "streamId" = Ok sid ->
  searchLogsAbsolute_params args = Ok params \/
  searchLogsRelative_params args = Ok params ->
  get params "fields" = Ok (JStr "message,timestamp,source,level") /\
  (forall s, sid = JStr s -> s <> "" ->
     get params "filter" = Ok (JStr ("streams:" ++ s))) /\
  (sid = JUndefined \/ sid = JStr "" -> get params "filter" = Ok JUndefined) /\
  (get params "filter" <> Ok JUndefined -> exists s, sid = JStr s /\ s <> "").
Proof.
  intros Hs H.
  assert (E : validateStreamId sid = Ok tt /\
              exists fields,
                params = JObj (fields ++ streamFilter sid) /\
                lookup "filter" fields = None /\
                lookup "fields" fields = Some (JStr "message,timestamp,source,level")).
  { destruct H as [H | H].
    - apply absolute_search_acceptance in H.
      destruct H as (q & f & t & sid' & lim & (_ & _ & _ & Hs' & _) & _ & _ & Hv & _ & ->).
      rewrite Hs in Hs'. injection Hs' as <-. split; [assumption|].
      eexists. unfold absoluteParams. repeat split.
    - apply relative_search_acceptance in H.
      destruct H as (q & rs & sid' & lim & (_ & _ & Hs' & _) & _ & _ & Hv & _ & ->).
      rewrite Hs in Hs'. injection Hs' as <-. split; [assumption|].
      eexists. unfold relativeParams. repeat split. }
  destruct E as (Hv & fields & -> & Hnf & Hff).
  assert (Hfilter : forall extra, lookup "filter" (fields ++ extra) = lookup "filter" extra).
  { intros extra. clear - Hnf. induction fields as [|[k x] rest IH]; [reflexivity|].
    cbn [lookup app] in *. destruct (String.eqb "filter" k); [discriminate|].
    now apply IH. }
  apply validateStreamId_Ok in Hv.
  repeat split.
  - cbn [get]. rewrite lookup_app_not_filter by discriminate. now rewrite Hff.
  - intros s -> Hne. cbn [get]. rewrite Hfilter. cbn [streamFilter].
    destruct (String.eqb_spec s ""); [contradiction | reflexivity].
  - intros [-> | ->]; cbn [get]; rewrite Hfilter; reflexivity.
  - cbn [get]. rewrite Hfilter.
    destruct Hv as [-> | [s ->]]; cbn [streamFilter].
    + intros H'. now elim H'.
    + destruct (String.eqb_spec s "") as [->|Hne]; [intros H'; now elim H'|].
      intros _. eauto.
Qed.

End SentParameters.

(** *** A tool call from end to end *)

Section EndToEnd.
Context {rt : Runtime} {env : Env}.

Lemma formatError_fixed_cases (error : AxiosError) :
  (forall r, response error = Some r -> status r = 401 ->
     formatError error
     = Ok "Authentication failed. Check API_TOKEN in MCP configuration.") /\
  (response error = None -> request error = true ->
     formatError error
     = Ok ("Cannot reach Graylog at " ++ baseUrl ++ ". Check network connectivity.")).
Proof.
  unfold formatError. split.
  - intros r -> ->. reflexivity.
  - intros -> ->. reflexivity.
Qed.

Lemma request_rejected_then {B : Type} endpoint params (k : JsValue -> Async B) error m :
  axios_get (baseUrl ++ endpoint) params = Rejected error ->
  formatError error = Ok m ->
  bindA (graylogRequest endpoint params) k
  = ([mkHttpGet (baseUrl ++ endpoint) params], Throw (Error m)).
Proof. intros H Hm. unfold bindA, graylogRequest. now rewrite H, Hm. Qed.

Lemma request_resolved_then {B : Type} endpoint params (k : JsValue -> Result B) data :
  axios_get (baseUrl ++ endpoint) params = Resolved data ->
  bindA (graylogRequest endpoint params) (fun d => lift (k d))
  = ([mkHttpGet (baseUrl ++ endpoint) params], k data).
Proof. intros H. unfold bindA, graylogRequest, lift. now rewrite H. Qed.

Lemma sent_by_callTool (tool : string) (args : JsValue) :
  fst (callTool tool args)
  = if String.eqb tool "search_logs_absolute" then
      match searchLogsAbsolute_params args with
      | Ok params => [mkHttpGet (baseUrl ++ "/api/search/universal/absolute") params]
      | Throw _ => []
      end
    else if String.eqb tool "search_logs_relative" then
      match searchLogsRelative_params args with
      | Ok params => [mkHttpGet (baseUrl ++ "/api/search/universal/relative") params]
      | Throw _ => []
      end
    else if String.eqb tool "list_streams" then
      [mkHttpGet (baseUrl ++ "/api/streams") (JObj [])]
    else if String.eqb tool "get_system_info" then
      [mkHttpGet (baseUrl ++ "/api/system") (JObj [])]
    else [].
Proof.
  unfold callTool.
  destruct (String.eqb tool "search_logs_absolute").
  { destruct (searchLogsAbsolute_params args) as [p|e] eqn:E.
    - now apply searchLogsAbsolute_sent.
    - now rewrite (searchLogsAbsolute_rejected _ _ E). }
  destruct (String.eqb tool "search_logs_relative").
  { destruct (searchLogsRelative_params args) as [p|e] eqn:E.
    - now apply searchLogsRelative_sent.
    - now rewrite (searchLogsRelative_rejected _ _ E). }
  destruct (String.eqb tool "list_streams"); [apply fst_request_then|].
  destruct (String.eqb tool "get_system_info"); [apply fst_request_then|].
  reflexivity.
Qed.

(** X13.  A tool call sends at most one request, and only to one of the
    four endpoints under the configured base address.  The stream list and
    the system status send theirs whatever the arguments are, with no
    parameters; a search sends one exactly when its arguments are
    accepted, with the parameters the validation produced; an unknown
    tool sends none. *)
Theorem one_request_per_call (request : CallToolRequest) :
  let sent := fst (CallToolRequest_handler request) in
  (sent = [] \/
   exists endpoint params,
     sent = [mkHttpGet (baseUrl ++ endpoint) params] /\ In endpoint endpoints) /\
  (name request = "list_streams" ->
     sent = [mkHttpGet (baseUrl ++ "/api/streams") (JObj [])]) /\
  (name request = "get_system_info" ->
     sent = [mkHttpGet (baseUrl ++ "/api/system") (JObj [])]) /\
  (name request = "search_logs_absolute" ->
     forall params,
       searchLogsAbsolute_params (arguments request) = Ok params <->
       sent = [mkHttpGet (baseUrl ++ "/api/search/universal/absolute") params]) /\
  (name request = "search_logs_relative" ->
     forall params,
       searchLogsRelative_params (arguments request) = Ok params <->
       sent = [mkHttpGet (baseUrl ++ "/api/search/universal/relative") params]) /\
  (~ In (name request) advertisedNames -> sent = []).
Proof.
  intros sent. subst sent. rewrite handler_unfold. cbn [fst].
  rewrite sent_by_callTool.
  repeat match goal with |- _ /\ _ => split end.
  - destruct (String.eqb (name request) "search_logs_absolute").
    { destruct (searchLogsAbsolute_params _); [right | now left].
      do 2 eexists. split; [reflexivity|]. cbn. auto. }
    destruct (String.eqb (name request) "search_logs_relative").
    { destruct (searchLogsRelative_params _); [right | now left].
      do 2 eexists. split; [reflexivity|]. cbn. auto. }
    destruct (String.eqb (name request) "list_streams").
    { right. do 2 eexists. split; [reflexivity|]. cbn. auto. }
    destruct (String.eqb (name request) "get_system_info").
    { right. do 2 eexists. split; [reflexivity|]. cbn. auto. }
    now left.
  - intros ->. reflexivity.
  - intros ->. reflexivity.
  - intros -> params. cbn [String.eqb Ascii.eqb Bool.eqb].
    destruct (searchLogsAbsolute_params _) as [p|e]; split; intros H;
      try discriminate.
    + now injection H as <-.
    + now injection H as <-.
  - intros -> params. cbn [String.eqb Ascii.eqb Bool.eqb].
    destruct (searchLogsRelative_params _) as [p|e]; split; intros H;
      try discriminate.
    + now injection H as <-.
    + now injection H as <-.
  - rewrite advertisedNames_eq. intros Hn.
    destruct (String.eqb_spec (name request) "search_logs_absolute") as [E|_];
      [elim Hn; rewrite E; cbn; auto|].
    destruct (String.eqb_spec (name request) "search_logs_relative") as [E|_];
      [elim Hn; rewrite E; cbn; auto|].
    destruct (String.eqb_spec (name request) "list_streams") as [E|_];
      [elim Hn; rewrite E; cbn; auto|].
    destruct (String.eqb_spec (name request) "get_system_info") as [E|_];
      [elim Hn; rewrite E; cbn; auto|].
    reflexivity.
Qed.

(** X14.  When the request a call sent is rejected by the remote and the
    failure normalises to [m], the caller receives the error envelope with
    text "Error: " followed by [m], whichever tool was called; with a 401
    answer that is the authentication guidance. *)
Theorem remote_failure_reaches_the_caller (request : CallToolRequest)
        (u : string) (params : JsValue) (error : AxiosError) (m : string) :
  fst (CallToolRequest_handler request) = [mkHttpGet u params] ->
  axios_get u params = Rejected error ->
  formatError error = Ok m ->
  snd (CallToolRequest_handler request)
  = mkEnvelope [mkContent "text" ("Error: " ++ m)] (Some true) /\
  (forall r, response error = Some r -> status r = 401 ->
     snd (CallToolRequest_handler request)
     = mkEnvelope
         [mkContent "text"
            "Error: Authentication failed. Check API_TOKEN in MCP configuration."]
         (Some true)).
Proof.
  intros Hsent Hrej Hm.
  assert (Main : snd (CallToolRequest_handler request)
                 = mkEnvelope [mkContent "text" ("Error: " ++ m)] (Some true)).
  { rewrite handler_unfold in *. cbn [fst snd] in *.
    rewrite sent_by_callTool in Hsent. unfold callTool.
    destruct (String.eqb (name request) "search_logs_absolute").
    { unfold searchLogsAbsolute.
      destruct (searchLogsAbsolute_params _) as [p|e]; [|discriminate].
      injection Hsent as <- <-. rewrite bindA_lift_Ok.
      now rewrite (request_rejected_then _ _ _ _ _ Hrej Hm). }
    destruct (String.eqb (name request) "search_logs_relative").
    { unfold searchLogsRelative.
      destruct (searchLogsRelative_params _) as [p|e]; [|discriminate].
      injection Hsent as <- <-. rewrite bindA_lift_Ok.
      now rewrite (request_rejected_then _ _ _ _ _ Hrej Hm). }
    destruct (String.eqb (name request) "list_streams").
    { injection Hsent as <- <-. unfold listStreams.
      now rewrite (request_rejected_then _ _ _ _ _ Hrej Hm). }
    destruct (String.eqb (name request) "get_system_info").
    { injection Hsent as <- <-. unfold getSystemInfo.
      now rewrite (request_rejected_then _ _ _ _ _ Hrej Hm). }
    discriminate. }
  split; [exact Main|].
  intros r Hr Hs. rewrite Main.
  rewrite (proj1 (formatError_fixed_cases error) r Hr Hs) in Hm.
  now injection Hm as <-.
Qed.

End EndToEnd.

Section Success.
Context {rt : Runtime} {env : Env}.

(** X15.  When the remote answers, the caller receives the shaped answer
    printed as JSON in one text item, with no error flag, or the error
    envelope of the failure met while shaping.  An absolute search echoes
    [from] and [to] as the caller gave them (not trimmed, unlike the
    request); a relative search echoes the range it applied, 900 when none
    was given. *)
Theorem answered_calls (args data : JsValue) :
  let outcome (r : Result JsValue) :=
    match r with
    | Ok result => mkEnvelope [mkContent "text" (JSON_stringify result)] None
    | Throw e => mkEnvelope [mkContent "text" ("Error: " ++ message e)] (Some true)
    end in
  (forall params q f t sid lim,
     searchLogsAbsolute_params args = Ok params ->
     absolute_request args q f t sid lim ->
     axios_get (baseUrl ++ "/api/search/universal/absolute") params = Resolved data ->
     CallToolRequest_handler (mkRequest "search_logs_absolute" args)
     = ([mkHttpGet (baseUrl ++ "/api/search/universal/absolute") params],
        outcome (searchResult data (JObj [("from", JStr f); ("to", JStr t)])))) /\
  (forall params q rs sid lim seconds,
     searchLogsRelative_params args = Ok params ->
     relative_request args q rs sid lim ->
     ToString (coalesce rs (JNum (Num.of_Z 900))) = Ok seconds ->
     axios_get (baseUrl ++ "/api/search/universal/relative") params = Resolved data ->
     CallToolRequest_handler (mkRequest "search_logs_relative" args)
     = ([mkHttpGet (baseUrl ++ "/api/search/universal/relative") params],
        outcome (searchResult data (JStr ("Last " ++ seconds ++ " seconds"))))) /\
  (axios_get (baseUrl ++ "/api/streams") (JObj []) = Resolved data ->
     CallToolRequest_handler (mkRequest "list_streams" args)
     = ([mkHttpGet (baseUrl ++ "/api/streams") (JObj [])],
        outcome (streamsResult data))) /\
  (axios_get (baseUrl ++ "/api/system") (JObj []) = Resolved data ->
     CallToolRequest_handler (mkRequest "get_system_info" args)
     = ([mkHttpGet (baseUrl ++ "/api/system") (JObj [])],
        outcome (systemResult data))).
Proof.
  intros outcome. repeat split.
  - intros params q f t sid lim Hp (_ & Hf & Ht & _) Hres.
    unfold CallToolRequest_handler, callTool. cbn [name arguments String.eqb Ascii.eqb Bool.eqb].
    unfold searchLogsAbsolute. rewrite Hp, bindA_lift_Ok.
    rewrite (request_resolved_then _ _ _ _ Hres), Hf, Ht. cbn [bind].
    destruct (searchResult data _); reflexivity.
  - intros params q rs sid lim seconds Hp (_ & Hr & _) Hs Hres.
    unfold CallToolRequest_handler, callTool. cbn [name arguments String.eqb Ascii.eqb Bool.eqb].
    unfold searchLogsRelative. rewrite Hp, bindA_lift_Ok.
    rewrite (request_resolved_then _ _ _ _ Hres), Hr. cbn [bind].
    rewrite Hs. cbn [bind].
    destruct (searchResult data _); reflexivity.
  - intros Hres.
    unfold CallToolRequest_handler, callTool. cbn [name arguments String.eqb Ascii.eqb Bool.eqb].
    unfold listStreams. rewrite (request_resolved_then _ _ _ _ Hres).
    destruct (streamsResult data); reflexivity.
  - intros Hres.
    unfold CallToolRequest_handler, callTool. cbn [name arguments String.eqb Ascii.eqb Bool.eqb].
    unfold getSystemInfo. rewrite (request_resolved_then _ _ _ _ Hres).
    destruct (systemResult data); reflexivity.
Qed.

End Success.

(** *** Shaping at the edges *)

Lemma filterM_length {A : Type} (p : A -> Result bool) (l out : list A) :
  filterM p l = Ok out -> (List.length out <= List.length l)%nat.
Proof.
  revert out. induction l as [|x rest IH]; cbn [filterM]; intros out H.
  - injection H as <-. reflexivity.
  - bind_inv H. bind_inv H. injection H as <-.
    specialize (IH _ Ha0). destruct a; cbn [List.length]; lia.
Qed.

Lemma mapM_length {A B : Type} (f : A -> Result B) (l : list A) (out : list B) :
  mapM f l = Ok out -> List.length out = List.length l.
Proof.
  revert out. induction l as [|x rest IH]; cbn [mapM]; intros out H.
  - injection H as <-. reflexivity.
  - bind_inv H. bind_inv H. injection H as <-. cbn [List.length].
    now rewrite (IH _ Ha0).
Qed.

Lemma formatMessages_falsy (messages : JsValue) :
  truthy messages = false -> formatMessages messages = Ok [].
Proof. intros H. unfold formatMessages, or_else. now rewrite H. Qed.

Lemma formatMessages_not_array (messages : JsValue) :
  truthy messages = true -> (forall raw, messages <> JArr raw) ->
  formatMessages messages
  = Throw (TypeError "(data.messages || []).filter is not a function").
Proof.
  intros H Hna. unfold formatMessages, or_else. rewrite H.
  destruct messages; try reflexivity. now elim (Hna items).
Qed.

Lemma formatMessages_length (messages : JsValue) (shaped : list JsValue) :
  formatMessages messages = Ok shaped ->
  (List.length shaped <= List.length (items_of messages))%nat.
Proof.
  destruct (truthy messages) eqn:Ht.
  - destruct messages; try (rewrite formatMessages_not_array by
                              (try assumption; intros; discriminate); discriminate).
    rewrite formatMessages_array. intros H. injection H as <-.
    rewrite length_map. cbn [items_of]. apply filter_length_le.
  - rewrite formatMessages_falsy by assumption. intros H. injection H as <-.
    cbn. lia.
Qed.

(** X16.  Shaping the answer of a search fails only when the answer is
    null or undefined, or when its [messages] is a truthy value that is
    not an array.  Otherwise the result has the four properties
    [total_results], [query], [time_range], [messages] in that order:
    [total_results] is 0 when the remote gave none (or a falsy one) and is
    otherwise passed through, unrelated to the number of messages kept;
    [messages] is an array, empty when the remote gave none. *)
Theorem search_result_edges (data time_range : JsValue) :
  (isOk (searchResult data time_range) = true <->
   nullish data = false /\
   (truthy (get_opt data "messages") = false \/
    exists raw, get_opt data "messages" = JArr raw)) /\
  (forall result, searchResult data time_range = Ok result ->
     keys result = ["total_results"; "query"; "time_range"; "messages"] /\
     get result "time_range" = Ok time_range /\
     get result "query" = Ok (get_opt data "built_query") /\
     get result "total_results"
     = Ok (if truthy (get_opt data "total_results")
           then get_opt data "total_results" else JNum (Num.of_Z 0)) /\
     exists shaped,
       get result "messages" = Ok (JArr shaped) /\
       (List.length shaped <= List.length (items_of (get_opt data "messages")))%nat /\
       (truthy (get_opt data "messages") = false -> shaped = [])) /\
  (nullish data = true ->
     exists e, searchResult data time_range = Throw e /\ err_name e = "TypeError") /\
  (nullish data = false -> truthy (get_opt data "messages") = true ->
     (forall raw, get_opt data "messages" <> JArr raw) ->
     searchResult data time_range
     = Throw (TypeError "(data.messages || []).filter is not a function")).
Proof.
  destruct (nullish data) eqn:Hn.
  - assert (E : exists e, searchResult data time_range = Throw e /\ err_name e = "TypeError").
    { destruct data; try discriminate; eexists; split; reflexivity. }
    destruct E as (e & E & He). rewrite E.
    split; [|split; [|split]]; try discriminate.
    + split; [discriminate | intros [H _]; discriminate].
    + eauto.
  - assert (E : searchResult data time_range
                = (shaped <- formatMessages (get_opt data "messages") ;;
                   Ok (JObj [("total_results",
                              or_else (get_opt data "total_results") (JNum (Num.of_Z 0)));
                             ("query", get_opt data "built_query");
                             ("time_range", time_range);
                             ("messages", JArr shaped)]))).
    { unfold searchResult. now rewrite !(get_not_nullish data _ Hn). }
    rewrite E. clear E.
    split; [|split; [|split]]; try discriminate.
    + split.
      * intros H. split; [reflexivity|].
        destruct (truthy (get_opt data "messages")) eqn:Ht; [|now left]. right.
        destruct (get_opt data "messages") eqn:Em; eauto;
          rewrite formatMessages_not_array in H
            by (try assumption; intros; discriminate); discriminate.
      * intros [_ [Hf | [raw Hr]]].
        -- now rewrite formatMessages_falsy.
        -- rewrite Hr, formatMessages_array. reflexivity.
    + intros result H. bind_inv H. injection H as <-.
      repeat split.
      exists a. split; [reflexivity|]. split; [now apply formatMessages_length|].
      intros Hf. rewrite formatMessages_falsy in Ha by assumption.
      now injection Ha as <-.
    + intros _ Ht Hna. now rewrite formatMessages_not_array.
Qed.

(** X17.  The system status fails only on a null or undefined answer.
    Otherwise it is the seven named properties in their fixed order, each
    with the remote's value ([undefined] when the remote has none), and
    nothing else of the answer; shaping a shaped status again changes
    nothing. *)
Theorem system_status_shaping (data : JsValue) :
  (isOk (systemResult data) = true <-> nullish data = false) /\
  (nullish data = true ->
     systemResult data
     = Throw (TypeError ("Cannot read properties of " ++ describe_nullish data
                         ++ " (reading 'version')"))) /\
  (forall result, systemResult data = Ok result ->
     keys result = systemFields /\
     (forall k, In k systemFields -> get result k = Ok (get_opt data k)) /\
     (forall k, ~ In k systemFields -> get result k = Ok JUndefined) /\
     systemResult result = Ok result).
Proof.
  destruct (nullish data) eqn:Hn.
  - assert (E : systemResult data
                = Throw (TypeError ("Cannot read properties of " ++ describe_nullish data
                                    ++ " (reading 'version')"))).
    { destruct data; try discriminate; reflexivity. }
    rewrite E. repeat split; try discriminate.
  - assert (E : systemResult data
                = Ok (JObj (map (fun k => (k, get_opt data k)) systemFields))).
    { unfold systemResult. now rewrite !(get_not_nullish data _ Hn). }
    rewrite E. split; [split; auto|]. split; [discriminate|].
    intros result H. injection H as <-. split; [reflexivity|]. split; [|split].
    + intros k Hin. cbn in Hin.
      repeat (destruct Hin as [<- | Hin]; [reflexivity|]). destruct Hin.
    + intros k Hnin. cbn [get map systemFields lookup].
      repeat match goal with
      | |- context [String.eqb k ?x] =>
          destruct (String.eqb_spec k x) as [->|_]; [elim Hnin; cbn; auto 10|]
      end.
      reflexivity.
    + reflexivity.
Qed.

Section StreamEdges.
Context {rt : Runtime}.

Lemma filterM_notDefault_nullish (raw : list JsValue) :
  Exists (fun s => nullish s = true) raw ->
  exists e, filterM notDefault raw = Throw e /\ err_name e = "TypeError".
Proof.
  induction 1 as [x rest Hx | x rest Hex IH]; cbn [filterM].
  - destruct x; try discriminate; eexists; split; reflexivity.
  - destruct (notDefault x) as [b|e] eqn:E; cbn [bind].
    + destruct IH as (e & -> & He). cbn [bind]. eauto.
    + exists e. split; [reflexivity|].
      unfold notDefault in E. throw_inv E; [now apply get_throws in E | discriminate].
Qed.

(** X18.  The stream list at its edges.  An answer without [streams] (or
    with a falsy one) gives no streams and a total of 0.  A null entry, or
    a null or undefined answer, makes the shaping fail with an error of the
    engine.  A single retained stream needs no title: it is returned with
    the title the remote gave, [undefined] when there is none.  Two
    retained streams without titles make the shaping fail with the
    engine's error about [localeCompare], whichever of them the sort
    compares first. *)
Theorem stream_list_edges (data : JsValue) :
  (nullish data = false -> truthy (get_opt data "streams") = false ->
     streamsResult data
     = Ok (JObj [("total", JNum (Num.of_Z 0)); ("streams", JArr [])])) /\
  (nullish data = true ->
     exists e, streamsResult data = Throw e /\ err_name e = "TypeError") /\
  (forall raw, nullish data = false -> get_opt data "streams" = JArr raw ->
     Exists (fun s => nullish s = true) raw ->
     exists e, streamsResult data = Throw e /\ err_name e = "TypeError") /\
  (forall s, nullish data = false -> get_opt data "streams" = JArr [s] ->
     nullish s = false -> keptStream s = true ->
     streamsResult data
     = Ok (JObj [("total", JNum (Num.of_Z 1)); ("streams", JArr [projectedStream s])])) /\
  (forall a b, nullish data = false -> get_opt data "streams" = JArr [a; b] ->
     nullish a = false -> nullish b = false ->
     keptStream a = true -> keptStream b = true ->
     get_opt a "title" = JUndefined -> get_opt b "title" = JUndefined ->
     streamsResult data
     = Throw (TypeError "Cannot read properties of undefined (reading 'localeCompare')")).
Proof.
  repeat split.
  - intros Hn Hf. unfold streamsResult. rewrite (get_not_nullish data _ Hn).
    cbn [bind]. unfold or_else. rewrite Hf. reflexivity.
  - intros Hn. destruct data; try discriminate; eexists; split; reflexivity.
  - intros raw Hn Hs Hex. unfold streamsResult. rewrite (get_not_nullish data _ Hn).
    cbn [bind]. rewrite Hs. cbn [or_else truthy as_array bind].
    destruct (filterM_notDefault_nullish raw Hex) as (e & -> & He). cbn [bind]. eauto.
  - intros s Hn Hs Hsn Hk. unfold streamsResult. rewrite (get_not_nullish data _ Hn).
    cbn [bind]. rewrite Hs. cbn [or_else truthy as_array bind filterM].
    rewrite (notDefault_pure s Hsn), Hk. cbn [bind sortM insertM mapM].
    now rewrite (projectStream_pure s Hsn).
  - intros a b Hn Hs Ha Hb Hka Hkb Hta _. unfold streamsResult.
    rewrite (get_not_nullish data _ Hn).
    cbn [bind]. rewrite Hs. cbn [or_else truthy as_array bind filterM].
    rewrite (notDefault_pure a Ha), (notDefault_pure b Hb), Hka, Hkb.
    cbn [bind sortM insertM]. unfold compareTitles.
    rewrite (get_not_nullish a _ Ha), Hta. reflexivity.
Qed.

End StreamEdges.

(** *** Stability of the stream order *)

Section Stability.
Context {A : Type} (cmp : A -> A -> comparison) (same : A -> bool).

(** [same] picks out elements that the comparator does not tell apart. *)
Hypothesis same_Eq : forall a b, same a = true -> same b = true -> cmp a b <> Gt.

Lemma insert_filter_same (x : A) (l : list A) :
  filter same (insert cmp x l)
  = if same x then x :: filter same l else filter same l.
Proof.
  induction l as [|y rest IH]; cbn [insert filter].
  - reflexivity.
  - destruct (cmp x y) eqn:E; cbn [filter]; try reflexivity.
    rewrite IH. destruct (same x) eqn:Hx, (same y) eqn:Hy; try reflexivity.
    now elim (same_Eq x y Hx Hy).
Qed.

Lemma isort_filter_same (l : list A) :
  filter same (isort cmp l) = filter same l.
Proof.
  induction l as [|x rest IH]; cbn [isort filter]; [reflexivity|].
  rewrite insert_filter_same, IH. reflexivity.
Qed.

End Stability.

Section StreamOrder.
Context {rt : Runtime}.

(** X19.  Streams with the same title keep the order the remote gave them
    in.  For an answer whose entries are not null and whose retained
    entries have string titles, and a consistent collation (its sign flips
    when the arguments are swapped, and it is transitive): for every
    title, the returned streams with that title are the retained streams
    with that title, in their original order. *)
Theorem equal_titles_keep_their_order
        (data : list (string * JsValue)) (raw : list JsValue) (title : string) :
  lookup "streams" data = Some (JArr raw) ->
  Forall (fun s => nullish s = false) raw ->
  Forall hasTitle (filter keptStream raw) ->
  (forall x y, localeCompare y x = CompOpp (localeCompare x y)) ->
  (forall x y z, localeCompare x y <> Gt -> localeCompare y z <> Gt ->
                 localeCompare x z <> Gt) ->
  exists sorted,
    streamsResult (JObj data)
    = Ok (JObj [("total", JNum (Num.of_Z (Z.of_nat (List.length (map projectedStream sorted)))));
                ("streams", JArr (map projectedStream sorted))]) /\
    filter (fun s => String.eqb (title_of s) title) sorted
    = filter (fun s => String.eqb (title_of s) title) (filter keptStream raw).
Proof.
  intros Hd Hraw Htitles Hanti _.
  exists (isort byTitle (filter keptStream raw)).
  split; [exact (streamsResult_array data raw Hd Hraw Htitles)|].
  apply isort_filter_same.
  intros a b Ha Hb. apply String.eqb_eq in Ha, Hb. unfold byTitle.
  rewrite Ha, Hb. specialize (Hanti title title).
  destruct (localeCompare title title); discriminate.
Qed.

End StreamOrder.

(** *** Integer limits and ranges *)

Lemma In_Zrange (lo : Z) (n : nat) (z : Z) :
  lo <= z < lo + Z.of_nat n -> In z (Zrange lo n).
Proof.
  revert lo. induction n as [|n IH]; intros lo H; [lia|].
  cbn [Zrange]. destruct (Z.eq_dec lo z) as [->|Hne]; [now left|].
  right. apply IH. lia.
Qed.

Lemma limits_in_range :
  forallb (fun z => negb (Num.ltb (Num.of_Z z) (Num.of_Z 1)
                          || Num.ltb (Num.of_Z 1000) (Num.of_Z z)))
          (Zrange 1 (Z.to_nat 1000)) = true.
Proof. vm_compute. reflexivity. Qed.

Lemma ranges_in_range :
  forallb (fun z => negb (Num.ltb (Num.of_Z z) (Num.of_Z 1)
                          || Num.ltb (Num.of_Z 86400) (Num.of_Z z)))
          (Zrange 1 (Z.to_nat 86400)) = true.
Proof. vm_compute. reflexivity. Qed.

Section Integers.
Context {rt : Runtime}.

(** X20.  Read as integers: every whole limit from 1 to 1000 passes the
    limit check, and every whole number of seconds from 1 to 86400 passes
    the range check. *)
Theorem whole_numbers_in_range_pass (z : Z) :
  (1 <= z <= 1000 -> validateLimit (JNum (Num.of_Z z)) = Ok tt) /\
  (1 <= z <= 86400 -> validateRangeSeconds (JNum (Num.of_Z z)) = Ok tt).
Proof.
  split; intros Hz.
  - rewrite (validateLimit_number (JNum (Num.of_Z z)) (Num.of_Z z) eq_refl).
    assert (H := proj1 (forallb_forall _ _) limits_in_range z
                   (In_Zrange 1 (Z.to_nat 1000) z ltac:(lia))).
    cbv beta in H. apply negb_true_iff in H. now rewrite H.
  - rewrite (validateRangeSeconds_number (JNum (Num.of_Z z)) (Num.of_Z z) eq_refl).
    assert (H := proj1 (forallb_forall _ _) ranges_in_range z
                   (In_Zrange 1 (Z.to_nat 86400) z ltac:(lia))).
    cbv beta in H. apply negb_true_iff in H. now rewrite H.
Qed.

End Integers.

(** *** When the normalisation of a remote failure fails itself *)

Section NormalisationFailure.
Context {rt : Runtime} {env : Env}.

(** X21.  [formatError] itself throws in one situation only: the remote
    answered with a status other than 401 and 404 and the [message] of its
    body is an array or an object that does not convert to a string; the
    error is then the engine's.  For a body whose [message] is absent or a
    primitive, a message is always produced. *)
Theorem formatError_failure (error : AxiosError) :
  (forall e, formatError error = Throw e ->
     e = TypeError "Cannot convert object to primitive value" /\
     exists r, response error = Some r /\ status r <> 401 /\ status r <> 404 /\
               ((exists items, get_opt (data r) "message" = JArr items) \/
                (exists fields, get_opt (data r) "message" = JObj fields))) /\
  ((forall r, response error = Some r ->
      (forall items, get_opt (data r) "message" <> JArr items) /\
      (forall fields, get_opt (data r) "message" <> JObj fields)) ->
   exists m, formatError error = Ok m).
Proof.
  assert (Hmsg : forall d fallback e,
            message_or d fallback = Throw e ->
            e = TypeError "Cannot convert object to primitive value" /\
            ((exists items, get_opt d "message" = JArr items) \/
             (exists fields, get_opt d "message" = JObj fields))).
  { intros d fallback e H. unfold message_or, or_else in H.
    split; [now apply ToString_throws in H|].
    destruct (truthy (get_opt d "message")); [|cbn in H; discriminate H].
    destruct (get_opt d "message"); try (cbn in H; discriminate H); eauto.
    destruct b; cbn in H; discriminate H. }
  assert (Hok : forall d fallback,
            (forall items, get_opt d "message" <> JArr items) ->
            (forall fields, get_opt d "message" <> JObj fields) ->
            exists m, message_or d fallback = Ok m).
  { intros d fallback Ha Ho. unfold message_or, or_else.
    destruct (truthy (get_opt d "message")); [|eexists; reflexivity].
    now apply ToString_primitive. }
  unfold formatError. split.
  - intros e H. destruct (response error) as [r|]; [|destruct (request error); discriminate].
    destruct (Z.eqb_spec (status r) 401); [discriminate|].
    destruct (Z.eqb_spec (status r) 400).
    { throw_inv H; [|discriminate]. destruct (Hmsg _ _ _ H) as [-> Hd].
      split; [reflexivity|]. exists r. repeat split; try assumption; lia. }
    destruct (Z.eqb_spec (status r) 404); [discriminate|].
    destruct (Z.eqb_spec (status r) 500).
    { throw_inv H; [|discriminate]. destruct (Hmsg _ _ _ H) as [-> Hd].
      split; [reflexivity|]. exists r. repeat split; assumption. }
    throw_inv H; [|discriminate]. destruct (Hmsg _ _ _ H) as [-> Hd].
    split; [reflexivity|]. exists r. repeat split; assumption.
  - intros Hprim. destruct (response error) as [r|];
      [|destruct (request error); eauto].
    destruct (Hprim r eq_refl) as [Ha Ho].
    destruct (status r =? 401); [eauto|].
    destruct (status r =? 400).
    { destruct (Hok (data r) "Check query syntax and parameters" Ha Ho) as [m ->].
      cbn [bind]. eauto. }
    destruct (status r =? 404); [eauto|].
    destruct (status r =? 500);
      destruct (Hok (data r) (error_message error) Ha Ho) as [m ->];
      cbn [bind]; eauto.
Qed.

End NormalisationFailure.

(** *** Arguments of the advertised types *)

Section TypedArguments.
Context {rt : Runtime}.

Lemma validateTimeRange_strings (f t : JsValue) (e : JsError) :
  (f = JUndefined \/ exists s, f = JStr s) ->
  (t = JUndefined \/ exists s, t = JStr s) ->
  validateTimeRange f t = Throw e ->
  err_name e = "Error" /\ In (message e) validationMessages.
Proof.
  intros Hf Ht H.
  destruct (validateTimeRange_throws _ _ _ H) as [He | [-> | [-> | ->]]];
    try (split; [reflexivity | cbn; auto 10]).
  exfalso. unfold validateTimeRange in H.
  destruct Hf as [-> | [sf ->]].
  { cbn in H. injection H as <-. discriminate. }
  rewrite isValidISO8601_string in H. cbn [bind] in H.
  match type of H with (if ?b then _ else _) = _ => destruct b end;
    [injection H as <-; discriminate|].
  destruct Ht as [-> | [st ->]].
  { cbn in H. injection H as <-. discriminate. }
  rewrite isValidISO8601_string in H. cbn [bind] in H.
  match type of H with (if ?b then _ else _) = _ => destruct b end;
    [injection H as <-; discriminate|].
  rewrite !new_Date_string in H. cbn [bind] in H.
  match type of H with (if ?b then _ else _) = _ => destruct b end;
    [injection H as <-; discriminate | discriminate].
Qed.

Lemma validateTimeRange_Ok_strings (f t : JsValue) :
  (f = JUndefined \/ exists s, f = JStr s) ->
  (t = JUndefined \/ exists s, t = JStr s) ->
  validateTimeRange f t = Ok tt ->
  (exists s, f = JStr s) /\ (exists s, t = JStr s).
Proof.
  intros [-> | Hf] Ht H; [discriminate H|].
  destruct Ht as [-> | Ht]; [|now split].
  destruct Hf as [sf ->]. unfold validateTimeRange in H.
  rewrite isValidISO8601_string in H. cbn [bind] in H.
  match type of H with (if ?b then _ else _) = _ => destruct b end;
    [discriminate | cbn in H; discriminate].
Qed.

Lemma validateLimit_of_number (lim : JsValue) (d : Z) (e : JsError) :
  (lim = JUndefined \/ exists n, lim = JNum n) ->
  validateLimit (coalesce lim (JNum (Num.of_Z d))) = Throw e ->
  e = Error "'limit' must be between 1 and 1000".
Proof.
  intros Hl H.
  assert (E : exists n, coalesce lim (JNum (Num.of_Z d)) = JNum n)
    by (destruct Hl as [-> | [n ->]]; eexists; reflexivity).
  destruct E as [n E]. rewrite E in H.
  rewrite (validateLimit_number (JNum n) n eq_refl) in H.
  match type of H with (if ?b then _ else _) = _ => destruct b end;
    [now injection H as <- | discriminate].
Qed.

Lemma validateRangeSeconds_of_number (rs : JsValue) (d : Z) (e : JsError) :
  (rs = JUndefined \/ exists n, rs = JNum n) ->
  validateRangeSeconds (coalesce rs (JNum (Num.of_Z d))) = Throw e ->
  e = Error "'rangeSeconds' must be between 1 and 86400 (24 hours)".
Proof.
  intros Hl H.
  assert (E : exists n, coalesce rs (JNum (Num.of_Z d)) = JNum n)
    by (destruct Hl as [-> | [n ->]]; eexists; reflexivity).
  destruct E as [n E]. rewrite E in H.
  rewrite (validateRangeSeconds_number (JNum n) n eq_refl) in H.
  match type of H with (if ?b then _ else _) = _ => destruct b end;
    [now injection H as <- | discriminate].
Qed.

(** X22.  Arguments of the advertised types never meet an error of the
    engine: when the arguments are an object whose [query], [from], [to]
    and [streamId] are strings or absent and whose [limit] and
    [rangeSeconds] are numbers or absent, a rejected search is rejected
    with an [Error] carrying one of the seven messages of the checks. *)
Theorem typed_arguments_get_a_message (fields : list (string * JsValue)) (e : JsError) :
  (forall k, In k ["query"; "from"; "to"; "streamId"] ->
     get_opt (JObj fields) k = JUndefined \/ exists s, get_opt (JObj fields) k = JStr s) ->
  (forall k, In k ["limit"; "rangeSeconds"] ->
     get_opt (JObj fields) k = JUndefined \/ exists n, get_opt (JObj fields) k = JNum n) ->
  searchLogsAbsolute_params (JObj fields) = Throw e \/
  searchLogsRelative_params (JObj fields) = Throw e ->
  err_name e = "Error" /\ In (message e) validationMessages.
Proof.
  intros Hstr Hnum H.
  pose proof (Hstr "query" ltac:(cbn; auto)) as Hq.
  pose proof (Hstr "from" ltac:(cbn; auto)) as Hf.
  pose proof (Hstr "to" ltac:(cbn; auto)) as Ht.
  pose proof (Hstr "streamId" ltac:(cbn; auto 10)) as Hs.
  pose proof (Hnum "limit" ltac:(cbn; auto)) as Hl.
  pose proof (Hnum "rangeSeconds" ltac:(cbn; auto)) as Hr.
  assert (Hget : forall k, get (JObj fields) k = Ok (get_opt (JObj fields) k))
    by reflexivity.
  destruct H as [H | H].
  - unfold searchLogsAbsolute_params in H.
    cbn [destructure nullish bind] in H. rewrite !Hget in H. cbn [bind] in H.
    throw_inv H; [apply validateQuery_throws in H; subst e; split; cbn; auto 10|].
    throw_inv H; [now apply (validateTimeRange_strings _ _ _ Hf Ht)|].
    throw_inv H; [apply validateStreamId_throws in H; subst e; split; cbn; auto 10|].
    throw_inv H; [apply (validateLimit_of_number _ _ _ Hl) in H; subst e;
                  split; cbn; auto 10|].
    exfalso.
    repeat match goal with u : unit |- _ => destruct u end.
    match goal with Hv : validateQuery _ = Ok tt |- _ =>
      apply validateQuery_Ok in Hv; destruct Hv as [q [Eq _]] end.
    match goal with Hv : validateTimeRange _ _ = Ok tt |- _ =>
      destruct (validateTimeRange_Ok_strings _ _ Hf Ht Hv) as [[sf Ef] [st Et]] end.
    rewrite Eq, Ef, Et in H. cbn [call_trim bind] in H.
    match goal with Hv : validateStreamId _ = Ok tt |- _ =>
      rewrite (withStreamFilter_valid _ _ Hv) in H end.
    discriminate.
  - unfold searchLogsRelative_params in H.
    cbn [destructure nullish bind] in H. rewrite !Hget in H. cbn [bind] in H.
    throw_inv H; [apply validateQuery_throws in H; subst e; split; cbn; auto 10|].
    throw_inv H; [apply (validateRangeSeconds_of_number _ _ _ Hr) in H; subst e;
                  split; cbn; auto 10|].
    throw_inv H; [apply validateStreamId_throws in H; subst e; split; cbn; auto 10|].
    throw_inv H; [apply (validateLimit_of_number _ _ _ Hl) in H; subst e;
                  split; cbn; auto 10|].
    exfalso.
    repeat match goal with u : unit |- _ => destruct u end.
    match goal with Hv : validateQuery _ = Ok tt |- _ =>
      apply validateQuery_Ok in Hv; destruct Hv as [q [Eq _]] end.
    rewrite Eq in H. cbn [call_trim bind] in H.
    match goal with Hv : validateStreamId _ = Ok tt |- _ =>
      rewrite (withStreamFilter_valid _ _ Hv) in H end.
    discriminate.
Qed.

(** X23.  The checks run in a fixed order and the first that fails decides
    the error: in the absolute search the time range comes before the
    stream id and the stream id before the limit; in the relative search
    the range comes before the stream id and the stream id before the
    limit. *)
Theorem first_failing_check_decides (args : JsValue) (e : JsError) :
  (forall q f t sid lim,
     absolute_request args q f t sid lim -> trim q <> "" ->
     (validateTimeRange (JStr f) (JStr t) = Throw e ->
        searchLogsAbsolute_params args = Throw e) /\
     (validateTimeRange (JStr f) (JStr t) = Ok tt -> validateStreamId sid = Throw e ->
        searchLogsAbsolute_params args = Throw e) /\
     (validateTimeRange (JStr f) (JStr t) = Ok tt -> validateStreamId sid = Ok tt ->
      validateLimit (coalesce lim (JNum (Num.of_Z 50))) = Throw e ->
        searchLogsAbsolute_params args = Throw e)) /\
  (forall q rs sid lim,
     relative_request args q rs sid lim -> trim q <> "" ->
     (validateRangeSeconds (coalesce rs (JNum (Num.of_Z 900))) = Throw e ->
        searchLogsRelative_params args = Throw e) /\
     (validateRangeSeconds (coalesce rs (JNum (Num.of_Z 900))) = Ok tt ->
      validateStreamId sid = Throw e ->
        searchLogsRelative_params args = Throw e) /\
     (validateRangeSeconds (coalesce rs (JNum (Num.of_Z 900))) = Ok tt ->
      validateStreamId sid = Ok tt ->
      validateLimit (coalesce lim (JNum (Num.of_Z 50))) = Throw e ->
        searchLogsRelative_params args = Throw e)).
Proof.
  split.
  - intros q f t sid lim Hargs Hq.
    assert (Hnn := get_Ok_not_nullish _ _ _ (proj1 Hargs)).
    destruct Hargs as (Hgq & Hgf & Hgt & Hgs & Hgl).
    unfold searchLogsAbsolute_params, destructure.
    rewrite Hnn, Hgq, Hgf, Hgt, Hgs, Hgl. cbn [bind].
    rewrite (proj2 (validateQuery_Ok (JStr q))) by eauto. cbn [bind].
    repeat split.
    + intros ->. reflexivity.
    + intros -> ->. reflexivity.
    + intros -> -> ->. reflexivity.
  - intros q rs sid lim Hargs Hq.
    rewrite (searchLogsRelative_params_checks _ _ _ _ _ Hargs Hq).
    repeat split.
    + intros ->. reflexivity.
    + intros -> ->. reflexivity.
    + intros -> -> ->. reflexivity.
Qed.

End TypedArguments.

(** *** The further properties at concrete inputs *)

(** X7 at an absolute search without [from]. *)
Lemma required_properties_are_enforced_witness :
  isOk (searchLogsAbsolute_params (rt := Reference.engine)
          (JObj [("query", JStr "level:ERROR");
                 ("to", JStr "2025-09-30T12:36:20.910Z")])) = false.
Proof.
  exact (proj1 (required_properties_are_enforced (rt := Reference.engine)
                  (JObj [("query", JStr "level:ERROR");
                         ("to", JStr "2025-09-30T12:36:20.910Z")])
                  "from" eq_refl)
           (or_intror (or_introl eq_refl))).
Defined.

(** X8 at the absolute search of the examples. *)
Lemma advertised_defaults_are_applied_witness :
  searchLogsAbsolute_params (rt := Reference.engine) (absoluteArgs [])
  = searchLogsAbsolute_params (rt := Reference.engine)
      (JObj [("limit", JNum (Num.of_Z 50));
             ("query", JStr "level:ERROR");
             ("from", JStr "2025-09-29T17:57:26.568Z");
             ("to", JStr "2025-09-30T12:36:20.910Z")]).
Proof.
  exact (proj1 (advertised_defaults_are_applied (rt := Reference.engine)
                  [("query", JStr "level:ERROR");
                   ("from", JStr "2025-09-29T17:57:26.568Z");
                   ("to", JStr "2025-09-30T12:36:20.910Z")]
                  eq_refl eq_refl)).
Defined.

(** X9 at the time range of the examples. *)
Lemma swapped_time_range_is_rejected_witness :
  validateTimeRange (rt := Reference.engine)
    (JStr "2025-09-30T12:36:20.910Z") (JStr "2025-09-29T17:57:26.568Z")
  = Throw (Error "'from' timestamp must be before 'to' timestamp").
Proof.
  refine (proj1 (swapped_time_range_is_rejected (rt := Reference.engine)
                   "2025-09-29T17:57:26.568Z" "2025-09-30T12:36:20.910Z" _)).
  vm_compute. reflexivity.
Defined.

(** X12 at a search filtered by a stream. *)
Lemma stream_filter_parameter_witness :
  get (absoluteParams "level:ERROR" "2025-09-29T17:57:26.568Z" "2025-09-30T12:36:20.910Z"
         (JStr "646221a5bd29672a6f0246d8") (JNum (Num.of_Z 50)))
      "filter"
  = Ok (JStr "streams:646221a5bd29672a6f0246d8").
Proof.
  refine (proj1 (proj2
            (stream_filter_parameter (rt := Reference.engine)
               (absoluteArgs [("streamId", JStr "646221a5bd29672a6f0246d8")])
               (absoluteParams "level:ERROR" "2025-09-29T17:57:26.568Z"
                  "2025-09-30T12:36:20.910Z"
                  (JStr "646221a5bd29672a6f0246d8") (JNum (Num.of_Z 50)))
               (JStr "646221a5bd29672a6f0246d8") eq_refl (or_introl _)))
            "646221a5bd29672a6f0246d8" eq_refl _).
  - vm_compute. reflexivity.
  - discriminate.
Defined.

(** X14 at a stream list that the remote does not answer. *)
Lemma remote_failure_reaches_the_caller_witness :
  snd (CallToolRequest_handler (rt := Reference.engine) (env := exampleEnv noAnswer)
         (mkRequest "list_streams" JUndefined))
  = mkEnvelope
      [mkContent "text"
         "Error: Cannot reach Graylog at https://graylog.example.com. Check network connectivity."]
      (Some true).
Proof.
  exact (proj1 (remote_failure_reaches_the_caller
                  (rt := Reference.engine) (env := exampleEnv noAnswer)
                  (mkRequest "list_streams" JUndefined)
                  "https://graylog.example.com/api/streams" (JObj [])
                  (mkAxiosError None true "timeout of 30000ms exceeded")
                  "Cannot reach Graylog at https://graylog.example.com. Check network connectivity."
                  eq_refl eq_refl eq_refl)).
Defined.

Lemma compare_transitive (x y z : string) :
  String.compare x y <> Gt -> String.compare y z <> Gt -> String.compare x z <> Gt.
Proof.
  intros Hxy Hyz.
  destruct (String.compare x y) eqn:Exy; [| |now elim Hxy];
    destruct (String.compare y z) eqn:Eyz; try (now elim Hyz).
  - apply String.compare_eq_iff in Exy, Eyz. subst.
    change (String_as_OT.cmp z z <> Gt).
    rewrite (proj2 (String_as_OT.cmp_eq z z) eq_refl). discriminate.
  - apply String.compare_eq_iff in Exy. subst. rewrite Eyz. discriminate.
  - apply String.compare_eq_iff in Eyz. subst. rewrite Exy. discriminate.
  - apply String_as_OT.cmp_lt in Exy, Eyz.
    change (String_as_OT.cmp x z <> Gt).
    rewrite (proj2 (String_as_OT.cmp_lt x z) (String_as_OT.lt_trans _ _ _ Exy Eyz)).
    discriminate.
Qed.

(** X19 at two streams that share a title. *)
Lemma equal_titles_keep_their_order_witness :
  exists sorted,
    streamsResult (rt := Reference.engine)
      (JObj [("streams", JArr [stream "2" "nexus" []; stream "1" "nexus" []])])
    = Ok (JObj [("total", JNum (Num.of_Z (Z.of_nat (List.length (map projectedStream sorted)))));
                ("streams", JArr (map projectedStream sorted))]) /\
    filter (fun s => String.eqb (title_of s) "nexus") sorted
    = [stream "2" "nexus" []; stream "1" "nexus" []].
Proof.
  refine (equal_titles_keep_their_order (rt := Reference.engine)
            [("streams", JArr [stream "2" "nexus" []; stream "1" "nexus" []])]
            [stream "2" "nexus" []; stream "1" "nexus" []] "nexus" eq_refl _ _ _ _).
  - repeat constructor.
  - repeat constructor; eexists; reflexivity.
  - intros x y. apply String.compare_antisym.
  - exact compare_transitive.
Defined.

(** X20 at the two upper bounds. *)
Lemma whole_numbers_in_range_pass_witness :
  validateLimit (rt := Reference.engine) (JNum (Num.of_Z 1000)) = Ok tt /\
  validateRangeSeconds (rt := Reference.engine) (JNum (Num.of_Z 86400)) = Ok tt.
Proof.
  split.
  - apply (proj1 (whole_numbers_in_range_pass (rt := Reference.engine) 1000)). lia.
  - apply (proj2 (whole_numbers_in_range_pass (rt := Reference.engine) 86400)). lia.
Defined.

(** X22 at an empty query. *)
Lemma typed_arguments_get_a_message_witness :
  In "'query' parameter is required and must be a non-empty string" validationMessages.
Proof.
  refine (proj2 (typed_arguments_get_a_message (rt := Reference.engine)
                   [("query", JStr "")]
                   (Error "'query' parameter is required and must be a non-empty string")
                   _ _ (or_introl eq_refl))).
  - intros k Hk. cbn in Hk.
    destruct Hk as [<- | [<- | [<- | [<- | []]]]]; cbn; eauto.
  - intros k Hk. cbn in Hk. destruct Hk as [<- | [<- | []]]; cbn; eauto.
Defined.

(** ** Message shaping and failure normalisation, as the code has them *)

Section NormalisedFailures.
Context {rt : Runtime} {env : Env}.

Lemma message_or_truthy (data : JsValue) (fallback s : string) :
  truthy (get_opt data "message") = true ->
  ToString (get_opt data "message") = Ok s ->
  message_or data fallback = Ok s.
Proof. intros Ht Hs. unfold message_or, or_else. now rewrite Ht. Qed.

Lemma message_or_primitive (data : JsValue) (fallback : string) :
  (forall items, get_opt data "message" <> JArr items) ->
  (forall fields, get_opt data "message" <> JObj fields) ->
  exists s, message_or data fallback = Ok s.
Proof.
  intros Ha Ho. unfold message_or, or_else.
  destruct (truthy (get_opt data "message")); [|eexists; reflexivity].
  now apply ToString_primitive.
Qed.

(** C6, as the code has it.  [formatError] by case.  A 401 answer gives
    the fixed authentication guidance and a 404 answer the fixed endpoint
    guidance, whatever the body.  A 400 answer, a 500 answer and any other
    status give their own prefix followed by the [message] of the body
    converted to a string when that message is truthy, and by the fallback
    when it is absent or falsy; this holds whenever the message converts to
    a string, which every absent or primitive message does (a message that
    is an object or array and does not convert is not normalised: the
    conversion throws).  No answer at all gives the cannot-reach message
    with the configured base address; a failure with neither answer nor
    request gives its own message unchanged. *)
Theorem formatError_by_case (error : AxiosError) :
  (forall r, response error = Some r -> status r = 401 ->
     formatError error
     = Ok "Authentication failed. Check API_TOKEN in MCP configuration.") /\
  (forall r, response error = Some r -> status r = 404 ->
     formatError error
     = Ok "Endpoint not found. Check BASE_URL in MCP configuration.") /\
  (forall r, response error = Some r -> status r = 400 ->
     (truthy (get_opt (data r) "message") = false ->
        formatError error = Ok "Invalid query: Check query syntax and parameters") /\
     (forall s, truthy (get_opt (data r) "message") = true ->
        ToString (get_opt (data r) "message") = Ok s ->
        formatError error = Ok ("Invalid query: " ++ s)) /\
     (forall s, get_opt (data r) "message" = JStr s -> s <> "" ->
        formatError error = Ok ("Invalid query: " ++ s)) /\
     ((forall items, get_opt (data r) "message" <> JArr items) ->
      (forall fields, get_opt (data r) "message" <> JObj fields) ->
        exists detail, formatError error = Ok ("Invalid query: " ++ detail)) /\
     (forall m, formatError error = Ok m -> exists detail, m = "Invalid query: " ++ detail)) /\
  (forall r, response error = Some r -> status r = 500 ->
     (truthy (get_opt (data r) "message") = false ->
        formatError error = Ok ("Graylog server error: " ++ error_message error)) /\
     (forall s, truthy (get_opt (data r) "message") = true ->
        ToString (get_opt (data r) "message") = Ok s ->
        formatError error = Ok ("Graylog server error: " ++ s)) /\
     (forall s, get_opt (data r) "message" = JStr s -> s <> "" ->
        formatError error = Ok ("Graylog server error: " ++ s)) /\
     ((forall items, get_opt (data r) "message" <> JArr items) ->
      (forall fields, get_opt (data r) "message" <> JObj fields) ->
        exists detail, formatError error = Ok ("Graylog server error: " ++ detail)) /\
     (forall m, formatError error = Ok m ->
        exists detail, m = "Graylog server error: " ++ detail)) /\
  (forall r, response error = Some r ->
     status r <> 401 -> status r <> 400 -> status r <> 404 -> status r <> 500 ->
     (truthy (get_opt (data r) "message") = false ->
        formatError error
        = Ok ("Graylog API error (" ++ Num.string_of_Z (status r) ++ "): "
              ++ error_message error)) /\
     (forall s, truthy (get_opt (data r) "message") = true ->
        ToString (get_opt (data r) "message") = Ok s ->
        formatError error
        = Ok ("Graylog API error (" ++ Num.string_of_Z (status r) ++ "): " ++ s)) /\
     (forall s, get_opt (data r) "message" = JStr s -> s <> "" ->
        formatError error
        = Ok ("Graylog API error (" ++ Num.string_of_Z (status r) ++ "): " ++ s)) /\
     ((forall items, get_opt (data r) "message" <> JArr items) ->
      (forall fields, get_opt (data r) "message" <> JObj fields) ->
        exists detail,
          formatError error
          = Ok ("Graylog API error (" ++ Num.string_of_Z (status r) ++ "): " ++ detail)) /\
     (forall m, formatError error = Ok m ->
        exists detail,
          m = "Graylog API error (" ++ Num.string_of_Z (status r) ++ "): " ++ detail)) /\
  (response error = None -> request error = true ->
     formatError error
     = Ok ("Cannot reach Graylog at " ++ baseUrl ++ ". Check network connectivity.")) /\
  (response error = None -> request error = false ->
     formatError error = Ok (error_message error)).
Proof.
  unfold formatError.
  repeat match goal with |- _ /\ _ => split end.
  - intros r -> ->. reflexivity.
  - intros r -> ->. reflexivity.
  - intros r -> ->. cbn [Z.eqb Pos.eqb].
    split; [|split; [|split; [|split]]].
    + intros H. now rewrite message_or_fallback.
    + intros s Ht Hs. now rewrite (message_or_truthy _ _ s).
    + intros s H Hs. now rewrite (message_or_string _ _ s).
    + intros Ha Ho. destruct (message_or_primitive (data r)
                                "Check query syntax and parameters" Ha Ho) as [s ->].
      cbn [bind]. eauto.
    + intros m H. bind_inv H. eexists. symmetry. injection H as H. exact H.
  - intros r -> ->. cbn [Z.eqb Pos.eqb].
    split; [|split; [|split; [|split]]].
    + intros H. now rewrite message_or_fallback.
    + intros s Ht Hs. now rewrite (message_or_truthy _ _ s).
    + intros s H Hs. now rewrite (message_or_string _ _ s).
    + intros Ha Ho. destruct (message_or_primitive (data r)
                                (error_message error) Ha Ho) as [s ->].
      cbn [bind]. eauto.
    + intros m H. bind_inv H. eexists. symmetry. injection H as H. exact H.
  - intros r -> H1 H2 H3 H4.
    apply Z.eqb_neq in H1, H2, H3, H4. rewrite H1, H2, H3, H4.
    split; [|split; [|split; [|split]]].
    + intros H. now rewrite message_or_fallback.
    + intros s Ht Hs. now rewrite (message_or_truthy _ _ s).
    + intros s H Hs. now rewrite (message_or_string _ _ s).
    + intros Ha Ho. destruct (message_or_primitive (data r)
                                (error_message error) Ha Ho) as [s ->].
      cbn [bind]. eauto.
    + intros m H. bind_inv H. eexists. symmetry. injection H as H. exact H.
  - intros -> ->. reflexivity.
  - intros -> ->. reflexivity.
Qed.

End NormalisedFailures.

Section ShapedMessages.
Context {rt : Runtime} {env : Env}.

Lemma keptMessage_true (m : JsValue) :
  keptMessage m = true <-> truthy m = true /\ truthy (get_opt m "message") = true.
Proof. unfold keptMessage. apply andb_true_iff. Qed.

Lemma searchResult_messages (fields : list (string * JsValue)) (raw : list JsValue)
      (time_range : JsValue) :
  lookup "messages" fields = Some (JArr raw) ->
  searchResult (JObj fields) time_range
  = Ok (JObj [("total_results",
               or_else (get_opt (JObj fields) "total_results") (JNum (Num.of_Z 0)));
              ("query", get_opt (JObj fields) "built_query");
              ("time_range", time_range);
              ("messages", JArr (map projectedMessage (filter keptMessage raw)))]).
Proof.
  intros H. unfold searchResult. cbn [get bind get_opt]. rewrite H.
  rewrite formatMessages_array. reflexivity.
Qed.

(** C4, as the code has it.  When a search is accepted and the remote
    answers with an array of [messages], the tool returns the text of a
    result whose [messages] are, in the order of the source array, the
    projections to [timestamp], [message], [source], [level] (read from
    the nested payload) of the entries that pass the test [m && m.message].
    That test drops every entry that is falsy, null and absent included,
    and every entry whose nested payload is falsy: null or absent, but
    also the empty string, 0, NaN and [false]; it keeps every entry whose
    payload is an object.  Null entries, undefined entries, entries
    without or with a null payload and one well-formed entry give exactly
    the projection of the well-formed one. *)
Theorem search_tools_shape_messages
        (fields : list (string * JsValue)) (raw : list JsValue) :
  lookup "messages" fields = Some (JArr raw) ->
  (forall args params q f t sid lim,
     searchLogsAbsolute_params args = Ok params ->
     absolute_request args q f t sid lim ->
     axios_get (baseUrl ++ "/api/search/universal/absolute") params
     = Resolved (JObj fields) ->
     searchLogsAbsolute args
     = ([mkHttpGet (baseUrl ++ "/api/search/universal/absolute") params],
        Ok (textResult
              (JObj [("total_results",
                      or_else (get_opt (JObj fields) "total_results") (JNum (Num.of_Z 0)));
                     ("query", get_opt (JObj fields) "built_query");
                     ("time_range", JObj [("from", JStr f); ("to", JStr t)]);
                     ("messages",
                      JArr (map projectedMessage (filter keptMessage raw)))])))) /\
  (forall args params q rs sid lim seconds,
     searchLogsRelative_params args = Ok params ->
     relative_request args q rs sid lim ->
     ToString (coalesce rs (JNum (Num.of_Z 900))) = Ok seconds ->
     axios_get (baseUrl ++ "/api/search/universal/relative") params
     = Resolved (JObj fields) ->
     searchLogsRelative args
     = ([mkHttpGet (baseUrl ++ "/api/search/universal/relative") params],
        Ok (textResult
              (JObj [("total_results",
                      or_else (get_opt (JObj fields) "total_results") (JNum (Num.of_Z 0)));
                     ("query", get_opt (JObj fields) "built_query");
                     ("time_range", JStr ("Last " ++ seconds ++ " seconds"));
                     ("messages",
                      JArr (map projectedMessage (filter keptMessage raw)))])))) /\
  (forall m, keptMessage m = true <->
             truthy m = true /\ truthy (get_opt m "message") = true) /\
  (forall m, nullish m = true \/ nullish (get_opt m "message") = true ->
             keptMessage m = false) /\
  (forall m, In (get_opt m "message")
                [JStr ""; JNum (Num.of_Z 0); JNum Num.NaN; JBool false] ->
             keptMessage m = false) /\
  (forall entry payload,
     lookup "message" entry = Some (JObj payload) ->
     keptMessage (JObj entry) = true /\
     projectedMessage (JObj entry)
     = JObj [("timestamp", get_opt (JObj payload) "timestamp");
             ("message", get_opt (JObj payload) "message");
             ("source", get_opt (JObj payload) "source");
             ("level", get_opt (JObj payload) "level")]) /\
  (forall ts msg src lvl,
     raw = [JNull; JUndefined; JObj []; JObj [("message", JNull)];
            JObj [("message", JObj [("timestamp", ts); ("message", msg);
                                    ("source", src); ("level", lvl)])]] ->
     map projectedMessage (filter keptMessage raw)
     = [JObj [("timestamp", ts); ("message", msg);
              ("source", src); ("level", lvl)]]).
Proof.
  intros Hm.
  repeat match goal with |- _ /\ _ => split end.
  - intros args params q f t sid lim Hp (_ & Hf & Ht & _) Hres.
    unfold searchLogsAbsolute. rewrite Hp, bindA_lift_Ok.
    rewrite (request_resolved_then _ _ _ _ Hres), Hf, Ht. cbn [bind].
    now rewrite (searchResult_messages fields raw _ Hm).
  - intros args params q rs sid lim seconds Hp (_ & Hr & _) Hs Hres.
    unfold searchLogsRelative. rewrite Hp, bindA_lift_Ok.
    rewrite (request_resolved_then _ _ _ _ Hres), Hr. cbn [bind].
    rewrite Hs. cbn [bind].
    now rewrite (searchResult_messages fields raw _ Hm).
  - intros m. apply keptMessage_true.
  - intros m [H | H]; unfold keptMessage.
    + destruct m; try discriminate; reflexivity.
    + destruct (get_opt m "message"); try discriminate; apply andb_false_r.
  - intros m H. unfold keptMessage.
    cbn [In] in H. destruct H as [<- | [<- | [<- | [<- | []]]]];
      apply andb_false_r.
  - intros entry payload H. split.
    + unfold keptMessage. cbn [truthy get_opt andb]. now rewrite H.
    + unfold projectedMessage. cbn [get_opt]. now rewrite H.
  - intros ts msg src lvl ->. reflexivity.
Qed.

End ShapedMessages.

(** C6 at a 500 answer whose body carries a message. *)
Lemma formatError_by_case_witness :
  formatError (rt := Reference.engine) (env := exampleEnv noAnswer)
    (mkAxiosError
       (Some (mkResponse 500 (JObj [("message", JStr "Internal error")])))
       true "Request failed with status code 500")
  = Ok "Graylog server error: Internal error".
Proof.
  exact (proj1 (proj2
           (proj1 (proj2 (proj2 (proj2
              (formatError_by_case (rt := Reference.engine) (env := exampleEnv noAnswer)
                 (mkAxiosError
                    (Some (mkResponse 500 (JObj [("message", JStr "Internal error")])))
                    true "Request failed with status code 500")))))
              (mkResponse 500 (JObj [("message", JStr "Internal error")]))
              eq_refl eq_refl))
           "Internal error" eq_refl eq_refl).
Defined.

(** C6 as stated fails: a 400 answer whose [message] is an object with a
    property named [toString] is not normalised to any message. *)
Lemma formatError_counterexample :
  ~ every_400_yields_a_message Reference.engine (exampleEnv noAnswer).
Proof.
  intros H.
  destruct (H (mkAxiosError
                 (Some (mkResponse 400
                          (JObj [("message", JObj [("toString", JNum (Num.of_Z 1))])])))
                 true "Request failed with status code 400")
              _ eq_refl eq_refl) as [detail Hd].
  discriminate Hd.
Qed.

Example unprintable_message_run :
  formatError (rt := Reference.engine) (env := exampleEnv noAnswer)
    (mkAxiosError
       (Some (mkResponse 400
                (JObj [("message", JObj [("toString", JNum (Num.of_Z 1))])])))
       true "Request failed with status code 400")
  = Throw (TypeError "Cannot convert object to primitive value").
Proof. reflexivity. Qed.

(** C4 at a relative search answered with one well-formed entry among
    malformed ones. *)
Lemma search_tools_shape_messages_witness :
  snd (searchLogsRelative (rt := Reference.engine)
         (env := exampleEnv
                   (Resolved
                      (JObj [("total_results", JNum (Num.of_Z 1));
                             ("messages",
                              JArr [JNull;
                                    JObj [("message", JNull)];
                                    JObj [("message", JStr "")];
                                    JObj [("message",
                                           JObj [("timestamp", JStr "2025-10-23T12:00:00Z");
                                                 ("message", JStr "Valid log");
                                                 ("source", JStr "nexus");
                                                 ("level", JStr "INFO")])]])])))
         (relativeArgs []))
  = Ok (textResult (rt := Reference.engine)
          (JObj [("total_results", JNum (Num.of_Z 1));
                 ("query", JUndefined);
                 ("time_range", JStr "Last 900 seconds");
                 ("messages",
                  JArr [JObj [("timestamp", JStr "2025-10-23T12:00:00Z");
                              ("message", JStr "Valid log");
                              ("source", JStr "nexus");
                              ("level", JStr "INFO")]])])).
Proof.
  refine (f_equal snd
            (proj1 (proj2
               (search_tools_shape_messages (rt := Reference.engine)
                  (env := exampleEnv
                   (Resolved
                      (JObj [("total_results", JNum (Num.of_Z 1));
                             ("messages",
                              JArr [JNull;
                                    JObj [("message", JNull)];
                                    JObj [("message", JStr "")];
                                    JObj [("message",
                                           JObj [("timestamp", JStr "2025-10-23T12:00:00Z");
                                                 ("message", JStr "Valid log");
                                                 ("source", JStr "nexus");
                                                 ("level", JStr "INFO")])]])])))
                  [("total_results", JNum (Num.of_Z 1));
                   ("messages",
                    JArr [JNull;
                          JObj [("message", JNull)];
                          JObj [("message", JStr "")];
                          JObj [("message",
                                 JObj [("timestamp", JStr "2025-10-23T12:00:00Z");
                                       ("message", JStr "Valid log");
                                       ("source", JStr "nexus");
                                       ("level", JStr "INFO")])]])]
                  _ eq_refl))
               (relativeArgs [])
               (relativeParams "level:ERROR" (JNum (Num.of_Z 900)) JUndefined
                  (JNum (Num.of_Z 50)))
               "level:ERROR" JUndefined JUndefined JUndefined "900" _ _ _ eq_refl)).
  - vm_compute. reflexivity.
  - repeat split.
  - vm_compute. reflexivity.
Defined.

(** C4 as stated fails: an entry whose nested payload is the empty string
    is neither null nor absent, and the search drops it all the same. *)
Lemma search_messages_counterexample :
  ~ shapes_messages_as_stated Reference.engine
      (exampleEnv (Resolved (JObj [("messages", JArr [JObj [("message", JStr "")]])]))).
Proof.
  intros H.
  specialize (H (relativeArgs [])
                (relativeParams "level:ERROR" (JNum (Num.of_Z 900)) JUndefined
                   (JNum (Num.of_Z 50)))
                "level:ERROR" JUndefined JUndefined JUndefined "900"
                [("messages", JArr [JObj [("message", JStr "")]])]
                [JObj [("message", JStr "")]]).
  assert (Hp : searchLogsRelative_params (rt := Reference.engine) (relativeArgs [])
               = Ok (relativeParams "level:ERROR" (JNum (Num.of_Z 900)) JUndefined
                       (JNum (Num.of_Z 50))))
    by (vm_compute; reflexivity).
  assert (Hs : ToString (rt := Reference.engine)
                 (coalesce JUndefined (JNum (Num.of_Z 900))) = Ok "900")
    by (vm_compute; reflexivity).
  specialize (H Hp ltac:(repeat split) Hs eq_refl eq_refl).
  vm_compute in H. discriminate H.
Qed.

Example empty_payload_run :
  keptAsStated (JObj [("message", JStr "")]) = true /\
  keepMessage (JObj [("message", JStr "")]) = Ok false /\
  formatMessages (JArr [JObj [("message", JStr "")]; JObj [("message", JNum (Num.of_Z 0))];
                        JObj [("message", JBool false)]]) = Ok [].
Proof. repeat split. Qed.
